(** * Projector: the project surveyor engine and its list/detail screens

    A shallow embedding of [internal/projector] (project.go, git.go,
    scanner.go), of the project-list and project-detail screens of
    [internal/ui/screens] and of the navigation router of [internal/ui],
    with the properties of the specification that concern them, and further
    properties of the same code.

    Conventions.
    - A Go [string] is a byte sequence: Rocq's [string] (a list of [ascii]).
      [len] is the byte length.
    - A Go [int] is a [Z].  The only arithmetic the modelled code performs on
      ints is [len], comparisons, and a guarded increment/decrement of the
      selection index, none of which can leave the 64-bit range.  A
      [time.Duration] is a [Z] of nanoseconds, and the one product the router
      takes of it wraps around at 64 bits.
    - A Go [error] is its message; [(v, err)] results are pairs whose second
      component is an [option error] ([None] is [nil]).
    - File-system and subprocess effects are read from a [World] and recorded,
      in program order, in a trace of [Event]s. *)

From Stdlib Require Import ZArith String Ascii List Bool Lia Permutation.
From Stdlib Require Import DecimalString.
Import ListNotations.
Local Open Scope string_scope.
Local Open Scope Z_scope.

(** ** Go values *)

Definition error := string.

Definition len (s : string) : Z := Z.of_nat (String.length s).

(** [s[:n]] for [0 <= n <= len s] (Go panics outside that range; every use
    below is guarded). *)
Definition slice_to (s : string) (n : Z) : string :=
  String.substring 0 (Z.to_nat n) s.

(** [strings.Split(s, sep)] for a one-byte separator. *)
Fixpoint Split (s : string) (sep : ascii) : list string :=
  match s with
  | EmptyString => [""]
  | String c s' =>
      if Ascii.eqb c sep then "" :: Split s' sep
      else match Split s' sep with
           | h :: t => String c h :: t
           | [] => [String c ""]
           end
  end.

(** [strings.SplitN(s, sep, n)] for a one-byte separator and [n >= 0]. *)
Fixpoint SplitN (s : string) (sep : ascii) (n : nat) {struct s} : list string :=
  match n with
  | O => []
  | S O => [s]
  | S (S _ as n') =>
      match s with
      | EmptyString => [""]
      | String c s' =>
          if Ascii.eqb c sep then "" :: SplitN s' sep n'
          else match SplitN s' sep n with
               | h :: t => String c h :: t
               | [] => [String c ""]
               end
      end
  end.

(** [strings.Contains(s, substr)] on bytes. *)
Fixpoint Contains (s substr : string) : bool :=
  String.prefix substr s
  || match s with
     | EmptyString => false
     | String _ s' => Contains s' substr
     end.

Definition nl : string := String "010"%char "".

(** The double-quote character, as a string. *)
Definition dq : string := String "034"%char "".

(** [l[i]]; [None] stands for the index-out-of-range panic. *)
Definition index {A} (l : list A) (i : Z) : option A :=
  if i <? 0 then None else nth_error l (Z.to_nat i).

Definition llen {A} (l : list A) : Z := Z.of_nat (length l).

(** [strings.Join(parts, sep)] *)
Definition Join (parts : list string) (sep : string) : string :=
  String.concat sep parts.

(** [fmt.Sprintf("%d", n)] *)
Definition itoa (n : Z) : string := NilZero.string_of_int (Z.to_int n).

(** [time.Time], as the seconds of its internal representation (counted from
    January 1, year 1, so that the zero value is [0]); sub-second parts never
    occur in the modelled code. *)
Definition Time := Z.
Definition zeroTime : Time := 0.
Definition unixToInternal : Z := 62135596800.
Definition wrap64 (z : Z) : Z := (z + 2 ^ 63) mod 2 ^ 64 - 2 ^ 63.
Definition time_Unix (sec : Z) : Time := wrap64 (sec + unixToInternal).
Definition IsZero (t : Time) : bool := t =? 0.

(** Functions of the Go standard library whose result depends on Unicode
    tables, on the platform, or on numeric ranges; the development is
    parametric in them. *)
Record GoLib := {
  TrimSpace : string -> string;
  ToLower : string -> string;
  Atoi : string -> Z * option error;
  ParseInt : string -> Z * option error;   (* base 10, 64 bits *)
  filepath_Join : string -> string -> string;
  filepath_Base : string -> string
}.

(** ** The outside world and the trace of effects *)

Inductive ExecResult :=
| ExecOutput (stdout : string)        (* exit status 0 *)
| ExecExitError (stderr : string)     (* [*exec.ExitError] *)
| ExecFailure (err : error).          (* any other error, e.g. a timeout *)

Record DirEntry := { entry_Name : string; entry_IsDir : bool }.

Inductive StatResult :=
| StatInfo (isDir : bool)
| StatNotExist (err : error)          (* [os.IsNotExist(err)] *)
| StatFailure (err : error).

Record World := {
  os_ReadDir : string -> list DirEntry + error;
  os_Stat : string -> StatResult;
  exec_git : string -> list string -> ExecResult
}.

Inductive Event :=
| EvReadDir (dir : string)
| EvStat (path : string)
| EvGit (dir : string) (args : list string)
| EvLog (msg : string) (err : error).

Definition IO (A : Type) : Type := (A * list Event)%type.

Definition ret {A} (a : A) : IO A := (a, []).

Definition bind {A B} (m : IO A) (k : A -> IO B) : IO B :=
  let (a, t1) := m in
  let (b, t2) := k a in
  (b, (t1 ++ t2)%list).

Definition emit (e : Event) : IO unit := (tt, [e]).

Definition result {A} (m : IO A) : A := fst m.
Definition trace {A} (m : IO A) : list Event := snd m.

Notation "x <- m ;; k" := (bind m (fun x => k))
  (at level 61, m at next level, right associativity).
Notation "' p <- m ;; k" := (bind m (fun x => match x with p => k end))
  (at level 61, p pattern, m at next level, right associativity).
Notation "m ;; k" := (bind m (fun _ => k))
  (at level 61, right associativity).

(** [logger.Debug().Err(err)...Msg(msg)] *)
Definition logDebug (msg : string) (err : error) : IO unit :=
  emit (EvLog msg err).

Definition isProbe (e : Event) : bool :=
  match e with EvGit _ _ | EvStat _ => true | _ => false end.

Module projector.

(** *** project.go *)

Inductive StatusType :=
| StatusClean
| StatusDirty
| StatusAhead
| StatusBehind
| StatusDiverged
| StatusNoRemote.


Record GitStatus := mkGitStatus {
  Branch : string;
  Remote : string;
  Uncommitted : Z;
  Unpushed : Z;
  Unpulled : Z;
  LastCommitMsg : string;
  LastCommitTime : Time;
  LastCommitAuthor : string;
  Status : StatusType
}.

Record Project := mkProject {
  Name : string;
  Path : string;
  Language : string;
  Size : Z;
  LastModified : Time;
  Git : GitStatus
}.

(** The zero value ([var status GitStatus]). *)
Definition zeroGitStatus : GitStatus :=
  mkGitStatus "" "" 0 0 0 "" zeroTime "" StatusClean.

Definition StatusType_String (s : StatusType) : string :=
  match s with
  | StatusClean => "clean"
  | StatusDirty => "dirty"
  | StatusAhead => "ahead"
  | StatusBehind => "behind"
  | StatusDiverged => "diverged"
  | StatusNoRemote => "no-remote"
  end.

(** Field assignments. *)
Definition set_Branch (s : GitStatus) (v : string) :=
  mkGitStatus v (Remote s) (Uncommitted s) (Unpushed s) (Unpulled s)
    (LastCommitMsg s) (LastCommitTime s) (LastCommitAuthor s) (Status s).
Definition set_Remote (s : GitStatus) (v : string) :=
  mkGitStatus (Branch s) v (Uncommitted s) (Unpushed s) (Unpulled s)
    (LastCommitMsg s) (LastCommitTime s) (LastCommitAuthor s) (Status s).
Definition set_Uncommitted (s : GitStatus) (v : Z) :=
  mkGitStatus (Branch s) (Remote s) v (Unpushed s) (Unpulled s)
    (LastCommitMsg s) (LastCommitTime s) (LastCommitAuthor s) (Status s).
Definition set_Unpushed (s : GitStatus) (v : Z) :=
  mkGitStatus (Branch s) (Remote s) (Uncommitted s) v (Unpulled s)
    (LastCommitMsg s) (LastCommitTime s) (LastCommitAuthor s) (Status s).
Definition set_Unpulled (s : GitStatus) (v : Z) :=
  mkGitStatus (Branch s) (Remote s) (Uncommitted s) (Unpushed s) v
    (LastCommitMsg s) (LastCommitTime s) (LastCommitAuthor s) (Status s).
Definition set_LastCommitMsg (s : GitStatus) (v : string) :=
  mkGitStatus (Branch s) (Remote s) (Uncommitted s) (Unpushed s) (Unpulled s)
    v (LastCommitTime s) (LastCommitAuthor s) (Status s).
Definition set_LastCommitTime (s : GitStatus) (v : Time) :=
  mkGitStatus (Branch s) (Remote s) (Uncommitted s) (Unpushed s) (Unpulled s)
    (LastCommitMsg s) v (LastCommitAuthor s) (Status s).
Definition set_LastCommitAuthor (s : GitStatus) (v : string) :=
  mkGitStatus (Branch s) (Remote s) (Uncommitted s) (Unpushed s) (Unpulled s)
    (LastCommitMsg s) (LastCommitTime s) v (Status s).
Definition set_Status (s : GitStatus) (v : StatusType) :=
  mkGitStatus (Branch s) (Remote s) (Uncommitted s) (Unpushed s) (Unpulled s)
    (LastCommitMsg s) (LastCommitTime s) (LastCommitAuthor s) v.

Definition set_Git (p : Project) (g : GitStatus) :=
  mkProject (Name p) (Path p) (Language p) (Size p) (LastModified p) g.

(** *** git.go *)

Definition second : Z := 1000000000.

Record GitClient := { timeout : Z }.

Definition NewGitClient (timeout : Z) : GitClient :=
  let timeout := if timeout <=? 0 then 5 * second else timeout in
  {| timeout := timeout |}.

(** The argument vectors of the six queries. *)
Definition branchArgs := ["rev-parse"; "--abbrev-ref"; "HEAD"].
Definition remoteArgs := ["rev-parse"; "--abbrev-ref"; "@{u}"].
Definition uncommittedArgs := ["status"; "--porcelain"].
Definition unpushedArgs := ["rev-list"; "@{u}..HEAD"; "--count"].
Definition unpulledArgs := ["rev-list"; "HEAD..@{u}"; "--count"].
Definition lastCommitArgs := ["log"; "-1"; "--format=%s|%an|%ct"].

Section Git.

Variable lib : GoLib.
Variable w : World.

(** The context deadline shows only through the outcome of [cmd.Output()],
    which the world supplies. *)
Definition runGit (path : string) (args : list string)
  : IO (string * option error) :=
  emit (EvGit path args) ;;
  match exec_git w path args with
  | ExecOutput out => ret (out, None)
  | ExecExitError stderr =>
      ret ("", Some ("git " ++ hd "" args ++ ": " ++ stderr))
  | ExecFailure err => ret ("", Some err)
  end.

Definition getBranch (path : string) : IO (string * option error) :=
  '(out, err) <- runGit path branchArgs ;;
  match err with
  | Some e => ret ("", Some e)
  | None => ret (TrimSpace lib out, None)
  end.

Definition getRemote (path : string) : IO (string * option error) :=
  '(out, err) <- runGit path remoteArgs ;;
  match err with
  | Some e => ret ("", Some e)
  | None => ret (TrimSpace lib out, None)
  end.

Definition getUncommitted (path : string) : IO (Z * option error) :=
  '(out, err) <- runGit path uncommittedArgs ;;
  match err with
  | Some e => ret (0, Some e)
  | None =>
      let lines := TrimSpace lib out in
      if (lines =? "")%string then ret (0, None)
      else ret (Z.of_nat (length (Split lines "010"%char)), None)
  end.

Definition getUnpushed (path : string) : IO (Z * option error) :=
  '(out, err) <- runGit path unpushedArgs ;;
  match err with
  | Some e => ret (0, Some e)
  | None => ret (Atoi lib (TrimSpace lib out))
  end.

Definition getUnpulled (path : string) : IO (Z * option error) :=
  '(out, err) <- runGit path unpulledArgs ;;
  match err with
  | Some e => ret (0, Some e)
  | None => ret (Atoi lib (TrimSpace lib out))
  end.

Definition getLastCommit (path : string)
  : IO (string * string * Time * option error) :=
  '(out, err) <- runGit path lastCommitArgs ;;
  match err with
  | Some e => ret ("", "", zeroTime, Some e)
  | None =>
      match SplitN (TrimSpace lib out) "|"%char 3 with
      | [msg; author; ts] =>
          let (timestamp, err) := ParseInt lib ts in
          match err with
          | Some e => ret (msg, author, zeroTime, Some ("parsing timestamp: " ++ e))
          | None => ret (msg, author, time_Unix timestamp, None)
          end
      | _ => ret ("", "", zeroTime, Some ("unexpected log format: " ++ out))
      end
  end.

Definition determineStatus (uncommitted unpushed unpulled : Z) : StatusType :=
  if 0 <? uncommitted then StatusDirty
  else if (0 <? unpushed) && (0 <? unpulled) then StatusDiverged
  else if 0 <? unpushed then StatusAhead
  else if 0 <? unpulled then StatusBehind
  else StatusClean.

Definition logIfErr (msg : string) (err : option error) : IO unit :=
  match err with
  | Some e => logDebug msg e
  | None => ret tt
  end.

Definition GetStatus (g : GitClient) (projectPath : string)
  : IO (GitStatus * option error) :=
  let status := zeroGitStatus in
  '(branch, err) <- getBranch projectPath ;;
  match err with
  | Some e => ret (status, Some ("getting branch: " ++ e))
  | None =>
      let status := set_Branch status branch in
      '(remote, err) <- getRemote projectPath ;;
      status <- match err with
                | Some e =>
                    logDebug "no remote tracking" e ;;
                    ret (set_Status (set_Remote status "") StatusNoRemote)
                | None => ret (set_Remote status remote)
                end ;;
      '(uncommitted, err) <- getUncommitted projectPath ;;
      logIfErr "getting uncommitted" err ;;
      let status := set_Uncommitted status uncommitted in
      status <- (if negb (remote =? "")%string then
                   '(unpushed, err) <- getUnpushed projectPath ;;
                   logIfErr "getting unpushed" err ;;
                   let status := set_Unpushed status unpushed in
                   '(unpulled, err) <- getUnpulled projectPath ;;
                   logIfErr "getting unpulled" err ;;
                   let status := set_Unpulled status unpulled in
                   ret (set_Status status
                          (determineStatus uncommitted unpushed unpulled))
                 else if 0 <? uncommitted then
                   ret (set_Status status StatusDirty)
                 else ret status) ;;
      '(msg, author, commitTime, err) <- getLastCommit projectPath ;;
      match err with
      | Some e =>
          logDebug "getting last commit" e ;;
          ret (status, None)
      | None =>
          let status := set_LastCommitMsg status msg in
          let status := set_LastCommitAuthor status author in
          let status := set_LastCommitTime status commitTime in
          ret (status, None)
      end
  end.

End Git.

(** *** scanner.go *)

Record Scanner := mkScanner {
  rootDir : string;
  concurrency : Z;
  gitClient : GitClient
}.

Definition NewScanner (rootDir : string) (concurrency gitTimeout : Z) : Scanner :=
  let concurrency := if concurrency <=? 0 then 10 else concurrency in
  mkScanner rootDir concurrency (NewGitClient gitTimeout).

Section Scan.

Variable lib : GoLib.
Variable w : World.

Definition scanProject (s : Scanner) (dir : string)
  : IO (option Project * option error) :=
  let gitDir := filepath_Join lib dir ".git" in
  emit (EvStat gitDir) ;;
  match os_Stat w gitDir with
  | StatNotExist _ => ret (None, None)
  | StatFailure err => ret (None, Some err)
  | StatInfo isDir =>
      if negb isDir then ret (None, None)
      else
        let project :=
          mkProject (filepath_Base lib dir) dir "" 0 zeroTime zeroGitStatus in
        '(gitStatus, err) <- GetStatus lib w (gitClient s) dir ;;
        logIfErr "git status error" err ;;
        ret (Some (set_Git project gitStatus), None)
  end.

(** One worker draining a queue of jobs; the pair returned is what it sent
    on the [results] and on the [errors] channel, in sending order. *)
Fixpoint worker (s : Scanner) (jobs : list string)
  : IO (list Project * list error) :=
  match jobs with
  | [] => ret ([], [])
  | dir :: jobs' =>
      '(project, err) <- scanProject s dir ;;
      '(results, errors) <- worker s jobs' ;;
      match err with
      | Some e => ret (results, e :: errors)
      | None =>
          match project with
          | Some p => ret (p :: results, errors)
          | None => ret (results, errors)
          end
      end
  end.

Fixpoint logErrors (errors : list error) : IO unit :=
  match errors with
  | [] => ret tt
  | e :: errors' => logDebug "scan error" e ;; logErrors errors'
  end.

(** The worker pool.  All three channels are buffered with [len(dirs)], so no
    send blocks.  With [concurrency <= 0] no worker is started and the jobs
    stay in their channel.  Otherwise every job is taken by exactly one
    worker; the schedule modelled is the one in which jobs complete in
    dispatch order.  Any other schedule permutes [projects], the errors
    logged, and the trace; the theorems stated about them, unlike the lemmas
    that compute this run, do not depend on that order. *)
Definition Scan (s : Scanner) : IO (list Project * option error) :=
  emit (EvReadDir (rootDir s)) ;;
  match os_ReadDir w (rootDir s) with
  | inr err => ret ([], Some err)
  | inl entries =>
      let dirs :=
        map (fun entry => filepath_Join lib (rootDir s) (entry_Name entry))
            (filter entry_IsDir entries) in
      '(projects, errors) <-
        (if 0 <? concurrency s then worker s dirs else ret ([], [])) ;;
      logErrors errors ;;
      ret (projects, None)
  end.

End Scan.

End projector.

(** ** The theme package: the styled elements the screens use *)

Module theme.

Record Theme (Style : Type) := mkTheme {
  Title : Style;
  Subtle : Style;
  Success : Style;
  Warning : Style;
  Error : Style;
  Status : Style;
  App : Style
}.

Arguments Title {Style}.
Arguments Subtle {Style}.
Arguments Success {Style}.
Arguments Warning {Style}.
Arguments Error {Style}.
Arguments Status {Style}.
Arguments App {Style}.

End theme.

(** ** The screens package *)

Module screens.

(** What the screens take from lipgloss, bubbles and the theme and key
    packages.  [formatTimeAgo] reads the wall clock and works in floating
    point; it is kept abstract as well. *)
Record Toolkit := {
  Style : Type;
  GlobalKeyMap : Type;
  HelpStyles : Type;
  NewStyle : Style;
  Render : Style -> string -> string;
  Padding : Style -> Z -> Z -> Style;
  JoinVertical : list string -> string;
  theme_New : bool -> theme.Theme Style;
  keys_New : GlobalKeyMap;
  help_NewStyles : HelpStyles;
  help_DefaultStyles : bool -> HelpStyles;
  quote : string -> string;             (* [fmt.Sprintf("%q", s)] *)
  formatTimeAgo : Time -> string
}.

(** [tea.Msg] values that reach a screen. *)
Inductive Msg (Screen : Type) :=
| WindowSizeMsg (Width Height : Z)
| KeyPressMsg (key : string)                  (* by its [String()] *)
| BackgroundColorMsg (isDark : bool)
| ScanCompleteMsg (projects : list projector.Project) (err : option error)
| PushMsg (screen : Screen)
| PopMsg.

Arguments WindowSizeMsg {Screen}.
Arguments KeyPressMsg {Screen}.
Arguments BackgroundColorMsg {Screen}.
Arguments ScanCompleteMsg {Screen}.
Arguments PushMsg {Screen}.
Arguments PopMsg {Screen}.

(** [tea.Cmd]: a thunk that, run against the world, yields a message.
    [None] is the [nil] command. *)
Definition Cmd (Screen : Type) : Type := World -> IO (Msg Screen).

Module nav.

Definition Push {Screen} (screen : Screen) : Cmd Screen :=
  fun _ => ret (PushMsg screen).

Definition Pop {Screen} : Cmd Screen :=
  fun _ => ret PopMsg.

End nav.

(** [key.Binding], by its keys and help text. *)
Record Binding := NewBinding {
  binding_keys : list string;
  binding_help : string * string
}.

(** *** base.go *)

Record HelpModel (tk : Toolkit) := mkHelp {
  ShowAll : bool;
  Styles : HelpStyles tk
}.
Arguments ShowAll {tk}.
Arguments Styles {tk}.

Record ScreenBase (tk : Toolkit) := mkBase {
  Theme : theme.Theme (Style tk);
  IsDark : bool;
  Width : Z;
  Height : Z;
  Keys : GlobalKeyMap tk;
  Help : HelpModel tk;
  AppName : string
}.
Arguments Theme {tk}.
Arguments IsDark {tk}.
Arguments Width {tk}.
Arguments Height {tk}.
Arguments Keys {tk}.
Arguments Help {tk}.
Arguments AppName {tk}.

Inductive HelpKeyMap (tk : Toolkit) :=
| globalHelpKeys (app : GlobalKeyMap tk)
| projectsHelpKeys (app : GlobalKeyMap tk) (refresh enter : Binding).
Arguments globalHelpKeys {tk}.
Arguments projectsHelpKeys {tk}.

(** The two rendering helpers of [ScreenBase], which only delegate to
    lipgloss and to the help component. *)
Record BaseViews (tk : Toolkit) := {
  HeaderView : ScreenBase tk -> string;
  RenderHelp : ScreenBase tk -> HelpKeyMap tk -> string
}.
Arguments HeaderView {tk}.
Arguments RenderHelp {tk}.

Section Base.

Variable tk : Toolkit.

Definition ApplyTheme (b : ScreenBase tk) (isDark : bool) : ScreenBase tk :=
  mkBase tk (theme_New tk isDark) isDark (Width b) (Height b) (Keys b)
    (mkHelp tk (ShowAll (Help b)) (help_DefaultStyles tk isDark))
    (AppName b).

Definition NewBase (isDark : bool) (appName : string) : ScreenBase tk :=
  let zeroTheme :=
    theme.mkTheme _ (NewStyle tk) (NewStyle tk) (NewStyle tk) (NewStyle tk)
      (NewStyle tk) (NewStyle tk) (NewStyle tk) in
  let b :=
    mkBase tk zeroTheme false 0 0 (keys_New tk)
      (mkHelp tk false (help_NewStyles tk)) appName in
  ApplyTheme b isDark.

Definition set_Size (b : ScreenBase tk) (width height : Z) : ScreenBase tk :=
  mkBase tk (Theme b) (IsDark b) width height (Keys b) (Help b) (AppName b).

Definition toggle_ShowAll (b : ScreenBase tk) : ScreenBase tk :=
  mkBase tk (Theme b) (IsDark b) (Width b) (Height b) (Keys b)
    (mkHelp tk (negb (ShowAll (Help b))) (Styles (Help b))) (AppName b).

End Base.

Arguments ApplyTheme {tk}.
Arguments set_Size {tk}.
Arguments toggle_ShowAll {tk}.

(** *** The project-detail screen *)

Module ProjectDetailScreen.

Section Detail.

Variable tk : Toolkit.
Variable bv : BaseViews tk.
Variable Screen : Type.

Record t := mk {
  ScreenBase : screens.ScreenBase tk;
  project : projector.Project;
  ready : bool
}.

Definition NewProjectDetailScreen (project : projector.Project)
    (isDark : bool) (appName : string) : t :=
  mk (NewBase tk isDark appName) project false.

Definition Init (s : t) : option (Cmd Screen) := None.

Definition Update (s : t) (msg : Msg Screen) : t * option (Cmd Screen) :=
  match msg with
  | WindowSizeMsg width height =>
      (mk (set_Size (ScreenBase s) width height) (project s) true, None)
  | KeyPressMsg key =>
      if (key =? "esc")%string || (key =? "q")%string then (s, Some nav.Pop)
      else if (key =? "?")%string then
        (mk (toggle_ShowAll (ScreenBase s)) (project s) (ready s), None)
      else (s, None)
  | _ => (s, None)
  end.

Definition View (s : t) : string :=
  if negb (ready s) then "Loading..."
  else
    let b := ScreenBase s in
    let p := project s in
    let g := projector.Git p in
    let subtle := Render tk (theme.Subtle (Theme b)) in
    let head :=
      [Render tk (theme.Title (Theme b)) (projector.Name p);
       "";
       subtle "Path: " ++ projector.Path p] in
    let language :=
      if negb (projector.Language p =? "")%string
      then [subtle "Language: " ++ projector.Language p] else [] in
    let git :=
      ["";
       Render tk (theme.Status (Theme b)) "Git Status:";
       "  Branch: " ++ projector.Branch g] in
    let remote :=
      if negb (projector.Remote g =? "")%string
      then ["  Remote: " ++ projector.Remote g]
      else ["  Remote: (none)"] in
    let uncommitted :=
      if 0 <? projector.Uncommitted g
      then ["  Uncommitted: " ++ itoa (projector.Uncommitted g) ++ " file(s)"]
      else [] in
    let unpushed :=
      if 0 <? projector.Unpushed g
      then ["  Unpushed: " ++ itoa (projector.Unpushed g) ++ " commit(s)"]
      else [] in
    let unpulled :=
      if 0 <? projector.Unpulled g
      then ["  Unpulled: " ++ itoa (projector.Unpulled g) ++ " commit(s)"]
      else [] in
    let lastCommit :=
      if negb (projector.LastCommitMsg g =? "")%string
      then ("  Last commit: " ++ quote tk (projector.LastCommitMsg g))
           :: (if negb (projector.LastCommitAuthor g =? "")%string
               then ["  Author: " ++ projector.LastCommitAuthor g]
               else [])
      else [] in
    let lines :=
      (head ++ language ++ git ++ remote ++ uncommitted ++ unpushed
       ++ unpulled ++ lastCommit)%list in
    let content := Join lines (String "010" "") in
    Render tk (theme.App (Theme b))
      (JoinVertical tk
         [HeaderView bv b; content; RenderHelp bv b (globalHelpKeys (Keys b))]).

Definition SetTheme (s : t) (isDark : bool) : t :=
  mk (ApplyTheme (ScreenBase s) isDark) (project s) (ready s).

End Detail.

Arguments ScreenBase {tk}.
Arguments project {tk}.
Arguments ready {tk}.
Arguments Init {tk}.
Arguments Update {tk}.
Arguments View {tk}.
Arguments SetTheme {tk}.

End ProjectDetailScreen.

(** *** The project-list screen *)

Module ProjectsListScreen.

Section List.

Variable lib : GoLib.
Variable tk : Toolkit.
Variable bv : BaseViews tk.

(** The only screens this one pushes are detail screens. *)
Definition Screen : Type := ProjectDetailScreen.t tk.

Record t := mk {
  ScreenBase : screens.ScreenBase tk;
  projects : list projector.Project;
  selectedIdx : Z;
  scanning : bool;
  ready : bool;
  projectsDir : string;
  scanner : option projector.Scanner;     (* [*projector.Scanner], [None] is nil *)
  filterText : string;
  filtering : bool
}.

Definition set_ScreenBase (s : t) (v : screens.ScreenBase tk) :=
  mk v (projects s) (selectedIdx s) (scanning s) (ready s) (projectsDir s)
    (scanner s) (filterText s) (filtering s).
Definition set_projects (s : t) (v : list projector.Project) :=
  mk (ScreenBase s) v (selectedIdx s) (scanning s) (ready s) (projectsDir s)
    (scanner s) (filterText s) (filtering s).
Definition set_selectedIdx (s : t) (v : Z) :=
  mk (ScreenBase s) (projects s) v (scanning s) (ready s) (projectsDir s)
    (scanner s) (filterText s) (filtering s).
Definition set_scanning (s : t) (v : bool) :=
  mk (ScreenBase s) (projects s) (selectedIdx s) v (ready s) (projectsDir s)
    (scanner s) (filterText s) (filtering s).
Definition set_ready (s : t) (v : bool) :=
  mk (ScreenBase s) (projects s) (selectedIdx s) (scanning s) v (projectsDir s)
    (scanner s) (filterText s) (filtering s).
Definition set_scanner (s : t) (v : option projector.Scanner) :=
  mk (ScreenBase s) (projects s) (selectedIdx s) (scanning s) (ready s)
    (projectsDir s) v (filterText s) (filtering s).
Definition set_filterText (s : t) (v : string) :=
  mk (ScreenBase s) (projects s) (selectedIdx s) (scanning s) (ready s)
    (projectsDir s) (scanner s) v (filtering s).
Definition set_filtering (s : t) (v : bool) :=
  mk (ScreenBase s) (projects s) (selectedIdx s) (scanning s) (ready s)
    (projectsDir s) (scanner s) (filterText s) v.

Definition NewProjectsListScreen (projectsDir : string) (isDark : bool)
    (appName : string) : t :=
  mk (NewBase tk isDark appName) [] 0 false false projectsDir None "" false.

(** The closure reads [s.scanner] when it runs; it is only built where the
    scanner is known to be non-nil, and the field is not reassigned after
    construction, so the command carries the scanner. *)
Definition scanCmd (scanner : projector.Scanner) : Cmd Screen :=
  fun w =>
    '(projects, err) <- projector.Scan lib w scanner ;;
    ret (ScanCompleteMsg projects err).

Definition Init (s : t) : t * option (Cmd Screen) :=
  match scanner s with
  | Some sc => (set_scanning s true, Some (scanCmd sc))
  | None => (s, None)
  end.

Definition filteredProjects (s : t) : list projector.Project :=
  if (filterText s =? "")%string then projects s
  else
    filter
      (fun p => Contains (ToLower lib (projector.Name p))
                         (ToLower lib (filterText s)))
      (projects s).

Definition handleFilterInput (s : t) (key : string) : t * option (Cmd Screen) :=
  if (key =? "esc")%string then
    (set_filterText (set_filtering s false) "", None)
  else if (key =? "enter")%string then
    (set_filtering s false, None)
  else if (key =? "backspace")%string then
    if 0 <? len (filterText s) then
      (set_filterText s (slice_to (filterText s) (len (filterText s) - 1)), None)
    else (s, None)
  else if len key =? 1 then
    (set_filterText s (filterText s ++ key), None)
  else (s, None).

Definition handleNormalInput (s : t) (key : string) : t * option (Cmd Screen) :=
  let filtered := filteredProjects s in
  if (key =? "up")%string || (key =? "k")%string then
    if 0 <? selectedIdx s then (set_selectedIdx s (selectedIdx s - 1), None)
    else (s, None)
  else if (key =? "down")%string || (key =? "j")%string then
    if selectedIdx s <? llen filtered - 1
    then (set_selectedIdx s (selectedIdx s + 1), None)
    else (s, None)
  else if (key =? "r")%string then
    match negb (scanning s), scanner s with
    | true, Some sc => (set_scanning s true, Some (scanCmd sc))
    | _, _ => (s, None)
    end
  else if (key =? "/")%string then
    (set_filterText (set_filtering s true) "", None)
  else if (key =? "enter")%string then
    if (0 <? llen filtered) && (selectedIdx s <? llen filtered) then
      match index filtered (selectedIdx s) with
      | Some p =>
          (s, Some (nav.Push
                      (ProjectDetailScreen.NewProjectDetailScreen tk p
                         (IsDark (ScreenBase s)) (AppName (ScreenBase s)))))
      | None => (s, None)   (* panics in Go; [selectedIdx] is never negative *)
      end
    else (s, None)
  else if (key =? "esc")%string then (s, Some nav.Pop)
  else if (key =? "?")%string then
    (set_ScreenBase s (toggle_ShowAll (ScreenBase s)), None)
  else (s, None).

Definition Update (s : t) (msg : Msg Screen) : t * option (Cmd Screen) :=
  match msg with
  | WindowSizeMsg width height =>
      (set_ready (set_ScreenBase s (set_Size (ScreenBase s) width height)) true,
       None)
  | KeyPressMsg key =>
      if filtering s then handleFilterInput s key
      else handleNormalInput s key
  | ScanCompleteMsg projects err =>
      let s := set_scanning s false in
      let s := match err with
               | Some _ => set_projects s []
               | None => set_projects s projects
               end in
      let s := if selectedIdx s >=? llen (filteredProjects s)
               then set_selectedIdx s (Z.max 0 (llen (filteredProjects s) - 1))
               else s in
      (s, None)
  | _ => (s, None)
  end.

Definition formatGitStatus (g : projector.GitStatus)
    (t : theme.Theme (Style tk)) : string :=
  let glyph :=
    match projector.Status g with
    | projector.StatusClean => Render tk (theme.Success t) "✓"
    | projector.StatusDirty => Render tk (theme.Warning t) "●"
    | projector.StatusAhead => Render tk (theme.Status t) "↑"
    | projector.StatusBehind => Render tk (theme.Status t) "↓"
    | projector.StatusDiverged => Render tk (theme.Error t) "⚠"
    | projector.StatusNoRemote => Render tk (theme.Subtle t) "○"
    end in
  let uncommitted :=
    if 0 <? projector.Uncommitted g
    then [Render tk (theme.Warning t) ("±" ++ itoa (projector.Uncommitted g))]
    else [] in
  let unpushed :=
    if 0 <? projector.Unpushed g
    then [Render tk (theme.Status t) ("↑" ++ itoa (projector.Unpushed g))]
    else [] in
  let unpulled :=
    if 0 <? projector.Unpulled g
    then [Render tk (theme.Status t) ("↓" ++ itoa (projector.Unpulled g))]
    else [] in
  Join (glyph :: uncommitted ++ unpushed ++ unpulled)%list " ".

(** The last-commit segment of a row: the block of [renderProjectLine]
    guarded by [p.Git.LastCommitMsg != ""]. *)
Definition commitSubject (msg : string) : string :=
  if 30 <? len msg then slice_to msg 27 ++ "..." else msg.

Definition commitParts (s : t) (p : projector.Project) : list string :=
  let msg := projector.LastCommitMsg (projector.Git p) in
  if negb (msg =? "")%string then
    [Render tk (theme.Subtle (Theme (ScreenBase s)))
       (dq ++ commitSubject msg ++ dq)]
  else [].

Definition renderProjectLine (s : t) (p : projector.Project)
    (selected : bool) : string :=
  let th := Theme (ScreenBase s) in
  let g := projector.Git p in
  let cursor :=
    if selected then [Render tk (theme.Status th) "▸"] else [" "] in
  let name := [projector.Name p] in
  let branch :=
    if negb (projector.Branch g =? "")%string
    then [Render tk (theme.Subtle th) ("[" ++ projector.Branch g ++ "]")]
    else [] in
  let status := formatGitStatus g th in
  let statusPart := if negb (status =? "")%string then [status] else [] in
  let age :=
    if negb (IsZero (projector.LastCommitTime g))
    then [Render tk (theme.Subtle th)
            (formatTimeAgo tk (projector.LastCommitTime g))]
    else [] in
  Join (cursor ++ name ++ branch ++ statusPart ++ commitParts s p ++ age)%list
    " ".

Fixpoint renderRows (s : t) (i : Z) (filtered : list projector.Project)
  : string :=
  match filtered with
  | [] => ""
  | p :: rest =>
      renderProjectLine s p (i =? selectedIdx s) ++ nl
      ++ renderRows s (i + 1) rest
  end.

Definition View (s : t) : string :=
  if negb (ready s) then "Loading..."
  else
    let b := ScreenBase s in
    let subtle := Render tk (theme.Subtle (Theme b)) in
    let header :=
      if scanning s
      then Render tk (theme.Title (Theme b)) (AppName b ++ " (scanning...)")
      else HeaderView bv b in
    let filtered := filteredProjects s in
    let filterLine :=
      if filtering s then subtle "Filter: " ++ filterText s ++ "█" ++ nl ++ nl
      else if negb (filterText s =? "")%string
      then subtle "Filter: " ++ filterText s ++ nl ++ nl
      else "" in
    let rows :=
      if llen filtered =? 0 then
        if scanning s then subtle "Scanning for projects..."
        else subtle "No projects found."
      else renderRows s 0 filtered in
    let helpKeys :=
      projectsHelpKeys (Keys b)
        (NewBinding ["r"] ("r", "refresh"))
        (NewBinding ["enter"] ("enter", "details")) in
    let footer :=
      Render tk (Padding tk (theme.Subtle (Theme b)) 0 1)
        (itoa (llen filtered) ++ " project(s)") in
    Render tk (theme.App (Theme b))
      (JoinVertical tk
         [header; filterLine ++ rows; footer; RenderHelp bv b helpKeys]).

Definition SetTheme (s : t) (isDark : bool) : t :=
  set_ScreenBase s (ApplyTheme (ScreenBase s) isDark).

Definition SetScanner (s : t) (scanner : projector.Scanner) : t :=
  set_scanner s (Some scanner).

End List.

Arguments ScreenBase {tk}.
Arguments projects {tk}.
Arguments selectedIdx {tk}.
Arguments scanning {tk}.
Arguments ready {tk}.
Arguments projectsDir {tk}.
Arguments scanner {tk}.
Arguments filterText {tk}.
Arguments filtering {tk}.
Arguments set_ScreenBase {tk}.
Arguments set_projects {tk}.
Arguments set_selectedIdx {tk}.
Arguments set_scanning {tk}.
Arguments set_ready {tk}.
Arguments set_scanner {tk}.
Arguments set_filterText {tk}.
Arguments set_filtering {tk}.
Arguments Init lib {tk}.
Arguments filteredProjects lib {tk}.
Arguments handleFilterInput {tk}.
Arguments handleNormalInput lib {tk}.
Arguments Update lib {tk}.
Arguments commitParts {tk}.
Arguments renderProjectLine {tk}.
Arguments renderRows {tk}.
Arguments View lib {tk}.
Arguments SetTheme {tk}.
Arguments SetScanner {tk}.

End ProjectsListScreen.

End screens.

(** ** The ui package: the router *)

Module ui.

Import screens.

Section Router.

Variable lib : GoLib.
Variable tk : Toolkit.
Variable bv : BaseViews tk.

(** [nav.Screen]: the two screens of the program, both themeable.  The
    stack holds pointers; each is taken to point to a screen of its own, as
    the program only pushes a screen it has just built. *)
Inductive Screen :=
| ListScreen (s : ProjectsListScreen.t tk)
| DetailScreen (d : ProjectDetailScreen.t tk).

Definition Detail : Type := ProjectDetailScreen.t tk.

(** [tea.Msg] values that reach the router.  [SettingsAppliedMsg] carries
    the [%+v] rendering of its data. *)
Inductive Msg :=
| KeyPressMsg (key : string)
| WindowSizeMsg (Width Height : Z)
| BackgroundColorMsg (isDark : bool)
| PushMsg (screen : Screen)
| PopMsg
| ReplaceMsg (screen : Screen)
| SettingsAppliedMsg (data : string)
| ScanCompleteMsg (projects : list projector.Project) (err : option error).

(** The message a screen's command yields, as the router receives it. *)
Definition delivered (msg : screens.Msg Detail) : Msg :=
  match msg with
  | screens.WindowSizeMsg width height => WindowSizeMsg width height
  | screens.KeyPressMsg key => KeyPressMsg key
  | screens.BackgroundColorMsg isDark => BackgroundColorMsg isDark
  | screens.ScanCompleteMsg projects err => ScanCompleteMsg projects err
  | screens.PushMsg screen => PushMsg (DetailScreen screen)
  | screens.PopMsg => PopMsg
  end.

(** The commands the router returns: [tea.Quit],
    [tea.RequestBackgroundColor], or a command of a screen.  A list of them
    stands for [tea.Batch] of its members, which drops nil commands and is
    nil when none is left. *)
Inductive Command :=
| Quit
| RequestBackgroundColor
| ScreenCmd (cmd : Cmd Detail).

Definition batched (cmd : option (Cmd Detail)) : list Command :=
  match cmd with
  | Some c => [ScreenCmd c]
  | None => []
  end.

(** The methods of [nav.Screen] and of [nav.Themeable].  The screens are
    held by pointer: what [Init] and [SetTheme] change in a screen is seen
    through the stack, so they return the screen. *)
Definition screenInit (sc : Screen) : Screen * option (Cmd Detail) :=
  match sc with
  | ListScreen s =>
      let (s', cmd) := ProjectsListScreen.Init lib s in (ListScreen s', cmd)
  | DetailScreen d => (DetailScreen d, ProjectDetailScreen.Init Detail d)
  end.

Definition screenUpdate (sc : Screen) (msg : screens.Msg Detail)
  : Screen * option (Cmd Detail) :=
  match sc with
  | ListScreen s =>
      let (s', cmd) := ProjectsListScreen.Update lib s msg in
      (ListScreen s', cmd)
  | DetailScreen d =>
      let (d', cmd) := ProjectDetailScreen.Update Detail d msg in
      (DetailScreen d', cmd)
  end.

Definition screenView (sc : Screen) : string :=
  match sc with
  | ListScreen s => ProjectsListScreen.View lib bv s
  | DetailScreen d => ProjectDetailScreen.View bv d
  end.

Definition screenSetTheme (sc : Screen) (isDark : bool) : Screen :=
  match sc with
  | ListScreen s => ListScreen (ProjectsListScreen.SetTheme s isDark)
  | DetailScreen d => DetailScreen (ProjectDetailScreen.SetTheme d isDark)
  end.

(** The model is passed by value, its slice of screens shares its array
    with the copies; only the model an [Update] returns is used again. *)
Record Model := mkModel {
  screens : list Screen;          (* the last element is the active screen *)
  width : Z;
  height : Z;
  isDark : bool;
  quitting : bool;
  altScreen : bool;
  mouseEnabled : bool;
  windowTitle : string
}.

Definition set_screens (m : Model) (v : list Screen) : Model :=
  mkModel v (width m) (height m) (isDark m) (quitting m) (altScreen m)
    (mouseEnabled m) (windowTitle m).
Definition set_size (m : Model) (w h : Z) : Model :=
  mkModel (screens m) w h (isDark m) (quitting m) (altScreen m)
    (mouseEnabled m) (windowTitle m).
Definition set_isDark (m : Model) (v : bool) : Model :=
  mkModel (screens m) (width m) (height m) v (quitting m) (altScreen m)
    (mouseEnabled m) (windowTitle m).
Definition set_quitting (m : Model) (v : bool) : Model :=
  mkModel (screens m) (width m) (height m) (isDark m) v (altScreen m)
    (mouseEnabled m) (windowTitle m).

(** [m.screens[len(m.screens)-1]], [m.screens[:len(m.screens)-1]] and the
    assignment [m.screens[len(m.screens)-1] = s]. *)
Definition top (l : list Screen) : option Screen :=
  match rev l with
  | sc :: _ => Some sc
  | [] => None
  end.

Definition dropTop (l : list Screen) : list Screen := removelast l.

Definition setTop (l : list Screen) (sc : Screen) : list Screen :=
  match l with
  | [] => []
  | _ => (removelast l ++ [sc])%list
  end.

(** The part of the configuration the router reads. *)
Record Config := {
  Projector_ProjectsDir : string;
  Projector_Scan_GitTimeout : Z;
  Projector_Scan_Concurrency : Z;
  App_Name : string;
  App_Title : string;
  UI_AltScreen : bool;
  UI_MouseEnabled : bool
}.

(** [home] is what [os.UserHomeDir] returns, its error dropped. *)
Definition New (home : string) (cfg : Config) : Model :=
  let projectsDir := Projector_ProjectsDir cfg in
  let projectsDir :=
    if (projectsDir =? "")%string then filepath_Join lib home "projects"
    else projectsDir in
  let projectsDir :=
    if String.prefix "~" projectsDir
    then filepath_Join lib home
           (substring 1 (String.length projectsDir - 1) projectsDir)
    else projectsDir in
  let gitTimeout := wrap64 (Projector_Scan_GitTimeout cfg * projector.second) in
  let gitTimeout :=
    if gitTimeout <=? 0 then 5 * projector.second else gitTimeout in
  let root :=
    ProjectsListScreen.NewProjectsListScreen tk projectsDir false
      (App_Name cfg) in
  let scanner :=
    projector.NewScanner projectsDir (Projector_Scan_Concurrency cfg)
      gitTimeout in
  let root := ProjectsListScreen.SetScanner root scanner in
  mkModel [ListScreen root] 0 0 false false (UI_AltScreen cfg)
    (UI_MouseEnabled cfg) (App_Title cfg).

(** [applogger.Debug().Msg(msg)] *)
Definition debug (msg : string) : IO unit := emit (EvLog msg "").

Definition showBool (b : bool) : string := if b then "true" else "false".

Definition Init (m : Model) : IO (Model * list Command) :=
  debug "Initializing UI model" ;;
  match top (screens m) with
  | Some sc =>
      let (sc', cmd) := screenInit sc in
      ret (set_screens m (setTop (screens m) sc'),
           RequestBackgroundColor :: batched cmd)
  | None => ret (m, [RequestBackgroundColor])
  end.

(** The last step of [Update]: hand the message to the active screen. *)
Definition delegate (m : Model) (msg : screens.Msg Detail)
  : Model * list Command :=
  match top (screens m) with
  | Some sc =>
      let (updated, cmd) := screenUpdate sc msg in
      (set_screens m (setTop (screens m) updated), batched cmd)
  | None => (m, [])
  end.

(** Install a screen that arrives in a push or replace message: [Init],
    theme, and a window-size message of the current size. *)
Definition install (m : Model) (s : Screen) : Screen * list Command :=
  let (s, initCmd) := screenInit s in
  let s := screenSetTheme s (isDark m) in
  let (s, cmd) := screenUpdate s (screens.WindowSizeMsg (width m) (height m)) in
  (s, (batched initCmd ++ batched cmd)%list).

Definition Update (m : Model) (msg : Msg) : IO (Model * list Command) :=
  match msg with
  | KeyPressMsg key =>
      if (key =? "ctrl+c")%string then
        debug "Quit key pressed" ;;
        ret (set_quitting m true, [Quit])
      else ret (delegate m (screens.KeyPressMsg key))
  | WindowSizeMsg w h =>
      let m := set_size m w h in
      debug ("Window resized: " ++ itoa w ++ "x" ++ itoa h) ;;
      ret (delegate m (screens.WindowSizeMsg w h))
  | BackgroundColorMsg dark =>
      let m := set_isDark m dark in
      debug ("Background color detected: isDark=" ++ showBool dark) ;;
      let m := set_screens m (map (fun sc => screenSetTheme sc dark) (screens m)) in
      ret (delegate m (screens.BackgroundColorMsg dark))
  | PushMsg s =>
      let (s, cmds) := install m s in
      ret (set_screens m (screens m ++ [s])%list, cmds)
  | PopMsg =>
      if 1 <? llen (screens m) then
        let m := set_screens m (dropTop (screens m)) in
        match top (screens m) with
        | Some sc =>
            let (updated, cmd) :=
              screenUpdate sc (screens.WindowSizeMsg (width m) (height m)) in
            ret (set_screens m (setTop (screens m) updated), batched cmd)
        | None => ret (m, [])
        end
      else ret (m, [])
  | ReplaceMsg s =>
      if 0 <? llen (screens m) then
        let (s, cmds) := install m s in
        ret (set_screens m (setTop (screens m) s), cmds)
      else ret (m, [])
  | SettingsAppliedMsg data =>
      debug ("Settings applied: " ++ data) ;;
      if 1 <? llen (screens m) then
        ret (set_screens m (dropTop (screens m)), [])
      else ret (m, [])
  | ScanCompleteMsg projects err =>
      ret (delegate m (screens.ScanCompleteMsg projects err))
  end.

(** [tea.View] *)
Record TeaView := mkView {
  Content : string;
  AltScreen : bool;
  WindowTitle : string;
  MouseModeCellMotion : bool
}.

Definition NewView (content : string) : TeaView :=
  mkView content false "" false.

Definition View (m : Model) : TeaView :=
  if quitting m then NewView ""
  else
    let content :=
      match top (screens m) with
      | Some sc => screenView sc
      | None => ""
      end in
    mkView content (altScreen m) (windowTitle m) (mouseEnabled m).

End Router.

Arguments ListScreen {tk}.
Arguments DetailScreen {tk}.
Arguments KeyPressMsg {tk}.
Arguments WindowSizeMsg {tk}.
Arguments BackgroundColorMsg {tk}.
Arguments PushMsg {tk}.
Arguments PopMsg {tk}.
Arguments ReplaceMsg {tk}.
Arguments SettingsAppliedMsg {tk}.
Arguments ScanCompleteMsg {tk}.
Arguments Quit {tk}.
Arguments RequestBackgroundColor {tk}.
Arguments ScreenCmd {tk}.
Arguments delivered {tk}.
Arguments batched {tk}.
Arguments screenInit lib {tk}.
Arguments screenUpdate lib {tk}.
Arguments screenView lib {tk}.
Arguments screenSetTheme {tk}.
Arguments screens {tk}.
Arguments width {tk}.
Arguments height {tk}.
Arguments isDark {tk}.
Arguments quitting {tk}.
Arguments altScreen {tk}.
Arguments mouseEnabled {tk}.
Arguments windowTitle {tk}.
Arguments set_screens {tk}.
Arguments set_size {tk}.
Arguments set_isDark {tk}.
Arguments set_quitting {tk}.
Arguments top {tk}.
Arguments dropTop {tk}.
Arguments setTop {tk}.
Arguments Init lib {tk}.
Arguments delegate lib {tk}.
Arguments install lib {tk}.
Arguments Update lib {tk}.
Arguments View lib {tk}.

End ui.

(** ** Notions of the specification *)

Module spec.

Import projector.

(** The StatusKind derivation table of the data model, rule by rule in the
    order given, first match winning. *)
Definition derivationTable (upstreamAbsent : bool)
    (uncommitted unpushed unpulled : Z) : StatusType :=
  if upstreamAbsent then
    if uncommitted =? 0 then StatusNoRemote else StatusDirty
  else if 0 <? uncommitted then StatusDirty
  else if (0 <? unpushed) && (0 <? unpulled) then StatusDiverged
  else if 0 <? unpushed then StatusAhead
  else if 0 <? unpulled then StatusBehind
  else StatusClean.

(** A query succeeds when the subprocess exits with status 0. *)
Definition succeeds (w : World) (path : string) (args : list string) : bool :=
  match exec_git w path args with
  | ExecOutput _ => true
  | _ => false
  end.

(** The repository has no upstream: the upstream query fails. *)
Definition upstreamAbsent (w : World) (path : string) : bool :=
  negb (succeeds w path remoteArgs).

(** The status stored by a probe is the one the table gives for the counts
    stored beside it. *)
Definition statusFollowsTable (lib : GoLib) (w : World) (g : GitClient)
    (path : string) : Prop :=
  let st := fst (result (GetStatus lib w g path)) in
  Status st =
  derivationTable (upstreamAbsent w path)
    (Uncommitted st) (Unpushed st) (Unpulled st).

Section Scanning.

Variable lib : GoLib.
Variable w : World.

(** The project assembled for a repository directory. *)
Definition projectOf (s : Scanner) (dir : string) : Project :=
  mkProject (filepath_Base lib dir) dir "" 0 zeroTime
    (fst (result (GetStatus lib w (gitClient s) dir))).

(** A directory holds a repository when [.git] below it is a directory. *)
Definition isRepository (dir : string) : bool :=
  match os_Stat w (filepath_Join lib dir ".git") with
  | StatInfo true => true
  | _ => false
  end.

(** The candidates of a scan: the children of the root that are
    directories. *)
Definition candidates (s : Scanner) (entries : list DirEntry) : list string :=
  map (fun entry => filepath_Join lib (rootDir s) (entry_Name entry))
      (filter entry_IsDir entries).

(** C6 as first stated, for one candidate: its project is in the scan
    result, and has status noRemote if the upstream query fails. *)
Definition keptWithNoRemote (s : Scanner) (dir : string) : Prop :=
  exists p,
    In p (fst (result (Scan lib w s)))
    /\ Path p = dir
    /\ (upstreamAbsent w dir = true -> Status (Git p) = StatusNoRemote).

End Scanning.

(** The list and detail screens, driven by a sequence of calls. *)
Section Screens.

Variable lib : GoLib.
Variable tk : screens.Toolkit.

Import screens.

Inductive ListCall :=
| callInit
| callUpdate (msg : Msg (ProjectsListScreen.Screen tk))
| callSetTheme (isDark : bool)
| callSetScanner (scanner : Scanner).

Definition listCall (s : ProjectsListScreen.t tk) (c : ListCall)
  : ProjectsListScreen.t tk :=
  match c with
  | callInit => fst (ProjectsListScreen.Init lib s)
  | callUpdate msg => fst (ProjectsListScreen.Update lib s msg)
  | callSetTheme isDark => ProjectsListScreen.SetTheme s isDark
  | callSetScanner scanner => ProjectsListScreen.SetScanner s scanner
  end.

Definition listCalls (s : ProjectsListScreen.t tk) (cs : list ListCall)
  : ProjectsListScreen.t tk :=
  fold_left listCall cs s.

Inductive DetailCall (Screen : Type) :=
| detailUpdate (msg : Msg Screen)
| detailSetTheme (isDark : bool).
Arguments detailUpdate {Screen}.
Arguments detailSetTheme {Screen}.

Definition detailCall {Screen} (s : ProjectDetailScreen.t tk)
    (c : DetailCall Screen) : ProjectDetailScreen.t tk :=
  match c with
  | detailUpdate msg => fst (ProjectDetailScreen.Update Screen s msg)
  | detailSetTheme isDark => ProjectDetailScreen.SetTheme s isDark
  end.

Definition detailCalls {Screen} (s : ProjectDetailScreen.t tk)
    (cs : list (DetailCall Screen)) : ProjectDetailScreen.t tk :=
  fold_left detailCall cs s.

Definition isWindowSize {Screen} (msg : Msg Screen) : bool :=
  match msg with
  | WindowSizeMsg _ _ => true
  | _ => false
  end.

(** No window-size event is delivered by the call. *)
Definition listUnsized (c : ListCall) : bool :=
  match c with
  | callUpdate msg => negb (isWindowSize msg)
  | _ => true
  end.

Definition detailUnsized {Screen} (c : DetailCall Screen) : bool :=
  match c with
  | detailUpdate msg => negb (isWindowSize msg)
  | _ => true
  end.

(** The key events of a text typed one byte at a time, and [n] presses
    of backspace. *)
Definition typed (text : string) : list ListCall :=
  map (fun c => callUpdate (KeyPressMsg (String c "")))
      (list_ascii_of_string text).

Definition backspaces (n : nat) : list ListCall :=
  repeat (callUpdate (KeyPressMsg "backspace")) n.

(** The selection invariant. *)
Definition selectionInRange (s : ProjectsListScreen.t tk) : Prop :=
  0 <= ProjectsListScreen.selectedIdx s
  <= Z.max 0 (llen (ProjectsListScreen.filteredProjects lib s) - 1).

End Screens.

Arguments callInit {tk}.
Arguments callUpdate {tk}.
Arguments callSetTheme {tk}.
Arguments callSetScanner {tk}.
Arguments listCall lib {tk}.
Arguments listCalls lib {tk}.
Arguments detailUpdate {Screen}.
Arguments detailSetTheme {Screen}.
Arguments detailCall {tk Screen}.
Arguments detailCalls {tk Screen}.
Arguments listUnsized {tk}.
Arguments selectionInRange lib {tk}.

(** The number of characters of a UTF-8 text: the bytes that are not
    continuation bytes [10xxxxxx]. *)
Definition isContinuation (c : ascii) : bool :=
  let n := nat_of_ascii c in ((128 <=? n) && (n <? 192))%nat.

Fixpoint characters (s : string) : Z :=
  match s with
  | EmptyString => 0
  | String c s' => (if isContinuation c then 0 else 1) + characters s'
  end.

End spec.

(** ** Concrete instances, used to run the model

    [asciiLib] implements the library functions on ASCII text, where they
    agree with Go's; numerals are taken without sign and without range
    check, and paths are joined with a slash. *)

Module fixtures.

Definition isSpace (c : ascii) : bool :=
  let n := nat_of_ascii c in
  ((9 <=? n) && (n <=? 13))%nat || (n =? 32)%nat.

Fixpoint trimLeft (s : string) : string :=
  match s with
  | EmptyString => ""
  | String c s' => if isSpace c then trimLeft s' else s
  end.

Definition reverse (s : string) : string :=
  string_of_list_ascii (rev (list_ascii_of_string s)).

Definition asciiTrimSpace (s : string) : string :=
  reverse (trimLeft (reverse (trimLeft s))).

Definition lowerChar (c : ascii) : ascii :=
  let n := nat_of_ascii c in
  if ((65 <=? n) && (n <=? 90))%nat then ascii_of_nat (n + 32) else c.

Fixpoint asciiToLower (s : string) : string :=
  match s with
  | EmptyString => ""
  | String c s' => String (lowerChar c) (asciiToLower s')
  end.

Fixpoint digits (acc : Z) (s : string) : option Z :=
  match s with
  | EmptyString => Some acc
  | String c s' =>
      let n := Z.of_nat (nat_of_ascii c) in
      if (48 <=? n) && (n <=? 57) then digits (10 * acc + (n - 48)) s'
      else None
  end.

Definition asciiAtoi (s : string) : Z * option error :=
  match s with
  | EmptyString => (0, Some "invalid syntax")
  | _ => match digits 0 s with
         | Some n => (n, None)
         | None => (0, Some "invalid syntax")
         end
  end.

Definition slashJoin (dir name : string) : string := dir ++ "/" ++ name.

Definition lastElem (path : string) : string :=
  last (Split path "/"%char) "".

Definition asciiLib : GoLib :=
  {| TrimSpace := asciiTrimSpace;
     ToLower := asciiToLower;
     Atoi := asciiAtoi;
     ParseInt := asciiAtoi;
     filepath_Join := slashJoin;
     filepath_Base := lastElem |}.

Definition args_eqb (a b : list string) : bool :=
  if list_eq_dec string_dec a b then true else false.

(** A projects root with four children: [new] (a repository without any
    commit, where every query exits with an error), [work] (two modified
    files, no upstream), [lib] (tracking [origin/main], three commits ahead),
    [notes] (whose [.git] is a regular file), and the file [README]. *)
Definition root : string := "/home/u/projects".

Definition exitFatal : ExecResult := ExecExitError "fatal: bad revision".

Definition git (dir : string) (args : list string) : ExecResult :=
  if (dir =? "/home/u/projects/work")%string then
    if args_eqb args projector.branchArgs then ExecOutput ("main" ++ nl)
    else if args_eqb args projector.uncommittedArgs
    then ExecOutput (" M a.go" ++ nl ++ " M b.go" ++ nl)
    else if args_eqb args projector.lastCommitArgs
    then ExecOutput ("wip|me|1700000000" ++ nl)
    else exitFatal
  else if (dir =? "/home/u/projects/lib")%string then
    if args_eqb args projector.branchArgs then ExecOutput ("main" ++ nl)
    else if args_eqb args projector.remoteArgs
    then ExecOutput ("origin/main" ++ nl)
    else if args_eqb args projector.uncommittedArgs then ExecOutput ""
    else if args_eqb args projector.unpushedArgs then ExecOutput ("3" ++ nl)
    else if args_eqb args projector.unpulledArgs then ExecOutput ("0" ++ nl)
    else if args_eqb args projector.lastCommitArgs
    then ExecOutput ("add parser|me|1700000000" ++ nl)
    else exitFatal
  else exitFatal.

Definition stat (path : string) : StatResult :=
  if (path =? "/home/u/projects/new/.git")%string then StatInfo true
  else if (path =? "/home/u/projects/work/.git")%string then StatInfo true
  else if (path =? "/home/u/projects/lib/.git")%string then StatInfo true
  else if (path =? "/home/u/projects/notes/.git")%string then StatInfo false
  else StatNotExist "no such file or directory".

Definition rootEntries : list DirEntry :=
  [ {| entry_Name := "new"; entry_IsDir := true |};
    {| entry_Name := "work"; entry_IsDir := true |};
    {| entry_Name := "lib"; entry_IsDir := true |};
    {| entry_Name := "notes"; entry_IsDir := true |};
    {| entry_Name := "README"; entry_IsDir := false |} ].

Definition readDir (dir : string) : list DirEntry + error :=
  if (dir =? root)%string then inl rootEntries
  else inr "no such file or directory".

Definition world : World :=
  {| os_ReadDir := readDir; os_Stat := stat; exec_git := git |}.

Definition client : projector.GitClient := projector.NewGitClient 0.

Definition scannerAt (dir : string) : projector.Scanner :=
  projector.NewScanner dir 0 0.

(** A toolkit that renders text as it is, without styling. *)
Definition plainTheme : theme.Theme unit :=
  theme.mkTheme unit tt tt tt tt tt tt tt.

Definition plain : screens.Toolkit :=
  {| screens.Style := unit;
     screens.GlobalKeyMap := unit;
     screens.HelpStyles := unit;
     screens.NewStyle := tt;
     screens.Render := fun _ text => text;
     screens.Padding := fun style _ _ => style;
     screens.JoinVertical := fun blocks => Join blocks nl;
     screens.theme_New := fun _ => plainTheme;
     screens.keys_New := tt;
     screens.help_NewStyles := tt;
     screens.help_DefaultStyles := fun _ => tt;
     screens.quote := fun text => dq ++ text ++ dq;
     screens.formatTimeAgo := fun _ => "some time ago" |}.

Definition plainViews : screens.BaseViews plain :=
  {| screens.HeaderView := fun b => screens.AppName b;
     screens.RenderHelp := fun _ _ => "" |}.

Definition named (name : string) : projector.Project :=
  projector.mkProject name (slashJoin root name) "" 0 zeroTime
    projector.zeroGitStatus.

Definition threeProjects : list projector.Project :=
  [named "alpha"; named "Beta"; named "gamma"].

(** A commit subject of sixteen two-byte characters. *)
Definition accented : string := "éééééééééééééééé".

(** States of the list screen: as constructed; with a scan in flight; with
    a scan in flight and in filter mode; after a scan that found three
    projects; with the last of the three selected and filter mode entered. *)
Definition fresh : screens.ProjectsListScreen.t plain :=
  screens.ProjectsListScreen.NewProjectsListScreen plain root false
    "projector".

Definition key (k : string) : spec.ListCall plain :=
  spec.callUpdate (screens.KeyPressMsg k).

Definition scanningState : screens.ProjectsListScreen.t plain :=
  spec.listCalls asciiLib fresh
    [spec.callSetScanner (scannerAt root); spec.callInit].

Definition scanningFilter : screens.ProjectsListScreen.t plain :=
  spec.listCalls asciiLib scanningState [key "/"].

Definition loaded : screens.ProjectsListScreen.t plain :=
  spec.listCalls asciiLib fresh
    [spec.callUpdate (screens.ScanCompleteMsg threeProjects None)].

Definition lastSelected : screens.ProjectsListScreen.t plain :=
  spec.listCalls asciiLib loaded [key "j"; key "j"; key "/"].

End fixtures.

(** ** Further notions, for the properties beyond the specification *)

Module more.

Import projector.

(** The number of bytes [c] in [s], and whether there is one. *)
Fixpoint countByte (c : ascii) (s : string) : nat :=
  match s with
  | EmptyString => O
  | String x s' => ((if Ascii.eqb x c then 1 else 0) + countByte c s')%nat
  end.

Definition hasByte (c : ascii) (s : string) : bool :=
  negb (countByte c s =? 0)%nat.

Definition bar : string := "|".

(** The six queries of the probe. *)
Definition queries : list (list string) :=
  [branchArgs; remoteArgs; uncommittedArgs; unpushedArgs; unpulledArgs;
   lastCommitArgs].

(** The subprocess runs recorded in a trace. *)
Definition gitRuns (t : list Event) : list Event :=
  filter (fun e => match e with EvGit _ _ => true | _ => false end) t.

(** The messages a probe logs, and what a probe of [path] may do: run one
    of the six queries there, or log one of these messages. *)
Definition probeLogs : list string :=
  ["no remote tracking"; "getting uncommitted"; "getting unpushed";
   "getting unpulled"; "getting last commit"].

Definition probeEvent (path : string) (e : Event) : Prop :=
  match e with
  | EvGit dir args => dir = path /\ In args queries
  | EvLog msg _ => In msg probeLogs
  | _ => False
  end.

Definition isScanError (e : Event) : bool :=
  match e with
  | EvLog msg _ => (msg =? "scan error")%string
  | _ => false
  end.

Section Scanning.

Variable lib : GoLib.
Variable w : World.

(** The errors of the candidates whose [.git] lookup fails otherwise than
    by absence. *)
Definition statFailures (dirs : list string) : list error :=
  flat_map
    (fun dir =>
       match os_Stat w (filepath_Join lib dir ".git") with
       | StatFailure err => [err]
       | _ => []
       end)
    dirs.

(** What one worker may do on the candidates [dirs]: look up [.git] in a
    candidate, run one of the six queries in a candidate that is a
    repository, or log one of the probe's messages. *)
Definition workerEvent (dirs : list string) (e : Event) : Prop :=
  match e with
  | EvReadDir _ => False
  | EvStat path => exists dir, In dir dirs /\ path = filepath_Join lib dir ".git"
  | EvGit dir args =>
      In dir dirs /\ spec.isRepository lib w dir = true /\ In args queries
  | EvLog msg _ => In msg ("git status error" :: probeLogs)
  end.

(** What a scan may do besides: read the root, and log a scan error. *)
Definition scanEvent (root : string) (dirs : list string) (e : Event) : Prop :=
  match e with
  | EvReadDir dir => dir = root
  | EvLog msg _ => In msg ("scan error" :: "git status error" :: probeLogs)
  | _ => workerEvent dirs e
  end.

End Scanning.

(** *** The screens and the router, call by call *)

Section Screens.

Variable lib : GoLib.
Variable tk : screens.Toolkit.

(** [n] presses of one key. *)
Definition presses (key : string) (n : nat) : list (spec.ListCall tk) :=
  repeat (spec.callUpdate (screens.KeyPressMsg key)) n.

Definition isScanComplete (c : spec.ListCall tk) : bool :=
  match c with
  | spec.callUpdate (screens.ScanCompleteMsg _ _) => true
  | _ => false
  end.

(** Rows none of which carries the cursor. *)
Definition unmarkedRows (s : screens.ProjectsListScreen.t tk)
    (l : list Project) : string :=
  fold_right
    (fun p rest =>
       screens.ProjectsListScreen.renderProjectLine s p false ++ nl ++ rest)
    "" l.

(** A call of the router by the runtime, and the model after a sequence of
    them: the commands and the log are dropped. *)
Inductive RouterCall :=
| routerInit
| routerUpdate (msg : ui.Msg tk).

Definition routerCall (m : ui.Model tk) (c : RouterCall) : ui.Model tk :=
  match c with
  | routerInit => fst (result (ui.Init lib m))
  | routerUpdate msg => fst (result (ui.Update lib m msg))
  end.

Definition routerCalls (m : ui.Model tk) (cs : list RouterCall) : ui.Model tk :=
  fold_left routerCall cs m.

Definition isSettingsApplied (c : RouterCall) : bool :=
  match c with
  | routerUpdate (ui.SettingsAppliedMsg _) => true
  | _ => false
  end.

Definition base (sc : ui.Screen tk) : screens.ScreenBase tk :=
  match sc with
  | ui.ListScreen s => screens.ProjectsListScreen.ScreenBase s
  | ui.DetailScreen d => screens.ProjectDetailScreen.ScreenBase d
  end.

Definition sizeOf (sc : ui.Screen tk) : Z * Z :=
  (screens.Width (base sc), screens.Height (base sc)).

Definition isReady (sc : ui.Screen tk) : bool :=
  match sc with
  | ui.ListScreen s => screens.ProjectsListScreen.ready s
  | ui.DetailScreen d => screens.ProjectDetailScreen.ready d
  end.

(** The active screen is laid out at the router's size. *)
Definition topSized (m : ui.Model tk) : Prop :=
  match ui.top (ui.screens m) with
  | Some sc =>
      screens.Width (base sc) = ui.width m
      /\ screens.Height (base sc) = ui.height m
  | None => True
  end.

(** Every screen of the stack has the router's theme. *)
Definition themed (m : ui.Model tk) : Prop :=
  Forall (fun sc => screens.IsDark (base sc) = ui.isDark m) (ui.screens m).

(** The selection of a list screen is not negative: the index expression
    behind the enter key is then within the list whenever its guard holds. *)
Definition screenOk (sc : ui.Screen tk) : bool :=
  match sc with
  | ui.ListScreen s => 0 <=? screens.ProjectsListScreen.selectedIdx s
  | ui.DetailScreen _ => true
  end.

Definition stackOk (m : ui.Model tk) : Prop :=
  Forall (fun sc => screenOk sc = true) (ui.screens m).

(** The screen a push or replace message carries is such a screen. *)
Definition callOk (c : RouterCall) : bool :=
  match c with
  | routerUpdate (ui.PushMsg sc) => screenOk sc
  | routerUpdate (ui.ReplaceMsg sc) => screenOk sc
  | _ => true
  end.

End Screens.

Arguments presses {tk}.
Arguments isScanComplete {tk}.
Arguments unmarkedRows {tk}.
Arguments routerInit {tk}.
Arguments routerUpdate {tk}.
Arguments routerCall lib {tk}.
Arguments routerCalls lib {tk}.
Arguments isSettingsApplied {tk}.
Arguments base {tk}.
Arguments sizeOf {tk}.
Arguments isReady {tk}.
Arguments topSized {tk}.
Arguments themed {tk}.
Arguments screenOk {tk}.
Arguments stackOk {tk}.
Arguments callOk {tk}.

(** *** Sample states *)

(** A configuration that names the fixtures' root and leaves the scan
    settings at zero; the router made from it; the router after [Init], a
    window of 80 by 24 and the end of a scan that found three projects, and
    its list screen; the detail screen of the first project. *)
Definition config : ui.Config :=
  {| ui.Projector_ProjectsDir := fixtures.root;
     ui.Projector_Scan_GitTimeout := 0;
     ui.Projector_Scan_Concurrency := 0;
     ui.App_Name := "projector";
     ui.App_Title := "Projector";
     ui.UI_AltScreen := true;
     ui.UI_MouseEnabled := false |}.

Definition home : string := "/home/u".

Definition started : ui.Model fixtures.plain :=
  ui.New fixtures.asciiLib fixtures.plain home config.

Definition startCalls : list (RouterCall fixtures.plain) :=
  [routerInit;
   routerUpdate (ui.WindowSizeMsg 80 24);
   routerUpdate (ui.ScanCompleteMsg fixtures.threeProjects None)].

Definition browsing : ui.Model fixtures.plain :=
  routerCalls fixtures.asciiLib started startCalls.

Definition browsingList : screens.ProjectsListScreen.t fixtures.plain :=
  spec.listCalls fixtures.asciiLib fixtures.scanningState
    [spec.callUpdate (screens.WindowSizeMsg 80 24);
     spec.callUpdate (screens.ScanCompleteMsg fixtures.threeProjects None)].

Definition alphaDetail : screens.ProjectDetailScreen.t fixtures.plain :=
  screens.ProjectDetailScreen.NewProjectDetailScreen fixtures.plain
    (fixtures.named "alpha") false "projector".

End more.

(** * Properties *)

(** ** The trace monad *)

Lemma result_bind {A B} (m : IO A) (k : A -> IO B) :
  result (bind m k) = result (k (result m)).
Proof.
  unfold result, bind. destruct m as [a t1]. simpl.
  destruct (k a) as [b t2]. reflexivity.
Qed.

Lemma trace_bind {A B} (m : IO A) (k : A -> IO B) :
  trace (bind m k) = (trace m ++ trace (k (result m)))%list.
Proof.
  unfold result, trace, bind. destruct m as [a t1]. simpl.
  destruct (k a) as [b t2]. reflexivity.
Qed.

(** [strings.Split] returns at least one piece. *)
Lemma Split_nonempty s sep : Split s sep <> [].
Proof.
  induction s as [|c s IH]; simpl; [discriminate|].
  destruct (Ascii.eqb c sep); [discriminate|].
  destruct (Split s sep); discriminate.
Qed.

(** ** The version-control probe *)

Module GitFacts.

Import projector spec.

Section Probe.

Variable lib : GoLib.
Variable w : World.

Lemma runGit_result path args :
  result (runGit w path args) =
  match exec_git w path args with
  | ExecOutput out => (out, None)
  | ExecExitError stderr => ("", Some ("git " ++ hd "" args ++ ": " ++ stderr))
  | ExecFailure err => ("", Some err)
  end.
Proof.
  unfold runGit. rewrite result_bind.
  destruct (exec_git w path args); reflexivity.
Qed.

Lemma runGit_trace path args : trace (runGit w path args) = [EvGit path args].
Proof.
  unfold runGit. rewrite trace_bind.
  destruct (exec_git w path args); reflexivity.
Qed.

Lemma runGit_error_iff path args :
  snd (result (runGit w path args)) = None <-> succeeds w path args = true.
Proof.
  rewrite runGit_result. unfold succeeds.
  destruct (exec_git w path args); simpl; split; congruence.
Qed.

(** [getBranch] fails exactly when the branch query does. *)
Lemma getBranch_error_iff path :
  snd (result (getBranch lib w path)) = None <-> succeeds w path branchArgs = true.
Proof.
  unfold getBranch. rewrite result_bind, <- runGit_error_iff.
  destruct (result (runGit w path branchArgs)) as [out [e|]]; simpl;
    split; congruence.
Qed.

(** [getRemote] fails exactly when the upstream is absent, and then returns
    the empty string. *)
Lemma getRemote_spec path :
  match result (getRemote lib w path) with
  | (remote, Some _) => remote = "" /\ upstreamAbsent w path = true
  | (_, None) => upstreamAbsent w path = false
  end.
Proof.
  unfold getRemote, upstreamAbsent. rewrite result_bind.
  pose proof (runGit_error_iff path remoteArgs) as H.
  destruct (result (runGit w path remoteArgs)) as [out [e|]]; simpl in *.
  - split; [reflexivity|].
    destruct (succeeds w path remoteArgs); [|reflexivity].
    destruct H as [_ H]. discriminate (H eq_refl).
  - destruct H as [H _]. rewrite (H eq_refl). reflexivity.
Qed.

(** The uncommitted count is a number of lines: it is never negative, and
    it is 0 only when the query fails or prints nothing but blanks. *)
Lemma getUncommitted_nonneg path :
  0 <= fst (result (getUncommitted lib w path)).
Proof.
  unfold getUncommitted. rewrite result_bind.
  destruct (result (runGit w path uncommittedArgs)) as [out [e|]]; simpl;
    [lia|].
  destruct (TrimSpace lib out =? "")%string; simpl; lia.
Qed.

Lemma getUncommitted_pos path out :
  exec_git w path uncommittedArgs = ExecOutput out ->
  TrimSpace lib out <> "" ->
  0 < fst (result (getUncommitted lib w path)).
Proof.
  intros E Hne. unfold getUncommitted.
  rewrite result_bind, runGit_result, E. simpl.
  destruct (String.eqb_spec (TrimSpace lib out) ""); [contradiction|].
  simpl. pose proof (Split_nonempty (TrimSpace lib out) "010").
  destruct (Split (TrimSpace lib out) "010"); [contradiction|].
  simpl length. lia.
Qed.

(** Case analysis on what the helpers of [GetStatus] return and on the
    tests it makes on their results. *)
Ltac unfold_probe :=
  unfold GetStatus, bind, ret, emit, logDebug, logIfErr, result.

Ltac split_io m :=
  let v := fresh "v" in
  let e := fresh "e" in
  let t := fresh "t" in
  destruct m as [[v [e|]] t]; simpl.

Ltac split_lastCommit path :=
  let e := fresh "e" in
  destruct (getLastCommit lib w path) as [[[[? ?] ?] [e|]] ?]; simpl.

Ltac probe_cases path :=
  repeat match goal with
         | |- context [getBranch lib w path] =>
             split_io (getBranch lib w path)
         | |- context [getRemote lib w path] =>
             split_io (getRemote lib w path)
         | |- context [getUncommitted lib w path] =>
             split_io (getUncommitted lib w path)
         | |- context [getUnpushed lib w path] =>
             split_io (getUnpushed lib w path)
         | |- context [getUnpulled lib w path] =>
             split_io (getUnpulled lib w path)
         | |- context [getLastCommit lib w path] =>
             split_lastCommit path
         | |- context [(?r =? "")%string] =>
             destruct (String.eqb_spec r ""); simpl
         | |- context [0 <? ?x] =>
             destruct (Z.ltb_spec 0 x); simpl
         | |- context [?x =? 0] =>
             destruct (Z.eqb_spec x 0); simpl
         end.

(** The probe returns an error exactly when the branch query fails. *)
Lemma GetStatus_error_iff g path :
  snd (result (GetStatus lib w g path)) = None
  <-> succeeds w path branchArgs = true.
Proof.
  rewrite <- getBranch_error_iff.
  unfold_probe. probe_cases path; intuition congruence.
Qed.

(** When the branch query fails the probe stops there: it returns the zero
    [GitStatus] with an error, and has run no other query. *)
Lemma GetStatus_branch_failure g path :
  succeeds w path branchArgs = false ->
  exists e,
    GetStatus lib w g path
    = ((zeroGitStatus, Some ("getting branch: " ++ e)), [EvGit path branchArgs]).
Proof.
  intros H. unfold GetStatus, getBranch, runGit, succeeds in *.
  destruct (exec_git w path branchArgs) as [out|stderr|err];
    [discriminate| |]; eexists; reflexivity.
Qed.

Lemma helper_traces path :
  trace (getBranch lib w path) = [EvGit path branchArgs]
  /\ trace (getRemote lib w path) = [EvGit path remoteArgs]
  /\ trace (getUncommitted lib w path) = [EvGit path uncommittedArgs]
  /\ trace (getLastCommit lib w path) = [EvGit path lastCommitArgs].
Proof.
  unfold getBranch, getRemote, getUncommitted, getLastCommit.
  rewrite !trace_bind, !runGit_trace. repeat split.
  - destruct (result (runGit w path branchArgs)) as [out [e|]]; reflexivity.
  - destruct (result (runGit w path remoteArgs)) as [out [e|]]; reflexivity.
  - destruct (result (runGit w path uncommittedArgs)) as [out [e|]];
      [reflexivity|].
    simpl. destruct (TrimSpace lib out =? "")%string; reflexivity.
  - destruct (result (runGit w path lastCommitArgs)) as [out [e|]];
      [reflexivity|].
    simpl.
    destruct (SplitN (TrimSpace lib out) "|" 3) as [|? [|? [|? [|? ?]]]];
      try reflexivity.
    destruct (ParseInt lib s1) as [? [?|]]; reflexivity.
Qed.

Lemma probe_status_table g path :
  snd (result (GetStatus lib w g path)) = None ->
  statusFollowsTable lib w g path.
Proof.
  intros H. apply GetStatus_error_iff, getBranch_error_iff in H.
  unfold statusFollowsTable.
  generalize H (getRemote_spec path) (getUncommitted_nonneg path).
  clear H. unfold_probe. unfold derivationTable, determineStatus.
  probe_cases path; intros;
    repeat match goal with
           | H : _ /\ _ |- _ => destruct H
           | H : upstreamAbsent _ _ = _ |- _ => rewrite H; clear H
           end;
    simpl in *; try reflexivity; try discriminate; try lia; try congruence.
Qed.

Lemma GetStatus_Remote g path :
  snd (result (GetStatus lib w g path)) = None ->
  Remote (fst (result (GetStatus lib w g path)))
  = fst (result (getRemote lib w path)).
Proof.
  intros H. apply GetStatus_error_iff, getBranch_error_iff in H.
  generalize H (getRemote_spec path). clear H. unfold_probe.
  probe_cases path; intros;
    repeat match goal with
           | H : _ /\ _ |- _ => destruct H
           end;
    simpl in *; subst; try reflexivity; try discriminate; try congruence.
Qed.

(** Provided a successful upstream query never prints a blank name, the
    upstream is absent exactly when the stored [Remote] is empty, and the
    table can be read with [Remote == ""] as its first condition. *)
Lemma Remote_empty_iff_absent g path :
  snd (result (GetStatus lib w g path)) = None ->
  (forall out,
      exec_git w path remoteArgs = ExecOutput out -> TrimSpace lib out <> "") ->
  (Remote (fst (result (GetStatus lib w g path))) =? "")%string
  = upstreamAbsent w path.
Proof.
  intros H Hout. rewrite (GetStatus_Remote g path H).
  unfold getRemote, upstreamAbsent, succeeds.
  rewrite result_bind, runGit_result.
  destruct (exec_git w path remoteArgs) as [out|stderr|err] eqn:E;
    simpl; try reflexivity.
  apply String.eqb_neq. eauto.
Qed.


(** A query whose subprocess fails leaves its fields at their zero value. *)
Lemma helper_failures path :
  (succeeds w path uncommittedArgs = false ->
   fst (result (getUncommitted lib w path)) = 0)
  /\ (succeeds w path unpushedArgs = false ->
      fst (result (getUnpushed lib w path)) = 0)
  /\ (succeeds w path unpulledArgs = false ->
      fst (result (getUnpulled lib w path)) = 0)
  /\ (succeeds w path lastCommitArgs = false ->
      snd (result (getLastCommit lib w path)) <> None).
Proof.
  unfold getUncommitted, getUnpushed, getUnpulled, getLastCommit, succeeds.
  rewrite !result_bind, !runGit_result.
  repeat split; intros H;
    match goal with
    | |- context [exec_git w path ?a] => destruct (exec_git w path a)
    end; simpl; congruence.
Qed.

Lemma GetStatus_failed_query_zero g path :
  let st := fst (result (GetStatus lib w g path)) in
  (upstreamAbsent w path = true -> Remote st = "")
  /\ (succeeds w path uncommittedArgs = false -> Uncommitted st = 0)
  /\ (succeeds w path unpushedArgs = false -> Unpushed st = 0)
  /\ (succeeds w path unpulledArgs = false -> Unpulled st = 0)
  /\ (succeeds w path lastCommitArgs = false ->
      LastCommitMsg st = "" /\ LastCommitAuthor st = ""
      /\ LastCommitTime st = zeroTime).
Proof.
  destruct (helper_failures path) as (Hu & Hp & Hq & Hl).
  generalize Hu Hp Hq Hl (getRemote_spec path). clear Hu Hp Hq Hl.
  unfold_probe.
  probe_cases path; intros; simpl in *;
    repeat match goal with
           | H : _ /\ _ |- _ => destruct H
           end;
    repeat split; intros; simpl; auto; try congruence;
    try (exfalso; apply Hl; [assumption|reflexivity]).
Qed.

(** With the upstream absent and the branch known, the status is noRemote
    when nothing is uncommitted and dirty otherwise. *)
Lemma GetStatus_upstream_absent g path :
  succeeds w path branchArgs = true ->
  upstreamAbsent w path = true ->
  Status (fst (result (GetStatus lib w g path))) =
  if Uncommitted (fst (result (GetStatus lib w g path))) =? 0
  then StatusNoRemote else StatusDirty.
Proof.
  intros Hb Ha.
  apply GetStatus_error_iff with (g := g), probe_status_table in Hb.
  unfold statusFollowsTable, derivationTable in Hb.
  rewrite Ha in Hb. exact Hb.
Qed.

Lemma no_remote_counts_zero g path :
  Remote (fst (result (GetStatus lib w g path))) = "" ->
  Unpushed (fst (result (GetStatus lib w g path))) = 0
  /\ Unpulled (fst (result (GetStatus lib w g path))) = 0
  /\ ~ In (EvGit path unpushedArgs) (trace (GetStatus lib w g path))
  /\ ~ In (EvGit path unpulledArgs) (trace (GetStatus lib w g path)).
Proof.
  destruct (helper_traces path) as (Hb & Hr & Hu & Hl).
  generalize Hb Hr Hu Hl (getRemote_spec path). clear Hb Hr Hu Hl.
  unfold_probe. unfold trace.
  probe_cases path; intros; simpl in *; subst; simpl;
    repeat match goal with
           | H : _ /\ _ |- _ => destruct H
           end;
    try congruence;
    (split; [reflexivity|split; [reflexivity|]]);
    split; intros Hin; simpl in Hin;
    repeat match goal with
           | H : _ \/ _ |- _ => destruct H
           end;
    try discriminate; try contradiction.
Qed.

(** C2.  In every [GitStatus] the probe returns, an empty [Remote] comes
    with [Unpushed = 0] and [Unpulled = 0]: the two counting queries are
    guarded by [remote != ""], so without an upstream they are not run (the
    trace holds neither) and both fields keep their zero value. *)
Theorem GetStatus_no_remote_counts g path :
  Remote (fst (result (GetStatus lib w g path))) = "" ->
  Unpushed (fst (result (GetStatus lib w g path))) = 0
  /\ Unpulled (fst (result (GetStatus lib w g path))) = 0
  /\ ~ In (EvGit path unpushedArgs) (trace (GetStatus lib w g path))
  /\ ~ In (EvGit path unpulledArgs) (trace (GetStatus lib w g path)).
Proof. exact (no_remote_counts_zero g path). Qed.

End Probe.



(** The same repository: its [Remote] is empty and both counts are 0. *)
Lemma GetStatus_no_remote_counts_witness :
  Remote (fst (result (GetStatus fixtures.asciiLib fixtures.world
                         fixtures.client "/home/u/projects/work"))) = ""
  /\ Unpushed (fst (result (GetStatus fixtures.asciiLib fixtures.world
                              fixtures.client "/home/u/projects/work"))) = 0
  /\ Unpulled (fst (result (GetStatus fixtures.asciiLib fixtures.world
                              fixtures.client "/home/u/projects/work"))) = 0.
Proof.
  split; [reflexivity|].
  pose proof (GetStatus_no_remote_counts fixtures.asciiLib fixtures.world
                fixtures.client "/home/u/projects/work" eq_refl) as H.
  split; [apply H|apply H].
Defined.

End GitFacts.

(** ** The scanner *)

Module ScanFacts.

Import projector spec.

Lemma NewScanner_concurrency rootDir concurrency gitTimeout :
  0 < projector.concurrency (NewScanner rootDir concurrency gitTimeout).
Proof.
  unfold NewScanner. simpl. destruct (Z.leb_spec concurrency 0); lia.
Qed.

Section Scanning.

Variable lib : GoLib.
Variable w : World.

Local Abbreviation projectOf := (spec.projectOf lib w).
Local Abbreviation isRepository := (spec.isRepository lib w).
Local Abbreviation candidates := (spec.candidates lib).

Lemma scanProject_result s dir :
  result (scanProject lib w s dir) =
  match os_Stat w (filepath_Join lib dir ".git") with
  | StatInfo true => (Some (projectOf s dir), None)
  | StatInfo false => (None, None)
  | StatNotExist _ => (None, None)
  | StatFailure err => (None, Some err)
  end.
Proof.
  unfold scanProject. rewrite result_bind.
  destruct (os_Stat w (filepath_Join lib dir ".git")) as [[|]|e|e];
    try reflexivity.
  simpl. rewrite result_bind.
  destruct (result (GetStatus lib w (gitClient s) dir)) as [st err] eqn:E.
  rewrite result_bind. unfold projectOf. rewrite E. reflexivity.
Qed.

(** A candidate is skipped without a log entry exactly when it has no
    [.git] entry or one that is not a directory. *)
Lemma scanProject_silent s dir :
  scanProject lib w s dir
  = ((None, None), [EvStat (filepath_Join lib dir ".git")])
  <-> match os_Stat w (filepath_Join lib dir ".git") with
      | StatNotExist _ | StatInfo false => True
      | _ => False
      end.
Proof.
  pose proof (scanProject_result s dir) as R.
  destruct (os_Stat w (filepath_Join lib dir ".git")) as [[|]|e|e] eqn:E.
  - split; [|contradiction]. intros H. rewrite H in R. discriminate.
  - split; [trivial|]. intros _. unfold scanProject. rewrite E. reflexivity.
  - split; [trivial|]. intros _. unfold scanProject. rewrite E. reflexivity.
  - split; [|contradiction]. intros H. rewrite H in R. discriminate.
Qed.

(** What a worker sends on the results channel: the project of every job
    that is a repository, whatever its probe did. *)
Lemma worker_results s jobs :
  fst (result (worker lib w s jobs))
  = map (projectOf s) (filter isRepository jobs).
Proof.
  induction jobs as [|dir jobs IH]; [reflexivity|].
  simpl worker. rewrite result_bind.
  pose proof (scanProject_result s dir) as R.
  destruct (result (scanProject lib w s dir)) as [project err].
  rewrite result_bind.
  destruct (result (worker lib w s jobs)) as [results errors].
  simpl in IH. subst results.
  simpl filter.
  assert (D : isRepository dir
              = match os_Stat w (filepath_Join lib dir ".git") with
                | StatInfo true => true
                | _ => false
                end) by reflexivity.
  rewrite D. clear D.
  destruct (os_Stat w (filepath_Join lib dir ".git")) as [[|]|e|e];
    inversion R; subst; reflexivity.
Qed.

Lemma Scan_result s :
  result (Scan lib w s) =
  match os_ReadDir w (rootDir s) with
  | inr err => ([], Some err)
  | inl entries =>
      (if 0 <? concurrency s
       then map (projectOf s) (filter isRepository (candidates s entries))
       else [],
       None)
  end.
Proof.
  unfold Scan. rewrite result_bind.
  destruct (os_ReadDir w (rootDir s)) as [entries|err]; [|reflexivity].
  cbv beta zeta. rewrite result_bind.
  change (map (fun entry => filepath_Join lib (rootDir s) (entry_Name entry))
              (filter entry_IsDir entries))
    with (candidates s entries).
  destruct (0 <? concurrency s).
  - rewrite <- worker_results.
    destruct (result (worker lib w s (candidates s entries))) as [ps es].
    rewrite result_bind. reflexivity.
  - reflexivity.
Qed.

(** C5.  If reading the root directory fails, [Scan] returns that error with
    an empty list and its only effect is the failed read: no [.git] is
    looked up and no query is run.  If reading the root succeeds, [Scan]
    returns no error, whatever the lookups and the probes do. *)
Theorem Scan_fails_only_on_root s :
  match os_ReadDir w (rootDir s) with
  | inr err =>
      result (Scan lib w s) = ([], Some err)
      /\ filter isProbe (trace (Scan lib w s)) = []
      /\ trace (Scan lib w s) = [EvReadDir (rootDir s)]
  | inl _ => snd (result (Scan lib w s)) = None
  end.
Proof.
  pose proof (Scan_result s) as R.
  destruct (os_ReadDir w (rootDir s)) as [entries|err] eqn:E.
  - rewrite R. reflexivity.
  - unfold Scan. rewrite E. repeat split.
Qed.

Lemma Scan_member s entries p :
  os_ReadDir w (rootDir s) = inl entries ->
  0 < concurrency s ->
  In p (fst (result (Scan lib w s)))
  <-> exists dir,
        In dir (candidates s entries)
        /\ isRepository dir = true
        /\ p = projectOf s dir.
Proof.
  intros E Hc. rewrite Scan_result, E.
  apply Z.ltb_lt in Hc. rewrite Hc. simpl fst.
  rewrite in_map_iff. split.
  - intros (dir & <- & Hin). apply filter_In in Hin.
    exists dir. tauto.
  - intros (dir & Hin & Hrepo & ->). exists dir.
    split; [reflexivity|]. apply filter_In. tauto.
Qed.

(** Membership does not depend on the order in which the workers finish. *)
Lemma Scan_member_any_order s l p :
  Permutation (fst (result (Scan lib w s))) l ->
  In p l <-> In p (fst (result (Scan lib w s))).
Proof.
  intros P. split; intros H.
  - apply Permutation_in with (l := l); [apply Permutation_sym|]; assumption.
  - apply Permutation_in with (l := fst (result (Scan lib w s))); assumption.
Qed.

(** C6 (as amended).  Once the root has been read, the scan result holds
    exactly the projects of the candidates that are repositories, each with
    whatever status its probe returned: no failure of a probe removes one.
    For such a project, if the branch query succeeded and the upstream query
    failed, the status is noRemote when nothing is uncommitted and dirty
    otherwise, and every field whose query failed has its zero value: the
    upstream name, each of the three counts, also with an upstream present,
    and the three last-commit fields; when the branch query failed, every
    field.  The candidates skipped without a log entry are exactly those with no
    [.git] entry or with a [.git] that is not a directory. *)
Theorem Scan_keeps_repositories s entries :
  os_ReadDir w (rootDir s) = inl entries ->
  0 < concurrency s ->
  (forall p,
      In p (fst (result (Scan lib w s)))
      <-> exists dir,
            In dir (candidates s entries)
            /\ isRepository dir = true
            /\ p = projectOf s dir)
  /\ (forall dir,
         In dir (candidates s entries) ->
         isRepository dir = true ->
         In (projectOf s dir) (fst (result (Scan lib w s)))
         /\ Path (projectOf s dir) = dir
         /\ Name (projectOf s dir) = filepath_Base lib dir
         /\ (succeeds w dir branchArgs = true ->
             upstreamAbsent w dir = true ->
             Status (Git (projectOf s dir)) =
             if Uncommitted (Git (projectOf s dir)) =? 0
             then StatusNoRemote else StatusDirty)
         /\ (upstreamAbsent w dir = true ->
             Remote (Git (projectOf s dir)) = ""
             /\ Unpushed (Git (projectOf s dir)) = 0
             /\ Unpulled (Git (projectOf s dir)) = 0)
         /\ (succeeds w dir uncommittedArgs = false ->
             Uncommitted (Git (projectOf s dir)) = 0)
         /\ (succeeds w dir lastCommitArgs = false ->
             LastCommitMsg (Git (projectOf s dir)) = ""
             /\ LastCommitAuthor (Git (projectOf s dir)) = ""
             /\ LastCommitTime (Git (projectOf s dir)) = zeroTime)
         /\ (succeeds w dir unpushedArgs = false ->
             Unpushed (Git (projectOf s dir)) = 0)
         /\ (succeeds w dir unpulledArgs = false ->
             Unpulled (Git (projectOf s dir)) = 0)
         /\ (succeeds w dir branchArgs = false ->
             Git (projectOf s dir) = zeroGitStatus))
  /\ (forall dir,
         scanProject lib w s dir
         = ((None, None), [EvStat (filepath_Join lib dir ".git")])
         <-> match os_Stat w (filepath_Join lib dir ".git") with
             | StatNotExist _ | StatInfo false => True
             | _ => False
             end).
Proof.
  intros E Hc. split; [|split].
  - intros p. apply Scan_member; assumption.
  - intros dir Hin Hrepo.
    pose proof (GitFacts.GetStatus_failed_query_zero lib w (gitClient s) dir)
      as (Hr & Hu & Hp & Hq & Hl).
    split; [|split; [reflexivity|split; [reflexivity|]]].
    + apply (Scan_member s entries (projectOf s dir) E Hc).
      exists dir. auto.
    + unfold spec.projectOf. simpl Git. repeat split.
      * apply GitFacts.GetStatus_upstream_absent.
      * auto.
      * apply GitFacts.no_remote_counts_zero. auto.
      * apply GitFacts.no_remote_counts_zero. auto.
      * assumption.
      * apply Hl; assumption.
      * apply Hl; assumption.
      * apply Hl; assumption.
      * assumption.
      * assumption.
      * intros Hb.
        destruct (GitFacts.GetStatus_branch_failure lib w (gitClient s) dir Hb)
          as (e & ->).
        reflexivity.
  - intros dir. apply scanProject_silent.
Qed.

End Scanning.

(** The scan of the fixtures' root. *)
Lemma Scan_keeps_repositories_witness :
  os_ReadDir fixtures.world fixtures.root = inl fixtures.rootEntries
  /\ 0 < concurrency (fixtures.scannerAt fixtures.root)
  /\ In (spec.projectOf fixtures.asciiLib fixtures.world
           (fixtures.scannerAt fixtures.root) "/home/u/projects/new")
        (fst (result (Scan fixtures.asciiLib fixtures.world
                        (fixtures.scannerAt fixtures.root))))
  /\ Git (spec.projectOf fixtures.asciiLib fixtures.world
            (fixtures.scannerAt fixtures.root) "/home/u/projects/new")
     = zeroGitStatus.
Proof.
  split; [reflexivity|]. split; [reflexivity|].
  destruct (Scan_keeps_repositories fixtures.asciiLib fixtures.world
              (fixtures.scannerAt fixtures.root) fixtures.rootEntries
              eq_refl eq_refl)
    as (_ & H & _).
  destruct (H "/home/u/projects/new")
    as (Hin & _ & _ & _ & _ & _ & _ & _ & _ & Hz);
    [simpl; auto|reflexivity|].
  split; [exact Hin|]. exact (Hz eq_refl).
Defined.

(** C6, as first stated, fails for [work], a repository with no upstream and
    two modified files: it is kept, but as dirty. *)
Lemma Scan_dirty_without_upstream :
  spec.isRepository fixtures.asciiLib fixtures.world "/home/u/projects/work"
  = true
  /\ upstreamAbsent fixtures.world "/home/u/projects/work" = true
  /\ ~ spec.keptWithNoRemote fixtures.asciiLib fixtures.world
         (fixtures.scannerAt fixtures.root) "/home/u/projects/work".
Proof.
  split; [reflexivity|]. split; [reflexivity|].
  intros (p & Hin & Hpath & Hst).
  specialize (Hst eq_refl).
  vm_compute in Hin.
  destruct Hin as [<-|[<-|[<-|[]]]]; discriminate.
Qed.

End ScanFacts.

(** ** Byte strings *)

Lemma length_append (a b : string) :
  String.length (a ++ b) = (String.length a + String.length b)%nat.
Proof. induction a as [|c a IH]; simpl; [reflexivity|]. now rewrite IH. Qed.

Lemma append_assoc (a b c : string) : ((a ++ b) ++ c = a ++ (b ++ c))%string.
Proof. induction a as [|x a IH]; simpl; [reflexivity|]. now rewrite IH. Qed.

Lemma append_nil_r (a : string) : (a ++ "")%string = a.
Proof. induction a as [|x a IH]; simpl; congruence. Qed.

Lemma substring0_zero (s : string) : substring 0 0 s = "".
Proof. destruct s; reflexivity. Qed.

Lemma length_substring0 (k : nat) (s : string) :
  (k <= String.length s)%nat -> String.length (substring 0 k s) = k.
Proof.
  revert s. induction k as [|k IH]; intros s H.
  - now rewrite substring0_zero.
  - destruct s as [|c s]; simpl in *; [lia|]. rewrite IH; lia.
Qed.

Lemma substring0_substring0 (m k : nat) (s : string) :
  (m <= k)%nat -> substring 0 m (substring 0 k s) = substring 0 m s.
Proof.
  revert k s. induction m as [|m IH]; intros k s H.
  - now rewrite !substring0_zero.
  - destruct k as [|k]; [lia|].
    destruct s as [|c s]; simpl; [reflexivity|]. rewrite IH; [reflexivity|lia].
Qed.

Lemma prefix_substring0 (k : nat) (s : string) :
  String.prefix (substring 0 k s) s = true.
Proof.
  revert s. induction k as [|k IH]; intros s.
  - rewrite substring0_zero. destruct s; reflexivity.
  - destruct s as [|c s]; simpl; [reflexivity|].
    rewrite IH. destruct (ascii_dec c c); [reflexivity|congruence].
Qed.

(** ** The project-list screen *)

Module ListFacts.

Import projector spec screens.
Import ProjectsListScreen.

Section List.

Variable lib : GoLib.
Variable tk : Toolkit.

Implicit Types s : ProjectsListScreen.t tk.

Lemma set_filterText_same s : set_filterText s (filterText s) = s.
Proof. destruct s; reflexivity. Qed.

Lemma set_filterText_twice s a b :
  set_filterText (set_filterText s a) b = set_filterText s b.
Proof. reflexivity. Qed.

Lemma listCalls_cons s c cs :
  listCalls lib s (c :: cs) = listCalls lib (listCall lib s c) cs.
Proof. reflexivity. Qed.

Lemma listCall_update s msg :
  listCall lib s (callUpdate msg) = fst (Update lib s msg).
Proof. reflexivity. Qed.

(** In normal mode, [r] during a scan changes nothing and yields no command. *)
Lemma refresh_guard s :
  scanning s = true ->
  filtering s = false ->
  Update lib s (KeyPressMsg "r") = (s, None).
Proof.
  intros Hs Hf. unfold Update. rewrite Hf.
  unfold handleNormalInput. simpl. rewrite Hs. reflexivity.
Qed.

(** Outside a scan, and with a scanner attached, [r] starts one. *)
Lemma refresh_starts_scan s sc :
  scanning s = false ->
  filtering s = false ->
  scanner s = Some sc ->
  Update lib s (KeyPressMsg "r")
  = (set_scanning s true, Some (scanCmd lib tk sc)).
Proof.
  intros Hs Hf Hsc. unfold Update. rewrite Hf.
  unfold handleNormalInput. simpl. rewrite Hs, Hsc. reflexivity.
Qed.

(** C8 (as amended).  For every list-screen state with [scanning] set and
    not in filter mode, the key [r] returns the very same state (every field
    equal) and no command. *)
Theorem refresh_while_scanning_is_noop s :
  scanning s = true ->
  filtering s = false ->
  Update lib s (KeyPressMsg "r") = (s, None).
Proof. exact (refresh_guard s). Qed.

(** In filter mode a one-byte key is appended to the filter text. *)
Lemma filter_key_appends s c :
  filtering s = true ->
  Update lib s (KeyPressMsg (String c ""))
  = (set_filterText s (filterText s ++ String c ""), None).
Proof.
  intros Hf. unfold Update. rewrite Hf. unfold handleFilterInput. simpl.
  destruct (Ascii.eqb c "e"); destruct (Ascii.eqb c "b"); reflexivity.
Qed.

Lemma typed_appends text : forall s,
  filtering s = true ->
  listCalls lib s (typed tk text) = set_filterText s (filterText s ++ text).
Proof.
  induction text as [|c text IH]; intros s Hf.
  - rewrite append_nil_r. symmetry. apply set_filterText_same.
  - change (typed tk (String c text))
      with (callUpdate (KeyPressMsg (String c "")) :: typed tk text).
    rewrite listCalls_cons, listCall_update, filter_key_appends by assumption.
    simpl fst. rewrite IH by assumption. simpl.
    rewrite append_assoc. reflexivity.
Qed.

(** In filter mode, backspace drops the last byte of the filter text, and
    does nothing when it is empty. *)
Lemma filter_backspace s :
  filtering s = true ->
  Update lib s (KeyPressMsg "backspace")
  = (set_filterText s
       (substring 0 (String.length (filterText s) - 1) (filterText s)),
     None).
Proof.
  intros Hf. unfold Update. rewrite Hf. unfold handleFilterInput. simpl.
  unfold len, slice_to.
  destruct (Z.ltb_spec 0 (Z.of_nat (String.length (filterText s)))) as [H|H].
  - do 3 f_equal. lia.
  - assert (E : String.length (filterText s) = 0%nat) by lia.
    rewrite E. simpl. rewrite substring0_zero.
    destruct s as [? ? ? ? ? ? ? ft ?]. simpl in *.
    destruct ft; [reflexivity|discriminate].
Qed.

Lemma backspaces_drop n : forall s,
  filtering s = true ->
  listCalls lib s (backspaces tk n)
  = set_filterText s
      (substring 0 (String.length (filterText s) - n) (filterText s)).
Proof.
  induction n as [|n IH]; intros s Hf.
  - rewrite Nat.sub_0_r.
    assert (E : forall x, substring 0 (String.length x) x = x).
    { intros x. induction x as [|c x IHx]; simpl; congruence. }
    rewrite E. symmetry. apply set_filterText_same.
  - change (backspaces tk (S n))
      with (callUpdate (KeyPressMsg "backspace") :: backspaces tk n).
    rewrite listCalls_cons, listCall_update, filter_backspace by assumption.
    simpl fst. rewrite IH by assumption. simpl.
    rewrite set_filterText_twice. f_equal.
    rewrite length_substring0 by lia.
    rewrite substring0_substring0 by lia.
    f_equal. lia.
Qed.

(** C9.  From a state in filter mode with empty filter text, typing any
    text [text] one byte at a time makes it the filter text, and pressing
    backspace as many times as [text] has bytes then gives back the very
    state started from: the filter text is empty again and the filtered
    list is the whole project list. *)
Theorem type_then_erase s text :
  filtering s = true ->
  filterText s = "" ->
  filterText (listCalls lib s (typed tk text)) = text
  /\ listCalls lib (listCalls lib s (typed tk text))
       (backspaces tk (String.length text)) = s
  /\ filterText (listCalls lib (listCalls lib s (typed tk text))
                   (backspaces tk (String.length text))) = ""
  /\ filteredProjects lib
       (listCalls lib (listCalls lib s (typed tk text))
          (backspaces tk (String.length text)))
     = projects s.
Proof.
  intros Hf He.
  rewrite typed_appends by assumption. rewrite He. simpl append.
  assert (R : listCalls lib (set_filterText s text)
                (backspaces tk (String.length text)) = s).
  { rewrite backspaces_drop by assumption. simpl.
    rewrite Nat.sub_diag, substring0_zero, set_filterText_twice, <- He.
    apply set_filterText_same. }
  rewrite R. repeat split; try assumption.
  unfold filteredProjects. rewrite He. reflexivity.
Qed.

(** *** The selection index *)

Lemma llen_filtered_le s :
  llen (filteredProjects lib s) <= llen (projects s).
Proof.
  unfold filteredProjects, llen.
  destruct (filterText s =? "")%string; [lia|].
  apply inj_le, filter_length_le.
Qed.

(** A scan result clamps the selection. *)
Lemma scan_complete_in_range s ps err :
  0 <= selectedIdx s ->
  selectionInRange lib (fst (Update lib s (ScanCompleteMsg ps err))).
Proof.
  intros H. unfold Update. cbv zeta. simpl fst.
  match goal with
  | |- context [if ?b then _ else _] => destruct b eqn:E
  end.
  - unfold selectionInRange. simpl selectedIdx.
    match goal with
    | |- _ <= Z.max 0 ?a <= Z.max 0 ?b => change b with a
    end.
    lia.
  - unfold selectionInRange. rewrite Z.geb_leb in E. apply Z.leb_gt in E.
    destruct err; simpl in *; lia.
Qed.

(** In normal mode every key keeps the selection in range. *)
Lemma normal_input_in_range s key :
  selectionInRange lib s ->
  selectionInRange lib (fst (handleNormalInput lib s key)).
Proof.
  intros H. pose proof (llen_filtered_le s) as L.
  unfold handleNormalInput. cbv zeta.
  destruct (scanning s); destruct (scanner s); simpl negb; cbv iota;
    repeat match goal with
           | |- context [if ?b then _ else _] => destruct b eqn:?
           | |- context [match ?x with Some _ => _ | None => _ end] =>
               destruct x
           end;
    simpl fst; try assumption;
    unfold selectionInRange, filteredProjects in *; simpl in *;
    repeat match goal with
           | E : (_ <? _) = true |- _ => apply Z.ltb_lt in E
           end;
    try lia.
Qed.

(** The selection index is never negative, so the row access under the
    guard of [enter] is always in range. *)
Lemma selectedIdx_nonneg_call s c :
  0 <= selectedIdx s -> 0 <= selectedIdx (listCall lib s c).
Proof.
  intros H. destruct c as [|msg|isDark|sc]; simpl; try assumption.
  - unfold Init. destruct (scanner s); assumption.
  - destruct msg as [| |?|ps err| |]; simpl; try assumption.
    + destruct (filtering s).
      * unfold handleFilterInput.
        repeat match goal with
               | |- context [if ?b then _ else _] => destruct b
               end;
          assumption.
      * unfold handleNormalInput. cbv zeta.
        destruct (scanning s); destruct (scanner s); simpl negb; cbv iota;
          repeat match goal with
                 | |- context [if ?b then _ else _] => destruct b eqn:?
                 | |- context [match ?x with Some _ => _ | None => _ end] =>
                     destruct x
                 end;
          simpl; try assumption;
          repeat match goal with
                 | E : (_ <? _) = true |- _ => apply Z.ltb_lt in E
                 end;
          lia.
    + destruct err;
        match goal with
        | |- context [if ?b then _ else _] => destruct b
        end;
        simpl; try assumption; lia.
Qed.

Lemma selectedIdx_nonneg projectsDir isDark appName cs :
  0 <= selectedIdx
         (listCalls lib (NewProjectsListScreen tk projectsDir isDark appName)
            cs).
Proof.
  assert (G : forall s, 0 <= selectedIdx s -> 0 <= selectedIdx (listCalls lib s cs)).
  { induction cs as [|c cs IH]; intros s H; [exact H|].
    rewrite listCalls_cons. apply IH, selectedIdx_nonneg_call, H. }
  apply G. simpl. lia.
Qed.

Lemma index_in_range {A} (l : list A) (i : Z) :
  0 <= i -> i < llen l -> exists x, index l i = Some x.
Proof.
  intros H0 H1. unfold index, llen in *.
  destruct (Z.ltb_spec i 0); [lia|].
  destruct (nth_error l (Z.to_nat i)) as [x|] eqn:E; [eauto|].
  apply nth_error_None in E. lia.
Qed.

(** Leaving filter mode keeps the selection in range. *)
Lemma leave_filter_in_range s key :
  key = "esc" \/ key = "enter" ->
  selectionInRange lib s ->
  selectionInRange lib (fst (handleFilterInput s key)).
Proof.
  intros [->| ->] H; unfold handleFilterInput; simpl; [|exact H].
  pose proof (llen_filtered_le s) as L.
  unfold selectionInRange, filteredProjects in *. simpl. lia.
Qed.

End List.

(** [r] during the scan started by [Init]. *)
Lemma refresh_while_scanning_is_noop_witness :
  scanning fixtures.scanningState = true
  /\ filtering fixtures.scanningState = false
  /\ Update fixtures.asciiLib fixtures.scanningState (KeyPressMsg "r")
     = (fixtures.scanningState, None).
Proof.
  split; [reflexivity|]. split; [reflexivity|].
  apply (refresh_while_scanning_is_noop fixtures.asciiLib fixtures.plain
           fixtures.scanningState); reflexivity.
Defined.

(** C8, as first stated, fails in filter mode: there [r] is text, and is
    appended to the filter even while a scan is in flight. *)
Lemma refresh_key_is_text_in_filter_mode :
  scanning fixtures.scanningFilter = true
  /\ filterText fixtures.scanningFilter = ""
  /\ filterText (fst (Update fixtures.asciiLib fixtures.scanningFilter
                        (KeyPressMsg "r"))) = "r"
  /\ fst (Update fixtures.asciiLib fixtures.scanningFilter (KeyPressMsg "r"))
     <> fixtures.scanningFilter.
Proof.
  repeat split. intros H. apply (f_equal filterText) in H. discriminate H.
Qed.

(** Typing [et] over the three projects and erasing it. *)
Lemma type_then_erase_witness :
  filtering fixtures.lastSelected = true
  /\ filterText fixtures.lastSelected = ""
  /\ listCalls fixtures.asciiLib
       (listCalls fixtures.asciiLib fixtures.lastSelected
          (typed fixtures.plain "et"))
       (backspaces fixtures.plain 2)
     = fixtures.lastSelected.
Proof.
  split; [reflexivity|]. split; [reflexivity|].
  apply (type_then_erase fixtures.asciiLib fixtures.plain
           fixtures.lastSelected "et"); reflexivity.
Defined.

(** C3 at its failing input: with the third of three projects selected, the
    key [e] typed in filter mode narrows the list to one row and leaves the
    selection at 2, outside [0, 0]. *)
Lemma filter_key_leaves_selection_out_of_range :
  selectionInRange fixtures.asciiLib fixtures.lastSelected
  /\ map Name (filteredProjects fixtures.asciiLib
                 (fst (Update fixtures.asciiLib fixtures.lastSelected
                         (KeyPressMsg "e")))) = ["Beta"]
  /\ selectedIdx (fst (Update fixtures.asciiLib fixtures.lastSelected
                         (KeyPressMsg "e"))) = 2
  /\ ~ selectionInRange fixtures.asciiLib
         (fst (Update fixtures.asciiLib fixtures.lastSelected
                 (KeyPressMsg "e"))).
Proof.
  split; [vm_compute; split; discriminate|].
  split; [reflexivity|]. split; [reflexivity|].
  intros [_ H]. vm_compute in H. apply H. reflexivity.
Qed.

End ListFacts.

(** ** Rendering *)

Module ViewFacts.

Import projector spec screens.

Lemma characters_le_len (s : string) : characters s <= len s.
Proof.
  unfold len. induction s as [|c s IH]; simpl String.length; simpl characters.
  - lia.
  - destruct (isContinuation c); lia.
Qed.

Section Views.

Variable lib : GoLib.
Variable tk : Toolkit.
Variable bv : BaseViews tk.
Variable Screen : Type.

(** *** Before the first window-size event *)

Lemma list_unsized_call (s : ProjectsListScreen.t tk) c :
  listUnsized c = true ->
  ProjectsListScreen.ready (listCall lib s c) = ProjectsListScreen.ready s
  /\ Width (ProjectsListScreen.ScreenBase (listCall lib s c))
     = Width (ProjectsListScreen.ScreenBase s)
  /\ Height (ProjectsListScreen.ScreenBase (listCall lib s c))
     = Height (ProjectsListScreen.ScreenBase s).
Proof.
  intros H. destruct c as [|msg|isDark|scanner]; simpl.
  - unfold ProjectsListScreen.Init.
    destruct (ProjectsListScreen.scanner s); simpl; auto.
  - destruct msg; try discriminate H; simpl; auto.
    + unfold ProjectsListScreen.handleFilterInput,
        ProjectsListScreen.handleNormalInput.
      cbv zeta.
      destruct (ProjectsListScreen.scanning s);
        destruct (ProjectsListScreen.scanner s); simpl negb; cbv iota;
        repeat match goal with
               | |- context [if ?b then _ else _] => destruct b
               | |- context [match ?x with Some _ => _ | None => _ end] =>
                   destruct x
               end;
        simpl; auto.
    + repeat match goal with
             | |- context [if ?b then _ else _] => destruct b
             | |- context [match ?x with Some _ => _ | None => _ end] =>
                 destruct x
             end;
        simpl; auto.
  - auto.
  - auto.
Qed.


Lemma detail_unsized_call (s : ProjectDetailScreen.t tk)
    (c : DetailCall Screen) :
  detailUnsized c = true ->
  ProjectDetailScreen.ready (detailCall s c) = ProjectDetailScreen.ready s
  /\ Width (ProjectDetailScreen.ScreenBase (detailCall s c))
     = Width (ProjectDetailScreen.ScreenBase s)
  /\ Height (ProjectDetailScreen.ScreenBase (detailCall s c))
     = Height (ProjectDetailScreen.ScreenBase s).
Proof.
  intros H. destruct c as [msg|isDark]; simpl; [|auto].
  destruct msg; try discriminate H; simpl; auto.
  repeat match goal with
         | |- context [if ?b then _ else _] => destruct b
         end;
    simpl; auto.
Qed.









(** A window-size event ends the loading state whatever size it carries,
    0 by 0 included. *)
Lemma window_size_sets_ready (s : ProjectsListScreen.t tk)
    (d : ProjectDetailScreen.t tk) width height :
  ProjectsListScreen.ready
    (fst (ProjectsListScreen.Update lib s (WindowSizeMsg width height)))
  = true
  /\ ProjectDetailScreen.ready
       (fst (ProjectDetailScreen.Update Screen d
               (WindowSizeMsg width height))) = true.
Proof. split; reflexivity. Qed.

(** *** The last-commit segment of a row *)

Lemma commitSubject_long (msg : string) :
  30 < len msg ->
  ProjectsListScreen.commitSubject msg = slice_to msg 27 ++ "..."
  /\ len (slice_to msg 27) = 27
  /\ String.prefix (slice_to msg 27) msg = true
  /\ len (ProjectsListScreen.commitSubject msg) = 30
  /\ characters (ProjectsListScreen.commitSubject msg) <= 30.
Proof.
  intros H. unfold ProjectsListScreen.commitSubject.
  destruct (Z.ltb_spec 30 (len msg)) as [_|]; [|lia].
  assert (L : len (slice_to msg 27) = 27).
  { unfold len, slice_to in *. rewrite length_substring0; lia. }
  assert (L' : len (slice_to msg 27 ++ "...") = 30).
  { unfold len in *. rewrite length_append. simpl String.length. lia. }
  repeat split; try assumption.
  - apply prefix_substring0.
  - rewrite <- L'. apply characters_le_len.
Qed.

Lemma commitSubject_short (msg : string) :
  len msg <= 30 -> ProjectsListScreen.commitSubject msg = msg.
Proof.
  intros H. unfold ProjectsListScreen.commitSubject.
  destruct (Z.ltb_spec 30 (len msg)); [lia|reflexivity].
Qed.

(** C4 (as amended).  In every row, a non-empty last-commit subject longer
    than 30 bytes is rendered as its first 27 bytes followed by [...], 30
    bytes and so at most 30 characters in all, in double quotes and in the
    subtle style; a non-empty subject of 30 bytes or fewer is rendered
    unchanged in double quotes. *)
Theorem commit_subject_rendering (s : ProjectsListScreen.t tk) p selected :
  LastCommitMsg (Git p) <> "" ->
  ProjectsListScreen.commitParts s p
  = [Render tk (theme.Subtle (Theme (ProjectsListScreen.ScreenBase s)))
       (dq
        ++ ProjectsListScreen.commitSubject (LastCommitMsg (Git p))
        ++ dq)]
  /\ (exists before after,
         ProjectsListScreen.renderProjectLine s p selected
         = Join (before ++ ProjectsListScreen.commitParts s p ++ after)%list
             " ")
  /\ (30 < len (LastCommitMsg (Git p)) ->
      ProjectsListScreen.commitSubject (LastCommitMsg (Git p))
      = slice_to (LastCommitMsg (Git p)) 27 ++ "..."
      /\ len (slice_to (LastCommitMsg (Git p)) 27) = 27
      /\ String.prefix (slice_to (LastCommitMsg (Git p)) 27)
           (LastCommitMsg (Git p)) = true
      /\ len (ProjectsListScreen.commitSubject (LastCommitMsg (Git p))) = 30
      /\ characters
           (ProjectsListScreen.commitSubject (LastCommitMsg (Git p))) <= 30)
  /\ (len (LastCommitMsg (Git p)) <= 30 ->
      ProjectsListScreen.commitSubject (LastCommitMsg (Git p))
      = LastCommitMsg (Git p)).
Proof.
  intros H. split; [|split; [|split]].
  - unfold ProjectsListScreen.commitParts. cbv zeta.
    destruct (String.eqb_spec (LastCommitMsg (Git p)) "");
      [contradiction|reflexivity].
  - unfold ProjectsListScreen.renderProjectLine. cbv zeta.
    match goal with
    | |- exists before after,
           Join (?c ++ ?n ++ ?b ++ ?st ++ _ ++ ?age)%list _ = _ =>
        exists (c ++ n ++ b ++ st)%list, age
    end.
    rewrite <- !app_assoc. reflexivity.
  - apply commitSubject_long.
  - apply commitSubject_short.
Qed.

End Views.



(** A subject of 40 bytes. *)
Lemma commit_subject_rendering_witness :
  ProjectsListScreen.commitParts fixtures.fresh
    (mkProject "lib" "/home/u/projects/lib" "" 0 zeroTime
       (set_LastCommitMsg zeroGitStatus
          "add a parser for the porcelain format v2"))
  = [dq ++ "add a parser for the porcel..." ++ dq].
Proof.
  destruct (commit_subject_rendering fixtures.plain fixtures.fresh
              (mkProject "lib" "/home/u/projects/lib" "" 0 zeroTime
                 (set_LastCommitMsg zeroGitStatus
                    "add a parser for the porcelain format v2"))
              false) as (H & _).
  - discriminate.
  - exact H.
Defined.

(** C4, as first stated, fails for a subject of 16 two-byte characters: it
    has fewer than 30 characters but 32 bytes, and is cut after 27 bytes. *)
Lemma commit_subject_cut_by_bytes :
  characters fixtures.accented = 16
  /\ len fixtures.accented = 32
  /\ len (ProjectsListScreen.commitSubject fixtures.accented) = 30
  /\ ProjectsListScreen.commitSubject fixtures.accented <> fixtures.accented
  /\ ProjectsListScreen.commitParts fixtures.fresh
       (mkProject "lib" "/home/u/projects/lib" "" 0 zeroTime
          (set_LastCommitMsg zeroGitStatus fixtures.accented))
     <> [dq ++ fixtures.accented ++ dq].
Proof.
  repeat split; try reflexivity; vm_compute; discriminate.
Qed.

End ViewFacts.

(** ** A repository whose branch cannot be determined *)

Module MalformedFacts.

Import projector spec screens.

Section Malformed.

Variable lib : GoLib.
Variable w : World.
Variable tk : Toolkit.


End Malformed.


End MalformedFacts.

(** * Properties beyond the specification *)

(** ** The probe, query by query *)

Module ProbeExtras.

Import projector spec more.

Lemma length_Split (s : string) (sep : ascii) :
  length (Split s sep) = S (countByte sep s).
Proof.
  induction s as [|c s IH]; [reflexivity|].
  simpl. destruct (Ascii.eqb c sep); simpl.
  - now rewrite IH.
  - destruct (Split s sep); simpl in *; congruence.
Qed.

Lemma SplitN_one (s : string) (sep : ascii) : SplitN s sep 1 = [s].
Proof. destruct s; reflexivity. Qed.

(** [SplitN] into two pieces cuts at the first separator. *)
Lemma SplitN_two_intro (a c : string) (sep : ascii) :
  countByte sep a = O -> SplitN (a ++ String sep c) sep 2 = [a; c].
Proof.
  induction a as [|y a IH]; intros H.
  - simpl. rewrite Ascii.eqb_refl, SplitN_one. reflexivity.
  - simpl in H. change (String y a ++ String sep c)%string with (String y (a ++ String sep c)).
    simpl SplitN. destruct (Ascii.eqb y sep); [discriminate|].
    rewrite IH by exact H. reflexivity.
Qed.

Lemma SplitN_two_elim (s a c : string) (sep : ascii) :
  SplitN s sep 2 = [a; c] -> s = (a ++ String sep c)%string /\ countByte sep a = O.
Proof.
  revert a. induction s as [|x s IH]; intros a H.
  - discriminate H.
  - simpl SplitN in H. destruct (Ascii.eqb_spec x sep) as [->|Hne].
    + rewrite SplitN_one in H. inversion H; subst. split; reflexivity.
    + destruct (SplitN s sep 2) as [|h t] eqn:E; [discriminate|].
      inversion H; subst.
      destruct (IH h eq_refl) as [-> Hc]. split; [reflexivity|].
      simpl. destruct (Ascii.eqb_spec x sep); [contradiction|]. exact Hc.
Qed.

Lemma SplitN_two_length (s : string) (sep : ascii) :
  (length (SplitN s sep 2) <= 2)%nat /\ SplitN s sep 2 <> [].
Proof.
  induction s as [|x s [IH1 IH2]]; simpl; [split; [lia|discriminate]|].
  destruct (Ascii.eqb x sep).
  - rewrite SplitN_one. simpl. split; [lia|discriminate].
  - destruct (SplitN s sep 2); [contradiction|]. simpl in *. split; [lia|discriminate].
Qed.

(** [SplitN] into three pieces cuts at the first two separators. *)
Lemma SplitN_three_intro (a b c : string) (sep : ascii) :
  countByte sep a = O -> countByte sep b = O ->
  SplitN (a ++ String sep (b ++ String sep c)) sep 3 = [a; b; c].
Proof.
  intros Ha Hb. induction a as [|y a IH].
  - simpl. rewrite Ascii.eqb_refl. rewrite SplitN_two_intro by exact Hb. reflexivity.
  - simpl in Ha. change (String y a ++ ?r)%string with (String y (a ++ r)).
    simpl SplitN. destruct (Ascii.eqb y sep); [discriminate|].
    rewrite IH by exact Ha. reflexivity.
Qed.

Lemma SplitN_three_elim (s a b c : string) (sep : ascii) :
  SplitN s sep 3 = [a; b; c] ->
  s = (a ++ String sep (b ++ String sep c))%string
  /\ countByte sep a = O /\ countByte sep b = O.
Proof.
  revert a. induction s as [|x s IH]; intros a H.
  - discriminate H.
  - simpl SplitN in H. destruct (Ascii.eqb_spec x sep) as [->|Hne].
    + inversion H as [[Ha H2]]. apply SplitN_two_elim in H2. destruct H2 as [-> Hb].
      repeat split; assumption.
    + destruct (SplitN s sep 3) as [|h t] eqn:E; [discriminate|].
      inversion H; subst.
      destruct (IH h eq_refl) as (-> & Hc & Hb). repeat split; try assumption.
      simpl. destruct (Ascii.eqb_spec x sep); [contradiction|]. exact Hc.
Qed.

(** Case analysis on what the helpers of [GetStatus] return. *)
Ltac split_io m := destruct m as [[? [?|]] ?]; simpl.

Ltac probe_cases lib w path :=
  repeat match goal with
         | |- context [getBranch lib w path] =>
             split_io (getBranch lib w path)
         | |- context [getRemote lib w path] =>
             split_io (getRemote lib w path)
         | |- context [getUncommitted lib w path] =>
             split_io (getUncommitted lib w path)
         | |- context [getUnpushed lib w path] =>
             split_io (getUnpushed lib w path)
         | |- context [getUnpulled lib w path] =>
             split_io (getUnpulled lib w path)
         | |- context [getLastCommit lib w path] =>
             destruct (getLastCommit lib w path) as [[[[? ?] ?] [?|]] ?];
             simpl
         | |- context [(?r =? "")%string] =>
             destruct (String.eqb_spec r ""); simpl
         | |- context [0 <? ?x] =>
             destruct (Z.ltb_spec 0 x); simpl
         end.

Section Probe.

Variable lib : GoLib.
Variable w : World.

(** X1.  [determineStatus] returns dirty exactly when something is
    uncommitted; otherwise diverged, ahead, behind or clean according to
    which of the two commit counts are positive; a count of zero or below
    counts as none, and noRemote is never returned. *)
Theorem determineStatus_cases (uncommitted unpushed unpulled : Z) :
  (determineStatus uncommitted unpushed unpulled = StatusDirty
   <-> 0 < uncommitted)
  /\ (determineStatus uncommitted unpushed unpulled = StatusDiverged
      <-> uncommitted <= 0 /\ 0 < unpushed /\ 0 < unpulled)
  /\ (determineStatus uncommitted unpushed unpulled = StatusAhead
      <-> uncommitted <= 0 /\ 0 < unpushed /\ unpulled <= 0)
  /\ (determineStatus uncommitted unpushed unpulled = StatusBehind
      <-> uncommitted <= 0 /\ unpushed <= 0 /\ 0 < unpulled)
  /\ (determineStatus uncommitted unpushed unpulled = StatusClean
      <-> uncommitted <= 0 /\ unpushed <= 0 /\ unpulled <= 0)
  /\ determineStatus uncommitted unpushed unpulled <> StatusNoRemote.
Proof.
  unfold determineStatus.
  destruct (Z.ltb_spec 0 uncommitted); destruct (Z.ltb_spec 0 unpushed);
    destruct (Z.ltb_spec 0 unpulled); simpl;
    repeat split; intros; try discriminate; try lia; try reflexivity;
    try (exfalso; lia).
Qed.

(** X2.  [getUncommitted] returns 0 with the error when the query fails,
    0 without error when the trimmed output is empty, and otherwise one more
    than the number of newline bytes of the trimmed output: every line
    between the first and the last non-blank byte is counted, blank or
    not. *)
Theorem getUncommitted_counts_lines path :
  result (getUncommitted lib w path) =
  match exec_git w path uncommittedArgs with
  | ExecOutput out =>
      (if (TrimSpace lib out =? "")%string then 0
       else 1 + Z.of_nat (countByte "010" (TrimSpace lib out)), None)
  | ExecExitError stderr => (0, Some ("git status: " ++ stderr))
  | ExecFailure err => (0, Some err)
  end.
Proof.
  unfold getUncommitted. rewrite result_bind, GitFacts.runGit_result.
  destruct (exec_git w path uncommittedArgs) as [out|stderr|err];
    try reflexivity.
  cbv beta iota zeta. destruct (TrimSpace lib out =? "")%string; [reflexivity|].
  unfold ret, result, fst. rewrite length_Split. f_equal. lia.
Qed.

Lemma hasByte_false c s : hasByte c s = false <-> countByte c s = O.
Proof.
  unfold hasByte. destruct (countByte c s); simpl; split; congruence.
Qed.

(** X3.  [getLastCommit] succeeds with [(msg, author, t)] exactly when the
    query succeeds, its trimmed output reads [msg|author|ts] with no bar in
    [msg] nor in [author], and [ts] parses as the number of seconds of
    [t].  So a subject that holds a bar is never returned whole. *)
Theorem getLastCommit_parses path msg author t :
  result (getLastCommit lib w path) = (msg, author, t, None)
  <-> exists out ts n,
        exec_git w path lastCommitArgs = ExecOutput out
        /\ TrimSpace lib out = msg ++ bar ++ author ++ bar ++ ts
        /\ hasByte "|" msg = false
        /\ hasByte "|" author = false
        /\ ParseInt lib ts = (n, None)
        /\ t = time_Unix n.
Proof.
  unfold getLastCommit, bar. cbn [append].
  rewrite result_bind, GitFacts.runGit_result.
  destruct (exec_git w path lastCommitArgs) as [out|stderr|err].
  - cbv beta iota zeta.
    assert (I : forall ts,
               TrimSpace lib out = msg ++ String "|" (author ++ String "|" ts) ->
               hasByte "|" msg = false -> hasByte "|" author = false ->
               SplitN (TrimSpace lib out) "|" 3 = [msg; author; ts]).
    { intros ts Ht Hm Ha. rewrite Ht.
      apply SplitN_three_intro; apply hasByte_false; assumption. }
    destruct (SplitN (TrimSpace lib out) "|" 3)
      as [|a [|b [|c [|d r]]]] eqn:E.
    1,2,3,5: split; [discriminate|];
      intros (out' & ts & n & Ho & Ht & Hm & Ha & _);
      inversion Ho; subst out';
      discriminate (I ts Ht Hm Ha).
    apply SplitN_three_elim in E. destruct E as (Ht & Hm & Ha).
    destruct (ParseInt lib c) as [n [e|]] eqn:P.
    + split; [discriminate|].
      intros (out' & ts & n' & Ho & Ht' & Hm' & Ha' & Hp & _).
      inversion Ho; subst out'.
      pose proof (I ts Ht' Hm' Ha') as X. inversion X; subst.
      rewrite P in Hp. discriminate.
    + split.
      * intros H. inversion H; subst.
        exists out, c, n. repeat split; try assumption;
          apply hasByte_false; assumption.
      * intros (out' & ts & n' & Ho & Ht' & Hm' & Ha' & Hp & ->).
        inversion Ho; subst out'.
        pose proof (I ts Ht' Hm' Ha') as X. inversion X; subst.
        rewrite P in Hp. inversion Hp. reflexivity.
  - split; [discriminate|]. intros (? & ? & ? & H & _). discriminate H.
  - split; [discriminate|]. intros (? & ? & ? & H & _). discriminate H.
Qed.

(** X4.  The three last-commit fields of a probe are set together or not
    at all: they are what [getLastCommit] returned when it returned no
    error and the branch is known, and all zero otherwise, also when only
    the timestamp failed to parse. *)
Theorem GetStatus_last_commit_all_or_nothing g path :
  (LastCommitMsg (fst (result (GetStatus lib w g path))),
   LastCommitAuthor (fst (result (GetStatus lib w g path))),
   LastCommitTime (fst (result (GetStatus lib w g path))))
  = if succeeds w path branchArgs then
      match result (getLastCommit lib w path) with
      | (msg, author, t, None) => (msg, author, t)
      | (_, _, _, Some _) => ("", "", zeroTime)
      end
    else ("", "", zeroTime).
Proof.
  pose proof (GitFacts.getBranch_error_iff lib w path) as B.
  destruct (succeeds w path branchArgs).
  - destruct B as [_ B]. specialize (B eq_refl). revert B.
    unfold GetStatus, bind, ret, emit, logDebug, logIfErr, result.
    probe_cases lib w path; intros; try discriminate; reflexivity.
  - assert (F : snd (result (getBranch lib w path)) <> None).
    { intros H. apply B in H. discriminate. }
    revert F. clear B.
    unfold GetStatus, bind, ret, emit, logDebug, logIfErr, result.
    split_io (getBranch lib w path); intros F; [reflexivity|].
    exfalso. apply F. reflexivity.
Qed.

Lemma helper_runs path :
  trace (getBranch lib w path) = [EvGit path branchArgs]
  /\ trace (getRemote lib w path) = [EvGit path remoteArgs]
  /\ trace (getUncommitted lib w path) = [EvGit path uncommittedArgs]
  /\ trace (getUnpushed lib w path) = [EvGit path unpushedArgs]
  /\ trace (getUnpulled lib w path) = [EvGit path unpulledArgs]
  /\ trace (getLastCommit lib w path) = [EvGit path lastCommitArgs].
Proof.
  destruct (GitFacts.helper_traces lib w path) as (Hb & Hr & Hu & Hl).
  repeat split; try assumption.
  - unfold getUnpushed. rewrite trace_bind, GitFacts.runGit_trace.
    destruct (result (runGit w path unpushedArgs)) as [out [e|]]; reflexivity.
  - unfold getUnpulled. rewrite trace_bind, GitFacts.runGit_trace.
    destruct (result (runGit w path unpulledArgs)) as [out [e|]]; reflexivity.
Qed.

Lemma GetStatus_runs g path :
  gitRuns (trace (GetStatus lib w g path))
  = if succeeds w path branchArgs then
      ([EvGit path branchArgs; EvGit path remoteArgs;
        EvGit path uncommittedArgs]
       ++ (if (fst (result (getRemote lib w path)) =? "")%string then []
           else [EvGit path unpushedArgs; EvGit path unpulledArgs])
       ++ [EvGit path lastCommitArgs])%list
    else [EvGit path branchArgs].
Proof.
  pose proof (GitFacts.getBranch_error_iff lib w path) as B.
  destruct (helper_runs path) as (Hb & Hr & Hu & Hp & Hq & Hl).
  destruct (succeeds w path branchArgs).
  - destruct B as [_ B]. specialize (B eq_refl).
    generalize B Hb Hr Hu Hp Hq Hl (GitFacts.getRemote_spec lib w path).
    clear B Hb Hr Hu Hp Hq Hl.
    unfold GetStatus, bind, ret, emit, logDebug, logIfErr, result, trace.
    probe_cases lib w path; intros; simpl in *; subst; simpl;
      try discriminate; try reflexivity;
      repeat match goal with
             | H : _ /\ _ |- _ => destruct H
             end;
      try congruence.
  - assert (F : snd (result (getBranch lib w path)) <> None).
    { intros H. apply B in H. discriminate. }
    revert F Hb. clear B.
    unfold GetStatus, bind, ret, emit, logDebug, logIfErr, result, trace.
    split_io (getBranch lib w path); intros F Hb; simpl in *; subst;
      [reflexivity|].
    exfalso. apply F. reflexivity.
Qed.

End Probe.

Section ProbeMore.

Variable lib : GoLib.
Variable w : World.

(** X5.  The subprocesses a probe runs, in order: the branch query alone
    when it fails; otherwise branch, upstream, uncommitted, then unpushed
    and unpulled only if the stored [Remote] is not empty, then the last
    commit.  All run in the probed directory. *)
Theorem GetStatus_queries g path :
  gitRuns (trace (GetStatus lib w g path))
  = if succeeds w path branchArgs then
      ([EvGit path branchArgs; EvGit path remoteArgs;
        EvGit path uncommittedArgs]
       ++ (if (Remote (fst (result (GetStatus lib w g path))) =? "")%string
           then []
           else [EvGit path unpushedArgs; EvGit path unpulledArgs])
       ++ [EvGit path lastCommitArgs])%list
    else [EvGit path branchArgs].
Proof.
  rewrite GetStatus_runs.
  destruct (succeeds w path branchArgs) eqn:B; [|reflexivity].
  rewrite GitFacts.GetStatus_Remote; [reflexivity|].
  apply GitFacts.GetStatus_error_iff. exact B.
Qed.

End ProbeMore.

End ProbeExtras.

(** ** The scanner, effect by effect *)

Module ScanExtras.

Import projector spec more ProbeExtras.

Section Scanning.

Variable lib : GoLib.
Variable w : World.

Lemma GetStatus_events g path :
  Forall (probeEvent path) (trace (GetStatus lib w g path)).
Proof.
  destruct (helper_runs lib w path) as (Hb & Hr & Hu & Hp & Hq & Hl).
  generalize Hb Hr Hu Hp Hq Hl. clear Hb Hr Hu Hp Hq Hl.
  unfold GetStatus, bind, ret, emit, logDebug, logIfErr, result, trace.
  probe_cases lib w path; intros; simpl in *; subst; simpl.
  all: repeat (apply Forall_cons || apply Forall_nil); simpl; auto 10.
  all: split; [reflexivity|unfold queries; simpl; tauto].
Qed.

Lemma scanProject_trace s dir :
  trace (scanProject lib w s dir)
  = EvStat (filepath_Join lib dir ".git")
    :: (if isRepository lib w dir
        then (trace (GetStatus lib w (gitClient s) dir)
              ++ match snd (result (GetStatus lib w (gitClient s) dir)) with
                 | Some e => [EvLog "git status error" e]
                 | None => []
                 end)%list
        else []).
Proof.
  unfold scanProject, isRepository. rewrite trace_bind. simpl.
  destruct (os_Stat w (filepath_Join lib dir ".git")) as [[|]|e|e];
    try reflexivity.
  simpl. rewrite trace_bind. f_equal. f_equal.
  destruct (result (GetStatus lib w (gitClient s) dir)) as [st [e|]];
    reflexivity.
Qed.

Lemma worker_errors s jobs :
  snd (result (worker lib w s jobs)) = statFailures lib w jobs.
Proof.
  induction jobs as [|dir jobs IH]; [reflexivity|].
  simpl worker. rewrite result_bind.
  pose proof (ScanFacts.scanProject_result lib w s dir) as R.
  destruct (result (scanProject lib w s dir)) as [project err].
  rewrite result_bind.
  destruct (result (worker lib w s jobs)) as [results errors].
  simpl in IH. subst errors. simpl statFailures.
  destruct (os_Stat w (filepath_Join lib dir ".git")) as [[|]|e|e];
    inversion R; subst; reflexivity.
Qed.

Lemma worker_trace s jobs :
  trace (worker lib w s jobs)
  = flat_map (fun dir => trace (scanProject lib w s dir)) jobs.
Proof.
  induction jobs as [|dir jobs IH]; [reflexivity|].
  simpl worker. rewrite trace_bind. simpl flat_map. f_equal.
  destruct (result (scanProject lib w s dir)) as [project err].
  cbv beta iota. rewrite trace_bind, IH.
  destruct (result (worker lib w s jobs)) as [results errors].
  destruct err; [|destruct project]; simpl; apply app_nil_r.
Qed.

Lemma logErrors_trace errors :
  trace (logErrors errors) = map (EvLog "scan error") errors.
Proof.
  induction errors as [|e errors IH]; [reflexivity|].
  change (logErrors (e :: errors))
    with (bind (logDebug "scan error" e) (fun _ => logErrors errors)).
  rewrite trace_bind, IH. reflexivity.
Qed.

Lemma Scan_trace s :
  trace (Scan lib w s)
  = EvReadDir (rootDir s)
    :: match os_ReadDir w (rootDir s) with
       | inr _ => []
       | inl entries =>
           if 0 <? concurrency s
           then (trace (worker lib w s (candidates lib s entries))
                 ++ map (EvLog "scan error")
                      (statFailures lib w (candidates lib s entries)))%list
           else []
       end.
Proof.
  unfold Scan. rewrite trace_bind. simpl. f_equal.
  destruct (os_ReadDir w (rootDir s)) as [entries|err]; [|reflexivity].
  cbv beta zeta. rewrite trace_bind.
  change (map (fun entry => filepath_Join lib (rootDir s) (entry_Name entry))
              (filter entry_IsDir entries))
    with (candidates lib s entries).
  destruct (0 <? concurrency s).
  - f_equal. rewrite <- (worker_errors s).
    destruct (result (worker lib w s (candidates lib s entries))) as [ps es].
    rewrite trace_bind, logErrors_trace. simpl. apply app_nil_r.
  - reflexivity.
Qed.

Lemma scanProject_events s dirs dir :
  In dir dirs ->
  Forall (workerEvent lib w dirs) (trace (scanProject lib w s dir)).
Proof.
  intros Hin. rewrite scanProject_trace. constructor.
  - simpl. eauto.
  - destruct (isRepository lib w dir) eqn:R; [|constructor].
    apply Forall_app. split.
    + eapply Forall_impl; [|apply GetStatus_events].
      intros [ | | d a | msg e]; simpl; try tauto.
      intros [-> Ha]. auto.
    + destruct (snd (result (GetStatus lib w (gitClient s) dir)));
        repeat constructor.
Qed.

Lemma worker_events s dirs jobs :
  incl jobs dirs ->
  Forall (workerEvent lib w dirs) (trace (worker lib w s jobs)).
Proof.
  intros Hincl. rewrite worker_trace.
  induction jobs as [|dir jobs IH]; [constructor|].
  simpl. apply Forall_app. split.
  - apply scanProject_events, Hincl. left. reflexivity.
  - apply IH. intros x Hx. apply Hincl. right. exact Hx.
Qed.


Lemma NewScanner_runs root c t :
  (0 <? concurrency (NewScanner root c t)) = true.
Proof. apply Z.ltb_lt, ScanFacts.NewScanner_concurrency. Qed.

(** X6.  A scanner made by [NewScanner], whatever concurrency it was asked
    for, returns one project per candidate directory whose [.git] is a
    directory: the paths of the result are those candidates, each as often
    as it is a candidate, in an order that is left open, as it is the order
    in which the workers finish; each project is named by the base of its
    path, carries the status its probe returned, and has its reserved fields
    zero.  When the root cannot be read the result is empty. *)
Theorem Scan_lists_repositories root c t :
  match os_ReadDir w root with
  | inl entries =>
      Permutation
        (map Path (fst (result (Scan lib w (NewScanner root c t)))))
        (filter (isRepository lib w)
           (candidates lib (NewScanner root c t) entries))
      /\ Forall
           (fun p =>
              Name p = filepath_Base lib (Path p)
              /\ Language p = "" /\ Size p = 0 /\ LastModified p = zeroTime
              /\ Git p
                 = fst (result (GetStatus lib w
                                  (gitClient (NewScanner root c t))
                                  (Path p))))
           (fst (result (Scan lib w (NewScanner root c t))))
  | inr _ => fst (result (Scan lib w (NewScanner root c t))) = []
  end.
Proof.
  pose proof (ScanFacts.Scan_result lib w (NewScanner root c t)) as R.
  rewrite NewScanner_runs in R. simpl rootDir in R.
  destruct (os_ReadDir w root) as [entries|err]; rewrite R; [|reflexivity].
  simpl fst. split.
  - rewrite map_map. simpl. rewrite map_id. apply Permutation_refl.
  - apply Forall_forall. intros p Hp. apply in_map_iff in Hp.
    destruct Hp as (dir & <- & _). repeat split.
Qed.

Lemma worker_events_not_scan_error dirs l :
  Forall (workerEvent lib w dirs) l -> filter isScanError l = [].
Proof.
  induction 1 as [|e l He _ IH]; [reflexivity|].
  simpl. rewrite IH.
  destruct e as [ | | |msg err]; try reflexivity.
  simpl in *. unfold probeLogs in He. simpl in He.
  destruct He as [<-|[<-|[<-|[<-|[<-|[<-|[]]]]]]]; reflexivity.
Qed.

Lemma filter_scan_errors errors :
  filter isScanError (map (EvLog "scan error") errors)
  = map (EvLog "scan error") errors.
Proof. induction errors as [|e l IH]; simpl; congruence. Qed.

(** X7.  The scan-error entries of the log are the errors of the
    candidates whose [.git] lookup failed otherwise than by absence, one
    entry each and none for anything else, in an order that is left open,
    as it is the order in which the workers met them; such a candidate is
    not in the result. *)
Theorem Scan_reports_stat_failures root c t :
  Permutation
    (filter isScanError (trace (Scan lib w (NewScanner root c t))))
    match os_ReadDir w root with
    | inl entries =>
        map (EvLog "scan error")
          (statFailures lib w (candidates lib (NewScanner root c t) entries))
    | inr _ => []
    end
  /\ forall dir err,
       os_Stat w (filepath_Join lib dir ".git") = StatFailure err ->
       ~ In dir (map Path (fst (result (Scan lib w (NewScanner root c t))))).
Proof.
  split.
  - rewrite Scan_trace, NewScanner_runs. simpl rootDir. simpl filter.
    destruct (os_ReadDir w root) as [entries|err]; [|apply Permutation_refl].
    rewrite filter_app, filter_scan_errors.
    rewrite (worker_events_not_scan_error
               (candidates lib (NewScanner root c t) entries));
      [apply Permutation_refl|].
    apply worker_events. apply incl_refl.
  - intros dir err E Hin.
    pose proof (ScanFacts.Scan_result lib w (NewScanner root c t)) as R.
    rewrite NewScanner_runs in R. simpl rootDir in R.
    destruct (os_ReadDir w root) as [entries|e]; rewrite R in Hin.
    + simpl fst in Hin. rewrite map_map in Hin. simpl in Hin.
      rewrite map_id in Hin. apply filter_In in Hin.
      destruct Hin as [_ Hr]. unfold isRepository in Hr. rewrite E in Hr.
      discriminate.
    + contradiction.
Qed.

(** X8.  All a scan does is read its root, look up [.git] in candidate
    directories, run some of the six fixed queries in candidates whose
    [.git] is a directory, and write to the log: a file under the root, or
    a directory without [.git], is never probed, and no other subprocess
    is run. *)
Theorem Scan_touches_only_candidates s :
  Forall
    (scanEvent lib w (rootDir s)
       match os_ReadDir w (rootDir s) with
       | inl entries => candidates lib s entries
       | inr _ => []
       end)
    (trace (Scan lib w s)).
Proof.
  rewrite Scan_trace. constructor; [reflexivity|].
  destruct (os_ReadDir w (rootDir s)) as [entries|err]; [|constructor].
  destruct (0 <? concurrency s); [|constructor].
  apply Forall_app. split.
  - eapply Forall_impl; [|apply worker_events, incl_refl].
    intros [d|p|d a|msg e] H; try exact H; [destruct H|].
    right. exact H.
  - apply Forall_forall. intros e He. apply in_map_iff in He.
    destruct He as (x & <- & _). simpl. auto.
Qed.

End Scanning.

End ScanExtras.

(** ** The list screen, key by key *)

Module ListExtras.

Import projector spec more screens.
Import ProjectsListScreen.

Section List.

Variable lib : GoLib.
Variable tk : Toolkit.

Implicit Types s : ProjectsListScreen.t tk.

Lemma set_selectedIdx_same s : set_selectedIdx s (selectedIdx s) = s.
Proof. destruct s; reflexivity. Qed.

Lemma down_step s key :
  key = "down" \/ key = "j" ->
  filtering s = false ->
  fst (Update lib s (KeyPressMsg key))
  = set_selectedIdx s
      (if selectedIdx s <? llen (filteredProjects lib s) - 1
       then selectedIdx s + 1 else selectedIdx s).
Proof.
  intros [->| ->] Hf; unfold Update; rewrite Hf; unfold handleNormalInput;
    simpl;
    destruct (selectedIdx s <? llen (filteredProjects lib s) - 1);
    simpl; auto using set_selectedIdx_same, eq_sym.
Qed.

Lemma up_step s key :
  key = "up" \/ key = "k" ->
  filtering s = false ->
  fst (Update lib s (KeyPressMsg key))
  = set_selectedIdx s
      (if 0 <? selectedIdx s then selectedIdx s - 1 else selectedIdx s).
Proof.
  intros [->| ->] Hf; unfold Update; rewrite Hf; unfold handleNormalInput;
    simpl; destruct (0 <? selectedIdx s);
    simpl; auto using set_selectedIdx_same, eq_sym.
Qed.

(** X9.  Outside filter mode, [n] presses of [down] or [j] move the
    selection down by [n] but not past the last row of the filtered list,
    and [n] presses of [up] or [k] move it up by [n] but not above row 0; a
    selection already beyond those bounds stays where it is.  Nothing else
    of the screen changes. *)
Theorem cursor_moves_clamped s key (n : nat) :
  filtering s = false ->
  (key = "down" \/ key = "j" ->
   listCalls lib s (presses key n)
   = set_selectedIdx s
       (Z.max (selectedIdx s)
          (Z.min (selectedIdx s + Z.of_nat n)
             (llen (filteredProjects lib s) - 1))))
  /\ (key = "up" \/ key = "k" ->
      listCalls lib s (presses key n)
      = set_selectedIdx s
          (Z.min (selectedIdx s) (Z.max (selectedIdx s - Z.of_nat n) 0))).
Proof.
  intros Hf. split; intros Hk.
  - revert s Hf. induction n as [|n IH]; intros s Hf.
    + simpl. rewrite <- (set_selectedIdx_same s) at 1. f_equal. lia.
    + change (presses key (S n))
        with (callUpdate (KeyPressMsg key) :: @presses tk key n).
      rewrite ListFacts.listCalls_cons, ListFacts.listCall_update.
      rewrite (down_step s key Hk Hf).
      rewrite IH by exact Hf.
      unfold set_selectedIdx, filteredProjects. simpl.
      f_equal.
      destruct (Z.ltb_spec (selectedIdx s)
                  (llen (if (filterText s =? "")%string then projects s
                         else filter
                                (fun p => Contains (ToLower lib (Name p))
                                            (ToLower lib (filterText s)))
                                (projects s)) - 1)); lia.
  - revert s Hf. induction n as [|n IH]; intros s Hf.
    + simpl. rewrite <- (set_selectedIdx_same s) at 1. f_equal. lia.
    + change (presses key (S n))
        with (callUpdate (KeyPressMsg key) :: @presses tk key n).
      rewrite ListFacts.listCalls_cons, ListFacts.listCall_update.
      rewrite (up_step s key Hk Hf).
      rewrite IH by exact Hf.
      unfold set_selectedIdx. simpl. f_equal.
      destruct (Z.ltb_spec 0 (selectedIdx s)); lia.
Qed.

(** X10.  Outside filter mode [enter] leaves the screen as it is and asks
    the router to push a detail screen for the selected row of the filtered
    list, built with the theme flag and application name of the list screen;
    when no row is selected, which is exactly when the selection is at or
    beyond the length of the filtered list, it does nothing. *)
Theorem enter_opens_selected s :
  filtering s = false ->
  0 <= selectedIdx s ->
  Update lib s (KeyPressMsg "enter")
  = (s,
     match index (filteredProjects lib s) (selectedIdx s) with
     | Some p =>
         Some (nav.Push
                 (ProjectDetailScreen.NewProjectDetailScreen tk p
                    (IsDark (ScreenBase s)) (AppName (ScreenBase s))))
     | None => None
     end)
  /\ (index (filteredProjects lib s) (selectedIdx s) = None
      <-> llen (filteredProjects lib s) <= selectedIdx s).
Proof.
  intros Hf H0.
  assert (N : index (filteredProjects lib s) (selectedIdx s) = None
              <-> llen (filteredProjects lib s) <= selectedIdx s).
  { unfold index, llen.
    destruct (Z.ltb_spec (selectedIdx s) 0); [lia|].
    rewrite nth_error_None. lia. }
  split; [|exact N].
  unfold Update. rewrite Hf. unfold handleNormalInput. simpl.
  destruct (Z.ltb_spec (selectedIdx s) (llen (filteredProjects lib s)))
    as [L|L].
  - destruct (Z.ltb_spec 0 (llen (filteredProjects lib s))); [|lia].
    simpl.
    destruct (index (filteredProjects lib s) (selectedIdx s)); reflexivity.
  - rewrite andb_false_r. apply N in L. rewrite L. reflexivity.
Qed.

(** X11.  One scan, from start to end.  [Init] on a screen that has a
    scanner marks it as scanning and returns the scan command; running the
    command does what [Scan] does and nothing more; delivering its message
    clears the scanning mark, stores exactly the projects the scan returned,
    and leaves the selection within the filtered list. *)
Theorem scan_cycle s sc (w : World) :
  scanner s = Some sc ->
  0 <= selectedIdx s ->
  Init lib s = (set_scanning s true, Some (scanCmd lib tk sc))
  /\ trace (scanCmd lib tk sc w) = trace (Scan lib w sc)
  /\ scanning (fst (Update lib (set_scanning s true)
                      (result (scanCmd lib tk sc w)))) = false
  /\ projects (fst (Update lib (set_scanning s true)
                      (result (scanCmd lib tk sc w))))
     = fst (result (Scan lib w sc))
  /\ selectionInRange lib
       (fst (Update lib (set_scanning s true)
               (result (scanCmd lib tk sc w)))).
Proof.
  intros Hsc H0.
  assert (R : result (scanCmd lib tk sc w)
              = ScanCompleteMsg (fst (result (Scan lib w sc)))
                  (snd (result (Scan lib w sc)))).
  { unfold scanCmd. rewrite result_bind.
    destruct (result (Scan lib w sc)); reflexivity. }
  split; [unfold Init; rewrite Hsc; reflexivity|].
  split.
  { unfold scanCmd. rewrite trace_bind.
    destruct (result (Scan lib w sc)). simpl. apply app_nil_r. }
  rewrite R. split; [|split].
  - unfold Update. cbv zeta. simpl fst.
    match goal with
    | |- context [if ?b then _ else _] => destruct b
    end; destruct (snd (result (Scan lib w sc))); reflexivity.
  - pose proof (ScanFacts.Scan_result lib w sc) as Q.
    unfold Update. cbv zeta. simpl fst.
    match goal with
    | |- context [if ?b then _ else _] => destruct b
    end;
      destruct (os_ReadDir w (rootDir sc)); rewrite Q; reflexivity.
  - apply ListFacts.scan_complete_in_range. exact H0.
Qed.


Lemma prefix_app_l (a b s0 : string) :
  String.prefix (a ++ b) s0 = true -> String.prefix a s0 = true.
Proof.
  revert s0. induction a as [|x a IH]; intros s0 H.
  - destruct s0; reflexivity.
  - destruct s0 as [|y s0]; simpl in *; [discriminate|].
    destruct (ascii_dec x y); [apply IH; exact H|discriminate].
Qed.

Lemma Contains_app_l (s0 a b : string) :
  Contains s0 (a ++ b) = true -> Contains s0 a = true.
Proof.
  induction s0 as [|x s0 IH]; intros H.
  - destruct a; simpl in *; [reflexivity|discriminate].
  - cbn [Contains] in *. apply orb_true_iff in H. apply orb_true_iff.
    destruct H as [H|H].
    + left. apply prefix_app_l with (b := b). exact H.
    + right. apply IH. exact H.
Qed.

Lemma filter_filter_imp {A} (f g : A -> bool) (l : list A) :
  (forall x, g x = true -> f x = true) ->
  filter g (filter f l) = filter g l.
Proof.
  intros H. induction l as [|x l IH]; [reflexivity|].
  simpl. destruct (f x) eqn:F; simpl.
  - rewrite IH. reflexivity.
  - destruct (g x) eqn:G; [|exact IH].
    rewrite (H x G) in F. discriminate.
Qed.

(** X13.  Typing narrows the list: in filter mode, a one-byte key whose
    lower-casing does not depend on the text before it leaves, of the rows
    shown before, exactly those whose name matches the longer text, in the
    same order; no row comes back, and the list gets no longer. *)
Theorem filter_key_narrows s c :
  filtering s = true ->
  ToLower lib (filterText s ++ String c "")
  = ToLower lib (filterText s) ++ ToLower lib (String c "") ->
  filteredProjects lib (fst (Update lib s (KeyPressMsg (String c ""))))
  = filter
      (fun p => Contains (ToLower lib (Name p))
                  (ToLower lib (filterText s ++ String c "")))
      (filteredProjects lib s)
  /\ llen (filteredProjects lib (fst (Update lib s (KeyPressMsg (String c "")))))
     <= llen (filteredProjects lib s).
Proof.
  intros Hf Hl.
  assert (E : filteredProjects lib
                (fst (Update lib s (KeyPressMsg (String c ""))))
              = filter
                  (fun p => Contains (ToLower lib (Name p))
                              (ToLower lib (filterText s ++ String c "")))
                  (filteredProjects lib s)).
  { rewrite ListFacts.filter_key_appends by exact Hf. simpl fst.
    unfold filteredProjects at 1. simpl filterText. simpl projects.
    assert (N : (filterText s ++ String c "" =? "")%string = false).
    { apply String.eqb_neq. destruct (filterText s); discriminate. }
    rewrite N. unfold filteredProjects.
    destruct (filterText s =? "")%string; [reflexivity|].
    symmetry. apply filter_filter_imp. intros p H.
    rewrite Hl in H. apply Contains_app_l in H. exact H. }
  split; [exact E|].
  rewrite E. unfold llen. apply inj_le, filter_length_le.
Qed.

Lemma toggle_twice (b : screens.ScreenBase tk) :
  toggle_ShowAll (toggle_ShowAll b) = b.
Proof.
  destruct b as [th d wd h k [sa st] n]. unfold toggle_ShowAll. simpl.
  rewrite negb_involutive. reflexivity.
Qed.

(** X14.  [?] switches the full help on or off and changes nothing else:
    on the list screen outside filter mode, and on the detail screen,
    pressing it twice gives back the screen as it was, with no command
    either time. *)
Theorem help_toggle_involutive s (d : ProjectDetailScreen.t tk)
    (Screen : Type) :
  filtering s = false ->
  Update lib (fst (Update lib s (KeyPressMsg "?"))) (KeyPressMsg "?")
  = (s, None)
  /\ snd (Update lib s (KeyPressMsg "?")) = None
  /\ ShowAll (Help (ScreenBase (fst (Update lib s (KeyPressMsg "?")))))
     = negb (ShowAll (Help (ScreenBase s)))
  /\ ProjectDetailScreen.Update Screen
       (fst (ProjectDetailScreen.Update Screen d (KeyPressMsg "?")))
       (KeyPressMsg "?")
     = (d, None)
  /\ snd (ProjectDetailScreen.Update Screen d (KeyPressMsg "?")) = None.
Proof.
  intros Hf. unfold Update. rewrite Hf. unfold handleNormalInput. simpl.
  rewrite Hf. simpl. unfold set_ScreenBase. simpl.
  rewrite toggle_twice. repeat split.
  - destruct s; reflexivity.
  - rewrite toggle_twice. destruct d; reflexivity.
Qed.

Lemma projects_kept_call s (c : ListCall tk) :
  isScanComplete c = false ->
  projects (listCall lib s c) = projects s.
Proof.
  intros H. destruct c as [|msg|isDark|sc]; simpl; try reflexivity.
  - unfold Init. destruct (scanner s); reflexivity.
  - destruct msg; try discriminate H; simpl; try reflexivity.
    unfold handleFilterInput, handleNormalInput. cbv zeta.
    destruct (filtering s); destruct (scanning s); destruct (scanner s);
      simpl negb; cbv iota;
      repeat (match goal with
              | |- context [if ?b then _ else _] => destruct b
              | |- context [match ?x with Some _ => _ | None => _ end] =>
                  destruct x
              end; cbv iota);
      reflexivity.
Qed.

(** X15.  Only the end of a scan changes the projects a screen holds: no
    key, resize, theme change, [Init] or change of scanner touches the list
    of the list screen, and nothing at all changes the project of a detail
    screen.  Filtering and moving the cursor are views on an unchanged
    list. *)
Theorem keys_never_change_projects s (cs : list (ListCall tk))
    (d : ProjectDetailScreen.t tk) (Screen : Type)
    (ds : list (DetailCall Screen)) :
  0 <= selectedIdx s ->
  forallb (fun c => negb (isScanComplete c)) cs = true ->
  projects (listCalls lib s cs) = projects s
  /\ ProjectDetailScreen.project (detailCalls d ds)
     = ProjectDetailScreen.project d.
Proof.
  intros _ H. split.
  - revert s. induction cs as [|c cs IH]; intros s; [reflexivity|].
    simpl in H. apply andb_true_iff in H. destruct H as [Hc Hcs].
    rewrite ListFacts.listCalls_cons, (IH Hcs).
    apply projects_kept_call. apply negb_true_iff. exact Hc.
  - clear H. revert d. induction ds as [|c ds IH]; intros d; [reflexivity|].
    change (detailCalls d (c :: ds)) with (detailCalls (detailCall d c) ds).
    rewrite IH. destruct c as [msg|isDark]; simpl; [|reflexivity].
    destruct msg; simpl; try reflexivity.
    repeat match goal with
           | |- context [if ?b then _ else _] => destruct b
           end; reflexivity.
Qed.

(** X16.  A selection within the filtered list stays within it under every
    message the screen can receive, except a key typed or erased in filter
    mode: resize, theme change, end of a scan, every key outside filter
    mode, and [esc] and [enter] in filter mode all keep it in range. *)
Theorem selection_kept_in_range s msg :
  selectionInRange lib s ->
  (forall key,
      msg = KeyPressMsg key -> filtering s = true ->
      key = "esc" \/ key = "enter") ->
  selectionInRange lib (fst (Update lib s msg)).
Proof.
  intros H Hk. destruct msg as [wd h|key|b|ps err|sc|]; try exact H.
  - simpl. destruct (filtering s) eqn:Hf.
    + apply ListFacts.leave_filter_in_range; [|exact H].
      apply (Hk key eq_refl eq_refl).
    + apply ListFacts.normal_input_in_range. exact H.
  - apply ListFacts.scan_complete_in_range. apply H.
Qed.

Lemma string_app_assoc (a b c : string) :
  ((a ++ b) ++ c = a ++ (b ++ c))%string.
Proof. induction a as [|x a IH]; simpl; [reflexivity|now rewrite IH]. Qed.

Lemma renderRows_unmarked s l : forall i,
  selectedIdx s < i \/ i + llen l <= selectedIdx s ->
  renderRows s i l = unmarkedRows s l.
Proof.
  induction l as [|p l IH]; intros i H; [reflexivity|].
  unfold llen in H. simpl length in H. simpl.
  destruct (Z.eqb_spec i (selectedIdx s)) as [E|_]; [lia|].
  rewrite IH; [reflexivity|]. unfold llen. lia.
Qed.

Lemma renderRows_marked s l1 p l2 : forall i,
  selectedIdx s = i + llen l1 ->
  renderRows s i (l1 ++ p :: l2)
  = unmarkedRows s l1 ++ renderProjectLine s p true ++ nl
    ++ unmarkedRows s l2.
Proof.
  induction l1 as [|q l1 IH]; intros i H; unfold llen in H; simpl in H.
  - simpl. destruct (Z.eqb_spec i (selectedIdx s)) as [_|N]; [|lia].
    rewrite renderRows_unmarked by lia. reflexivity.
  - simpl. destruct (Z.eqb_spec i (selectedIdx s)) as [E|_]; [lia|].
    rewrite IH by (unfold llen; lia).
    rewrite !string_app_assoc. reflexivity.
Qed.

(** X17.  The rows of the list carry the cursor on the selected row and on
    no other: the row at the selection is rendered as selected, the rows
    before and after it are not; and when the selection is at or beyond the
    end of the rows, as typing in filter mode can leave it, no row carries
    the cursor. *)
Theorem cursor_marks_selected_row s l1 p l2 l :
  (selectedIdx s = llen l1 ->
   renderRows s 0 (l1 ++ p :: l2)
   = unmarkedRows s l1 ++ renderProjectLine s p true ++ nl
     ++ unmarkedRows s l2)
  /\ (llen l <= selectedIdx s -> renderRows s 0 l = unmarkedRows s l).
Proof.
  split; intros H.
  - apply renderRows_marked. lia.
  - apply renderRows_unmarked. lia.
Qed.

End List.

(** Five presses of [j] and of [k] over three rows, from row 0. *)
Lemma cursor_moves_clamped_witness :
  filtering fixtures.loaded = false
  /\ listCalls fixtures.asciiLib fixtures.loaded (presses "j" 5)
     = set_selectedIdx fixtures.loaded 2
  /\ listCalls fixtures.asciiLib fixtures.loaded (presses "k" 5)
     = fixtures.loaded.
Proof.
  split; [reflexivity|].
  split.
  - exact (proj1 (cursor_moves_clamped fixtures.asciiLib fixtures.plain
                    fixtures.loaded "j" 5 eq_refl)
             (or_intror eq_refl)).
  - exact (proj2 (cursor_moves_clamped fixtures.asciiLib fixtures.plain
                    fixtures.loaded "k" 5 eq_refl)
             (or_intror eq_refl)).
Defined.

(** [enter] on the first of three rows. *)
Lemma enter_opens_selected_witness :
  filtering fixtures.loaded = false
  /\ 0 <= selectedIdx fixtures.loaded
  /\ Update fixtures.asciiLib fixtures.loaded (KeyPressMsg "enter")
     = (fixtures.loaded, Some (nav.Push alphaDetail)).
Proof.
  split; [reflexivity|]. split; [discriminate|].
  destruct (enter_opens_selected fixtures.asciiLib fixtures.plain
              fixtures.loaded) as [H _]; [reflexivity|discriminate|].
  exact H.
Defined.

(** The scan of the fixtures' root, from a fresh screen with a scanner. *)
Lemma scan_cycle_witness :
  scanner (SetScanner fixtures.fresh (fixtures.scannerAt fixtures.root))
  = Some (fixtures.scannerAt fixtures.root)
  /\ 0 <= selectedIdx
            (SetScanner fixtures.fresh (fixtures.scannerAt fixtures.root))
  /\ projects
       (fst (Update fixtures.asciiLib fixtures.scanningState
               (result (scanCmd fixtures.asciiLib fixtures.plain
                          (fixtures.scannerAt fixtures.root)
                          fixtures.world))))
     = fst (result (Scan fixtures.asciiLib fixtures.world
                      (fixtures.scannerAt fixtures.root))).
Proof.
  split; [reflexivity|]. split; [discriminate|].
  destruct (scan_cycle fixtures.asciiLib fixtures.plain
              (SetScanner fixtures.fresh (fixtures.scannerAt fixtures.root))
              (fixtures.scannerAt fixtures.root) fixtures.world)
    as (_ & _ & _ & H & _); [reflexivity|discriminate|].
  exact H.
Defined.


(** Typing [e] into the empty filter over the three projects. *)
Lemma filter_key_narrows_witness :
  filtering fixtures.lastSelected = true
  /\ ToLower fixtures.asciiLib (filterText fixtures.lastSelected ++ "e")
     = ToLower fixtures.asciiLib (filterText fixtures.lastSelected)
       ++ ToLower fixtures.asciiLib "e"
  /\ llen (filteredProjects fixtures.asciiLib
             (fst (Update fixtures.asciiLib fixtures.lastSelected
                     (KeyPressMsg "e"))))
     <= llen (filteredProjects fixtures.asciiLib fixtures.lastSelected).
Proof.
  split; [reflexivity|]. split; [reflexivity|].
  destruct (filter_key_narrows fixtures.asciiLib fixtures.plain
              fixtures.lastSelected "e"%char)
    as (_ & H); [reflexivity|reflexivity|].
  exact H.
Defined.

(** [?] twice on the list of three projects. *)
Lemma help_toggle_involutive_witness :
  filtering fixtures.loaded = false
  /\ Update fixtures.asciiLib
       (fst (Update fixtures.asciiLib fixtures.loaded (KeyPressMsg "?")))
       (KeyPressMsg "?")
     = (fixtures.loaded, None).
Proof.
  split; [reflexivity|].
  destruct (help_toggle_involutive fixtures.asciiLib fixtures.plain
              fixtures.loaded alphaDetail unit)
    as (H & _); [reflexivity|].
  exact H.
Defined.

(** Moving, filtering and opening over the three projects. *)
Lemma keys_never_change_projects_witness :
  0 <= selectedIdx fixtures.loaded
  /\ forallb (fun c => negb (isScanComplete c))
       [fixtures.key "j"; fixtures.key "/"; fixtures.key "x";
        fixtures.key "enter"; fixtures.key "enter"] = true
  /\ projects (listCalls fixtures.asciiLib fixtures.loaded
                 [fixtures.key "j"; fixtures.key "/"; fixtures.key "x";
                  fixtures.key "enter"; fixtures.key "enter"])
     = fixtures.threeProjects.
Proof.
  split; [discriminate|]. split; [reflexivity|].
  destruct (keys_never_change_projects fixtures.asciiLib fixtures.plain
              fixtures.loaded
              [fixtures.key "j"; fixtures.key "/"; fixtures.key "x";
               fixtures.key "enter"; fixtures.key "enter"]
              alphaDetail unit [])
    as (H & _); [discriminate|reflexivity|].
  exact H.
Defined.

(** [j] on the first of three rows. *)
Lemma selection_kept_in_range_witness :
  selectionInRange fixtures.asciiLib fixtures.loaded
  /\ selectionInRange fixtures.asciiLib
       (fst (Update fixtures.asciiLib fixtures.loaded (KeyPressMsg "j"))).
Proof.
  assert (H : selectionInRange fixtures.asciiLib fixtures.loaded).
  { unfold selectionInRange. vm_compute. split; intros F; discriminate F. }
  split; [exact H|].
  apply (selection_kept_in_range fixtures.asciiLib fixtures.plain
           fixtures.loaded (KeyPressMsg "j") H).
  intros key _ F. discriminate F.
Defined.

(** The rows of the three projects with the last one selected. *)
Lemma cursor_marks_selected_row_witness :
  selectedIdx fixtures.lastSelected
  = llen [fixtures.named "alpha"; fixtures.named "Beta"]
  /\ renderRows fixtures.lastSelected 0 fixtures.threeProjects
     = unmarkedRows fixtures.lastSelected
         [fixtures.named "alpha"; fixtures.named "Beta"]
       ++ renderProjectLine fixtures.lastSelected (fixtures.named "gamma")
            true
       ++ nl.
Proof.
  split; [reflexivity|].
  destruct (cursor_marks_selected_row fixtures.plain fixtures.lastSelected
              [fixtures.named "alpha"; fixtures.named "Beta"]
              (fixtures.named "gamma") [] [])
    as (H & _).
  exact (H eq_refl).
Defined.

End ListExtras.

(** ** The router *)

Module RouterExtras.

Import projector spec more screens.
Import ui.

Section Router.
Variable lib : GoLib.
Variable tk : Toolkit.

Implicit Types (m : Model tk) (l : list (Screen tk)) (sc : Screen tk).

Lemma top_app l sc : top (l ++ [sc]) = Some sc.
Proof. unfold top. rewrite rev_app_distr. reflexivity. Qed.

Lemma dropTop_app l sc : dropTop (l ++ [sc]) = l.
Proof. apply removelast_last. Qed.

Lemma setTop_app l sc sc' : setTop (l ++ [sc]) sc' = (l ++ [sc'])%list.
Proof.
  unfold setTop. rewrite removelast_last.
  destruct l; reflexivity.
Qed.

Lemma stack_cases l : l = [] \/ exists l' sc, l = (l' ++ [sc])%list.
Proof.
  induction l as [|x l IH] using rev_ind; [left; reflexivity|].
  right. eauto.
Qed.

Lemma llen_app {A} (a b : list A) : llen (a ++ b) = llen a + llen b.
Proof. unfold llen. rewrite length_app. lia. Qed.

Lemma top_Some l sc : top l = Some sc -> exists l', l = (l' ++ [sc])%list.
Proof.
  destruct (stack_cases l) as [->|(l' & x & ->)]; [discriminate|].
  rewrite top_app. intros H. inversion H. eauto.
Qed.

Lemma delegate_app m l t msg :
  screens m = (l ++ [t])%list ->
  delegate lib m msg
  = (set_screens m (l ++ [fst (screenUpdate lib t msg)]),
     batched (snd (screenUpdate lib t msg))).
Proof.
  intros E. unfold delegate. rewrite E, top_app.
  destruct (screenUpdate lib t msg). rewrite setTop_app. reflexivity.
Qed.

Lemma install_spec m sc :
  install lib m sc
  = (fst (screenUpdate lib
            (screenSetTheme (fst (screenInit lib sc)) (isDark m))
            (screens.WindowSizeMsg (width m) (height m))),
     (batched (snd (screenInit lib sc))
      ++ batched (snd (screenUpdate lib
                         (screenSetTheme (fst (screenInit lib sc)) (isDark m))
                         (screens.WindowSizeMsg (width m) (height m)))))%list).
Proof.
  unfold install. destruct (screenInit lib sc). simpl.
  destruct (screenUpdate lib (screenSetTheme s (isDark m))
              (screens.WindowSizeMsg (width m) (height m))).
  reflexivity.
Qed.

Lemma setTop_nonempty l sc : l <> [] -> setTop l sc <> [].
Proof.
  destruct (stack_cases l) as [->|(l' & x & ->)]; [congruence|].
  rewrite setTop_app. intros _ H. apply app_eq_nil in H. destruct H.
  discriminate.
Qed.

Lemma dropTop_nonempty l : 1 < llen l -> dropTop l <> [].
Proof.
  destruct (stack_cases l) as [->|(l' & x & ->)]; [unfold llen; simpl; lia|].
  rewrite dropTop_app, llen_app. unfold llen. simpl.
  destruct l'; simpl; [lia|discriminate].
Qed.

Lemma delegate_nonempty m msg :
  screens m <> [] -> screens (fst (delegate lib m msg)) <> [].
Proof.
  intros H. unfold delegate.
  destruct (top (screens m)); [|exact H].
  destruct (screenUpdate lib s msg). simpl. apply setTop_nonempty, H.
Qed.

Lemma Update_nonempty m msg :
  screens m <> [] -> screens (fst (result (Update lib m msg))) <> [].
Proof.
  intros H. destruct msg as [key|w h|dark|s| |s|data|ps err]; simpl.
  - destruct (key =? "ctrl+c")%string; simpl; [exact H|].
    apply delegate_nonempty, H.
  - apply delegate_nonempty. exact H.
  - apply delegate_nonempty. simpl.
    destruct (screens m); [congruence|discriminate].
  - destruct (install lib m s). simpl.
    intros E. apply app_eq_nil in E. destruct E. discriminate.
  - destruct (Z.ltb_spec 1 (llen (screens m))) as [L|L]; [|exact H].
    simpl. pose proof (dropTop_nonempty _ L) as D.
    destruct (top (dropTop (screens m))); [|exact D].
    destruct (screenUpdate lib s
                (screens.WindowSizeMsg (width m) (height m))).
    simpl. apply setTop_nonempty, D.
  - destruct (0 <? llen (screens m)); [|exact H].
    destruct (install lib m s). simpl. apply setTop_nonempty, H.
  - destruct (Z.ltb_spec 1 (llen (screens m))) as [L|L]; [|exact H].
    simpl. apply dropTop_nonempty, L.
  - apply delegate_nonempty, H.
Qed.

Lemma Init_nonempty m :
  screens m <> [] -> screens (fst (result (Init lib m))) <> [].
Proof.
  intros H. unfold Init. rewrite result_bind. cbv beta.
  destruct (top (screens m)); [|exact H].
  destruct (screenInit lib s). simpl. apply setTop_nonempty, H.
Qed.

(** X18.  The navigation stack never becomes empty: whatever the runtime
    sends after [New], pushes, pops, replacements, settings notices, keys,
    there is a screen left to show; a pop with a single screen on the stack
    changes nothing and returns no command. *)
Theorem stack_never_empty home cfg (cs : list (RouterCall tk)) m :
  forallb callOk cs = true ->
  screens (routerCalls lib (New lib tk home cfg) cs) <> []
  /\ (llen (screens m) = 1 -> Update lib m PopMsg = ret (m, [])).
Proof.
  intros _. split.
  - assert (G : forall m, screens m <> [] ->
                          screens (routerCalls lib m cs) <> []).
    { induction cs as [|c cs IH]; intros m0 H; [exact H|].
      simpl. apply IH. destruct c; simpl.
      - apply Init_nonempty, H.
      - apply Update_nonempty, H. }
    apply G. discriminate.
  - intros L. simpl. rewrite L. reflexivity.
Qed.


(** *** Quitting *)

Lemma delegate_quitting m msg :
  quitting (fst (delegate lib m msg)) = quitting m.
Proof.
  unfold delegate. destruct (top (screens m)); [|reflexivity].
  destruct (screenUpdate lib s msg). reflexivity.
Qed.

Lemma Update_quitting m msg :
  quitting m = true -> quitting (fst (result (Update lib m msg))) = true.
Proof.
  intros H. destruct msg as [key|w h|dark|s| |s|data|ps err]; simpl.
  - destruct (key =? "ctrl+c")%string; simpl; [reflexivity|].
    rewrite delegate_quitting. exact H.
  - rewrite delegate_quitting. exact H.
  - rewrite delegate_quitting. exact H.
  - destruct (install lib m s). exact H.
  - destruct (1 <? llen (screens m)); [|exact H]. simpl.
    destruct (top (dropTop (screens m))); [|exact H].
    destruct (screenUpdate lib s
                (screens.WindowSizeMsg (width m) (height m))).
    exact H.
  - destruct (0 <? llen (screens m)); [|exact H].
    destruct (install lib m s). exact H.
  - destruct (1 <? llen (screens m)); exact H.
  - rewrite delegate_quitting. exact H.
Qed.

Lemma Init_quitting m :
  quitting (fst (result (Init lib m))) = quitting m.
Proof.
  unfold Init. rewrite result_bind. cbv beta.
  destruct (top (screens m)); [|reflexivity].
  destruct (screenInit lib s). reflexivity.
Qed.

(** X19.  [ctrl+c] quits from every screen and in every mode: the router
    answers it itself with the quit command and one log entry, without
    showing the key to the active screen or touching the stack, and from
    then on its view is empty whatever else arrives. *)
Theorem quit_is_final (bv : BaseViews tk) m (cs : list (RouterCall tk)) :
  stackOk m ->
  forallb callOk cs = true ->
  Update lib m (KeyPressMsg "ctrl+c")
  = ((set_quitting m true, [Quit]), [EvLog "Quit key pressed" ""])
  /\ screens (set_quitting m true) = screens m
  /\ View lib bv (routerCalls lib (set_quitting m true) cs) = NewView "".
Proof.
  intros _ _. split; [reflexivity|]. split; [reflexivity|].
  assert (G : forall m0, quitting m0 = true ->
                         quitting (routerCalls lib m0 cs) = true).
  { induction cs as [|c cs IH]; intros m0 H; [exact H|].
    simpl. apply IH. destruct c; simpl.
    - rewrite Init_quitting. exact H.
    - apply Update_quitting, H. }
  unfold View. rewrite G; reflexivity.
Qed.

(** *** Theme and size of the screens *)

Lemma list_Update_base (s : ProjectsListScreen.t tk) msg :
  IsDark (ProjectsListScreen.ScreenBase (fst (ProjectsListScreen.Update lib s msg)))
  = IsDark (ProjectsListScreen.ScreenBase s).
Proof.
  destruct msg; simpl; try reflexivity.
  - unfold ProjectsListScreen.handleFilterInput,
      ProjectsListScreen.handleNormalInput.
    cbv zeta.
    destruct (ProjectsListScreen.filtering s);
      destruct (ProjectsListScreen.scanning s);
      destruct (ProjectsListScreen.scanner s); simpl negb; cbv iota;
      repeat (match goal with
              | |- context [if ?b then _ else _] => destruct b
              | |- context [match ?x with Some _ => _ | None => _ end] =>
                  destruct x
              end; cbv iota);
      reflexivity.
  - repeat (match goal with
            | |- context [if ?b then _ else _] => destruct b
            | |- context [match ?x with Some _ => _ | None => _ end] =>
                destruct x
            end; cbv iota);
      reflexivity.
Qed.

Lemma screenUpdate_IsDark sc msg :
  IsDark (base (fst (screenUpdate lib sc msg))) = IsDark (base sc).
Proof.
  destruct sc as [s|d]; simpl.
  - pose proof (list_Update_base s msg) as H.
    destruct (ProjectsListScreen.Update lib s msg). exact H.
  - destruct msg; simpl; try reflexivity.
    repeat match goal with
           | |- context [if ?b then _ else _] => destruct b
           end; reflexivity.
Qed.

Lemma screenInit_base sc : base (fst (screenInit lib sc)) = base sc.
Proof.
  destruct sc as [s|d]; simpl; [|reflexivity].
  unfold ProjectsListScreen.Init.
  destruct (ProjectsListScreen.scanner s); reflexivity.
Qed.

Lemma screenSetTheme_IsDark sc dark :
  IsDark (base (screenSetTheme sc dark)) = dark.
Proof. destruct sc; reflexivity. Qed.

Lemma install_IsDark m sc :
  IsDark (base (fst (install lib m sc))) = isDark m.
Proof.
  rewrite install_spec. simpl fst.
  rewrite screenUpdate_IsDark. apply screenSetTheme_IsDark.
Qed.

Lemma Forall_setTop (P : Screen tk -> Prop) l sc :
  Forall P l -> P sc -> Forall P (setTop l sc).
Proof.
  intros Hl Hs. destruct (stack_cases l) as [->|(l' & x & ->)];
    [constructor|].
  rewrite setTop_app. apply Forall_app in Hl. destruct Hl as [Hl _].
  apply Forall_app. split; [exact Hl|]. constructor; [exact Hs|constructor].
Qed.

Lemma Forall_dropTop (P : Screen tk -> Prop) l :
  Forall P l -> Forall P (dropTop l).
Proof.
  intros Hl. destruct (stack_cases l) as [->|(l' & x & ->)];
    [constructor|].
  rewrite dropTop_app. apply Forall_app in Hl. apply Hl.
Qed.

Lemma Forall_top (P : Screen tk -> Prop) l sc :
  Forall P l -> top l = Some sc -> P sc.
Proof.
  intros Hl Ht. apply top_Some in Ht. destruct Ht as [l' ->].
  apply Forall_app in Hl. destruct Hl as [_ Hl]. inversion Hl. assumption.
Qed.

Lemma delegate_themed m msg :
  themed m -> themed (fst (delegate lib m msg)).
Proof.
  unfold themed, delegate. intros H.
  destruct (top (screens m)) eqn:T; [|exact H].
  pose proof (screenUpdate_IsDark s msg) as U.
  destruct (screenUpdate lib s msg) as [upd cmd]. simpl in *.
  apply Forall_setTop; [exact H|].
  rewrite U.
  apply (Forall_top (fun sc => IsDark (base sc) = isDark m) _ _ H T).
Qed.

Lemma Update_themed m msg :
  themed m -> themed (fst (result (Update lib m msg))).
Proof.
  intros H. destruct msg as [key|w h|dark|s| |s|data|ps err]; simpl.
  - destruct (key =? "ctrl+c")%string; simpl; [exact H|].
    apply delegate_themed, H.
  - apply delegate_themed. exact H.
  - apply delegate_themed. unfold themed. simpl.
    apply Forall_map. apply Forall_forall. intros x _.
    apply screenSetTheme_IsDark.
  - pose proof (install_IsDark m s) as I.
    destruct (install lib m s) as [s' cmds]. unfold themed. simpl in *.
    apply Forall_app. split; [exact H|]. constructor; [exact I|constructor].
  - destruct (1 <? llen (screens m)); [|exact H]. simpl.
    destruct (top (dropTop (screens m))) eqn:T;
      [|apply Forall_dropTop; exact H].
    pose proof (screenUpdate_IsDark s
                  (screens.WindowSizeMsg (width m) (height m))) as U.
    destruct (screenUpdate lib s
                (screens.WindowSizeMsg (width m) (height m))) as [upd cmd].
    unfold themed. simpl in *.
    apply Forall_setTop; [apply Forall_dropTop; exact H|].
    rewrite U.
    apply (Forall_top (fun sc => IsDark (base sc) = isDark m)
             (dropTop (screens m)) s);
      [apply Forall_dropTop; exact H|exact T].
  - destruct (0 <? llen (screens m)); [|exact H].
    pose proof (install_IsDark m s) as I.
    destruct (install lib m s) as [s' cmds]. unfold themed. simpl in *.
    apply Forall_setTop; assumption.
  - destruct (1 <? llen (screens m)); [|exact H].
    apply Forall_dropTop. exact H.
  - apply delegate_themed, H.
Qed.

Lemma Init_themed m : themed m -> themed (fst (result (Init lib m))).
Proof.
  intros H. unfold Init. rewrite result_bind. cbv beta.
  destruct (top (screens m)) eqn:T; [|exact H].
  pose proof (screenInit_base s) as B.
  destruct (screenInit lib s) as [s' cmd]. unfold themed. simpl in *.
  apply Forall_setTop; [exact H|].
  rewrite B.
  apply (Forall_top (fun sc => IsDark (base sc) = isDark m) _ _ H T).
Qed.

(** X20.  Every screen of the stack, not only the active one, has the
    theme the router last detected: a background-colour message re-themes
    the whole stack, and a screen pushed or put in place of another is
    themed before it is installed. *)
Theorem theme_reaches_every_screen home cfg (cs : list (RouterCall tk)) :
  forallb callOk cs = true ->
  themed (routerCalls lib (New lib tk home cfg) cs).
Proof.
  intros _.
  assert (G : forall m0, themed m0 -> themed (routerCalls lib m0 cs)).
  { induction cs as [|c cs IH]; intros m0 H; [exact H|].
    simpl. apply IH. destruct c; simpl.
    - apply Init_themed, H.
    - apply Update_themed, H. }
  apply G. unfold themed. simpl. constructor; [reflexivity|constructor].
Qed.



Lemma screenUpdate_resized sc w h :
  sizeOf (fst (screenUpdate lib sc (screens.WindowSizeMsg w h))) = (w, h).
Proof. destruct sc; reflexivity. Qed.

Lemma screenUpdate_size sc msg :
  isWindowSize msg = false ->
  sizeOf (fst (screenUpdate lib sc msg)) = sizeOf sc.
Proof.
  intros H. unfold sizeOf. destruct sc as [s|d]; simpl.
  - destruct (ViewFacts.list_unsized_call lib tk s (callUpdate msg))
      as (_ & W & Ht).
    { simpl. apply negb_true_iff. exact H. }
    simpl in W, Ht.
    destruct (ProjectsListScreen.Update lib s msg). simpl in *. congruence.
  - destruct (ViewFacts.detail_unsized_call tk (Detail tk) d
                (detailUpdate msg)) as (_ & W & Ht).
    { simpl. apply negb_true_iff. exact H. }
    simpl in W, Ht.
    destruct (ProjectDetailScreen.Update (Detail tk) d msg). simpl in *.
    congruence.
Qed.

Lemma screenSetTheme_size sc dark : sizeOf (screenSetTheme sc dark) = sizeOf sc.
Proof. destruct sc; reflexivity. Qed.

Lemma install_size m sc :
  sizeOf (fst (install lib m sc)) = (width m, height m).
Proof. rewrite install_spec. apply screenUpdate_resized. Qed.

Lemma top_setTop l sc :
  top (setTop l sc) = match l with [] => None | _ => Some sc end.
Proof.
  destruct (stack_cases l) as [->|(l' & x & ->)]; [reflexivity|].
  rewrite setTop_app, top_app. destruct l'; reflexivity.
Qed.

Lemma top_map (f : Screen tk -> Screen tk) l :
  top (map f l) = option_map f (top l).
Proof.
  destruct (stack_cases l) as [->|(l' & x & ->)]; [reflexivity|].
  rewrite map_app. simpl. rewrite !top_app. reflexivity.
Qed.

Lemma topSized_intro m sc :
  top (screens m) = Some sc -> sizeOf sc = (width m, height m) -> topSized m.
Proof.
  unfold topSized, sizeOf. intros -> H. inversion H. split; reflexivity.
Qed.

Lemma topSized_elim m sc :
  topSized m -> top (screens m) = Some sc -> sizeOf sc = (width m, height m).
Proof.
  unfold topSized, sizeOf. intros H T. rewrite T in H. destruct H as [-> ->].
  reflexivity.
Qed.

Lemma delegate_sized m msg :
  isWindowSize msg = false ->
  topSized m -> topSized (fst (delegate lib m msg)).
Proof.
  intros Hm H. unfold delegate.
  destruct (top (screens m)) eqn:T; [|exact H].
  pose proof (screenUpdate_size s msg Hm) as U.
  destruct (screenUpdate lib s msg) as [upd cmd]. simpl in *.
  apply topSized_intro with (sc := upd).
  - simpl. rewrite top_setTop. destruct (screens m); [discriminate|reflexivity].
  - simpl. rewrite U. apply (topSized_elim m s H T).
Qed.

Lemma Update_sized m msg :
  (forall data, msg <> SettingsAppliedMsg data) ->
  topSized m -> topSized (fst (result (Update lib m msg))).
Proof.
  intros Hs H. destruct msg as [key|w h|dark|s| |s|data|ps err]; simpl.
  - destruct (key =? "ctrl+c")%string; simpl; [exact H|].
    apply delegate_sized; [reflexivity|exact H].
  - unfold delegate. simpl.
    destruct (top (screens m)) eqn:T; [|unfold topSized; simpl; rewrite T; exact I].
    pose proof (screenUpdate_resized s w h) as U.
    destruct (screenUpdate lib s (screens.WindowSizeMsg w h)) as [upd cmd].
    simpl in *. apply topSized_intro with (sc := upd); [|exact U].
    simpl. rewrite top_setTop. destruct (screens m); [discriminate|reflexivity].
  - apply delegate_sized; [reflexivity|].
    unfold topSized in *. simpl. rewrite top_map.
    destruct (top (screens m)) as [sc|]; [|exact I]. simpl.
    pose proof (screenSetTheme_size sc dark) as E. unfold sizeOf in E.
    inversion E. destruct H as [<- <-]. split; assumption.
  - pose proof (install_size m s) as I.
    destruct (install lib m s) as [s' cmds]. simpl in *.
    apply topSized_intro with (sc := s'); [|exact I].
    simpl. apply top_app.
  - destruct (1 <? llen (screens m)); [|exact H]. simpl.
    destruct (top (dropTop (screens m))) eqn:T;
      [|unfold topSized; simpl; rewrite T; exact I].
    pose proof (screenUpdate_resized s (width m) (height m)) as U.
    destruct (screenUpdate lib s
                (screens.WindowSizeMsg (width m) (height m))) as [upd cmd].
    simpl in *. apply topSized_intro with (sc := upd); [|exact U].
    simpl. rewrite top_setTop.
    destruct (dropTop (screens m)); [discriminate|reflexivity].
  - destruct (0 <? llen (screens m)) eqn:L; [|exact H].
    pose proof (install_size m s) as I.
    destruct (install lib m s) as [s' cmds]. simpl in *.
    apply topSized_intro with (sc := s'); [|exact I].
    simpl. rewrite top_setTop.
    destruct (screens m); [discriminate L|reflexivity].
  - destruct (Hs data eq_refl).
  - apply delegate_sized; [reflexivity|exact H].
Qed.

Lemma Init_sized m : topSized m -> topSized (fst (result (Init lib m))).
Proof.
  intros H. unfold Init. rewrite result_bind. cbv beta.
  destruct (top (screens m)) eqn:T; [|exact H].
  pose proof (screenInit_base s) as B.
  destruct (screenInit lib s) as [s' cmd]. simpl in *.
  apply topSized_intro with (sc := s').
  - simpl. rewrite top_setTop. destruct (screens m); [discriminate|reflexivity].
  - simpl. unfold sizeOf. rewrite B. apply (topSized_elim m s H T).
Qed.

(** X21.  The active screen is always laid out at the window size the
    router knows: a resize reaches it, a pushed or replacing screen is sized
    before it is installed, and a pop resizes the screen it exposes.  The
    settings notice is left out: it pops without resizing. *)
Theorem active_screen_has_window_size home cfg (cs : list (RouterCall tk)) :
  forallb callOk cs = true ->
  forallb (fun c => negb (isSettingsApplied c)) cs = true ->
  topSized (routerCalls lib (New lib tk home cfg) cs).
Proof.
  intros _ Hcs.
  assert (G : forall m0, topSized m0 -> topSized (routerCalls lib m0 cs)).
  { induction cs as [|c cs IH]; intros m0 H; [exact H|].
    simpl in Hcs. apply andb_true_iff in Hcs. destruct Hcs as [Hc Hcs].
    simpl. apply (IH Hcs). destruct c as [|msg]; simpl.
    - apply Init_sized, H.
    - apply Update_sized; [|exact H].
      intros data ->. discriminate Hc. }
  apply G. unfold topSized. simpl. split; reflexivity.
Qed.


(** *** The selection of the list screens *)

Lemma screenUpdate_ok sc msg :
  screenOk sc = true -> screenOk (fst (screenUpdate lib sc msg)) = true.
Proof.
  destruct sc as [s|d]; simpl.
  - intros H. apply Z.leb_le in H.
    pose proof (ListFacts.selectedIdx_nonneg_call lib tk s (callUpdate msg) H)
      as N.
    simpl in N. destruct (ProjectsListScreen.Update lib s msg).
    simpl in *. apply Z.leb_le. exact N.
  - intros _. destruct (ProjectDetailScreen.Update (Detail tk) d msg).
    reflexivity.
Qed.

Lemma screenInit_ok sc :
  screenOk sc = true -> screenOk (fst (screenInit lib sc)) = true.
Proof.
  destruct sc as [s|d]; simpl; [|auto].
  unfold ProjectsListScreen.Init.
  destruct (ProjectsListScreen.scanner s); simpl; auto.
Qed.

Lemma screenSetTheme_ok sc dark :
  screenOk sc = true -> screenOk (screenSetTheme sc dark) = true.
Proof. destruct sc; simpl; auto. Qed.

Lemma install_ok m sc :
  screenOk sc = true -> screenOk (fst (install lib m sc)) = true.
Proof.
  intros H. rewrite install_spec. simpl.
  apply screenUpdate_ok, screenSetTheme_ok, screenInit_ok, H.
Qed.

Lemma delegate_ok m msg : stackOk m -> stackOk (fst (delegate lib m msg)).
Proof.
  unfold stackOk, delegate. intros H.
  destruct (top (screens m)) eqn:T; [|exact H].
  pose proof (screenUpdate_ok s msg
                (Forall_top (fun sc => screenOk sc = true) _ _ H T)) as U.
  destruct (screenUpdate lib s msg) as [upd cmd]. simpl in *.
  apply Forall_setTop; assumption.
Qed.

Lemma Update_ok m msg :
  callOk (routerUpdate msg) = true ->
  stackOk m -> stackOk (fst (result (Update lib m msg))).
Proof.
  intros Hc H. destruct msg as [key|w h|dark|s| |s|data|ps err]; simpl.
  - destruct (key =? "ctrl+c")%string; simpl; [exact H|].
    apply delegate_ok, H.
  - apply delegate_ok. exact H.
  - apply delegate_ok. unfold stackOk in *. simpl.
    apply Forall_map. revert H. apply Forall_impl. intros x.
    apply screenSetTheme_ok.
  - pose proof (install_ok m s Hc) as I.
    destruct (install lib m s) as [s' cmds]. unfold stackOk in *. simpl in *.
    apply Forall_app. split; [exact H|]. constructor; [exact I|constructor].
  - destruct (1 <? llen (screens m)); [|exact H]. simpl.
    destruct (top (dropTop (screens m))) eqn:T;
      [|apply Forall_dropTop; exact H].
    pose proof (screenUpdate_ok s
                  (screens.WindowSizeMsg (width m) (height m))
                  (Forall_top (fun sc => screenOk sc = true) _ _
                     (Forall_dropTop _ _ H) T)) as U.
    destruct (screenUpdate lib s
                (screens.WindowSizeMsg (width m) (height m))) as [upd cmd].
    unfold stackOk. simpl in *.
    apply Forall_setTop; [apply Forall_dropTop; exact H|exact U].
  - destruct (0 <? llen (screens m)); [|exact H].
    pose proof (install_ok m s Hc) as I.
    destruct (install lib m s) as [s' cmds]. unfold stackOk in *. simpl in *.
    apply Forall_setTop; assumption.
  - destruct (1 <? llen (screens m)); [|exact H].
    apply Forall_dropTop. exact H.
  - apply delegate_ok, H.
Qed.

Lemma Init_ok m : stackOk m -> stackOk (fst (result (Init lib m))).
Proof.
  intros H. unfold Init. rewrite result_bind. cbv beta.
  destruct (top (screens m)) eqn:T; [|exact H].
  pose proof (screenInit_ok s
                (Forall_top (fun sc => screenOk sc = true) _ _ H T)) as B.
  destruct (screenInit lib s) as [s' cmd]. unfold stackOk in *. simpl in *.
  apply Forall_setTop; assumption.
Qed.

(** X22.  No list screen of the stack ever has a negative selection,
    provided the screens that arrive in push and replace messages have none:
    the index expression behind [enter] is then always within the filtered
    list when its guard holds. *)
Theorem selection_never_negative home cfg (cs : list (RouterCall tk)) :
  forallb callOk cs = true ->
  stackOk (routerCalls lib (New lib tk home cfg) cs).
Proof.
  intros Hcs.
  assert (G : forall m0, stackOk m0 -> stackOk (routerCalls lib m0 cs)).
  { induction cs as [|c cs IH]; intros m0 H; [exact H|].
    simpl in Hcs. apply andb_true_iff in Hcs. destruct Hcs as [Hc Hcs].
    simpl. apply (IH Hcs). destruct c as [|msg]; simpl.
    - apply Init_ok, H.
    - apply Update_ok; assumption. }
  apply G. unfold stackOk. simpl. constructor; [reflexivity|constructor].
Qed.

(** *** Pushing and popping *)

Lemma set_screens_same m : set_screens m (screens m) = m.
Proof. destruct m; reflexivity. Qed.

Lemma pop_after_push m l sc pushed :
  screens m = (l ++ [sc])%list ->
  result (Update lib (fst (result (Update lib m (PushMsg pushed)))) PopMsg)
  = (set_screens m
       (l ++ [fst (screenUpdate lib sc
                     (screens.WindowSizeMsg (width m) (height m)))]),
     batched (snd (screenUpdate lib sc
                     (screens.WindowSizeMsg (width m) (height m))))).
Proof.
  intros E. simpl.
  destruct (install lib m pushed) as [s' cmds]. simpl. rewrite E.
  assert (L : (1 <? llen ((l ++ [sc]) ++ [s'])) = true).
  { apply Z.ltb_lt. unfold llen. rewrite !length_app. simpl. lia. }
  rewrite L. simpl. rewrite (dropTop_app (l ++ [sc])), top_app.
  destruct (screenUpdate lib sc
              (screens.WindowSizeMsg (width m) (height m))) as [upd cmd].
  simpl. rewrite setTop_app. reflexivity.
Qed.

Lemma resized_same sc :
  isReady sc = true ->
  screenUpdate lib sc
    (screens.WindowSizeMsg (Width (base sc)) (Height (base sc)))
  = (sc, None).
Proof.
  destruct sc as [s|d]; simpl; intros R.
  - destruct s as [b]; destruct b; simpl in *. subst. reflexivity.
  - destruct d as [b]; destruct b; simpl in *. subst. reflexivity.
Qed.

(** X23.  A pop undoes a push: after pushing any screen and popping it the
    stack holds the screens it held, the one that was active having received
    the current window size once more, and the command of that resize is
    what the pop returns.  If that screen was ready and of the router's
    size, the router is exactly as it was before the push. *)
Theorem push_then_pop m l sc pushed :
  screens m = (l ++ [sc])%list ->
  (result (Update lib (fst (result (Update lib m (PushMsg pushed)))) PopMsg)
   = (set_screens m
        (l ++ [fst (screenUpdate lib sc
                      (screens.WindowSizeMsg (width m) (height m)))]),
      batched (snd (screenUpdate lib sc
                      (screens.WindowSizeMsg (width m) (height m))))))
  /\ (sizeOf sc = (width m, height m) ->
      isReady sc = true ->
      result (Update lib (fst (result (Update lib m (PushMsg pushed)))) PopMsg)
      = (m, [])).
Proof.
  intros E. split; [apply pop_after_push, E|].
  intros S R. rewrite (pop_after_push m l sc pushed E).
  unfold sizeOf in S. injection S as W Ht.
  rewrite <- W, <- Ht, (resized_same sc R). simpl.
  rewrite <- E, set_screens_same. reflexivity.
Qed.

(** *** From the list to the detail screen and back *)

(** X24.  From the list to the detail screen and back.  With the list
    screen active and a row selected, [enter] returns one command; run, it
    yields a push of a new detail screen for the selected project; delivered,
    it leaves the list screen under a detail screen that shows that project,
    is ready, and has the router's size and theme.  There [esc] returns the
    pop command, and delivering its message restores the router as it was
    before [enter]. *)
Theorem enter_opens_detail_esc_closes m l s p (w : World) :
  screens m = (l ++ [ListScreen s])%list ->
  ProjectsListScreen.filtering s = false ->
  0 <= ProjectsListScreen.selectedIdx s ->
  index (ProjectsListScreen.filteredProjects lib s)
    (ProjectsListScreen.selectedIdx s) = Some p ->
  ProjectsListScreen.ready s = true ->
  sizeOf (ListScreen s) = (width m, height m) ->
  exists open close d,
    result (Update lib m (KeyPressMsg "enter")) = (m, [ScreenCmd open])
    /\ open w = ret (screens.PushMsg
                       (ProjectDetailScreen.NewProjectDetailScreen tk p
                          (IsDark (ProjectsListScreen.ScreenBase s))
                          (AppName (ProjectsListScreen.ScreenBase s))))
    /\ result (Update lib m (delivered (result (open w))))
       = (set_screens m (l ++ [ListScreen s; DetailScreen d]), [])
    /\ ProjectDetailScreen.project d = p
    /\ ProjectDetailScreen.ready d = true
    /\ sizeOf (DetailScreen d) = (width m, height m)
    /\ IsDark (ProjectDetailScreen.ScreenBase d) = isDark m
    /\ result (Update lib
                 (set_screens m (l ++ [ListScreen s; DetailScreen d]))
                 (KeyPressMsg "esc"))
       = (set_screens m (l ++ [ListScreen s; DetailScreen d]),
          [ScreenCmd close])
    /\ close w = ret screens.PopMsg
    /\ result (Update lib
                 (set_screens m (l ++ [ListScreen s; DetailScreen d]))
                 (delivered (result (close w))))
       = (m, []).
Proof.
  intros E Hf H0 Hp Hr Hs.
  set (d0 := ProjectDetailScreen.NewProjectDetailScreen tk p
               (IsDark (ProjectsListScreen.ScreenBase s))
               (AppName (ProjectsListScreen.ScreenBase s))).
  set (d := ProjectDetailScreen.mk tk
              (set_Size (ApplyTheme (ProjectDetailScreen.ScreenBase d0)
                           (isDark m)) (width m) (height m))
              p true).
  exists (nav.Push d0), nav.Pop, d.
  assert (U : ProjectsListScreen.Update lib s
                (@screens.KeyPressMsg (Detail tk) "enter")
              = (s, Some (nav.Push d0))).
  { unfold ProjectsListScreen.Update. rewrite Hf.
    unfold ProjectsListScreen.handleNormalInput. simpl.
    rewrite Hp.
    assert (B : index (ProjectsListScreen.filteredProjects lib s)
                  (ProjectsListScreen.selectedIdx s) <> None) by congruence.
    unfold index in B.
    destruct (Z.ltb_spec (ProjectsListScreen.selectedIdx s) 0); [lia|].
    apply nth_error_Some in B.
    destruct (Z.ltb_spec 0 (llen (ProjectsListScreen.filteredProjects lib s)));
      destruct (Z.ltb_spec (ProjectsListScreen.selectedIdx s)
                  (llen (ProjectsListScreen.filteredProjects lib s)));
      unfold llen in *; try lia; reflexivity. }
  split.
  { change (Update lib m (KeyPressMsg "enter"))
      with (ret (delegate lib m (screens.KeyPressMsg "enter"))).
    rewrite (delegate_app m l (ListScreen s) _ E).
    unfold screenUpdate. rewrite U. simpl.
    rewrite <- E, set_screens_same. reflexivity. }
  split; [reflexivity|].
  split.
  { simpl. rewrite E. rewrite <- app_assoc. reflexivity. }
  split; [reflexivity|]. split; [reflexivity|]. split; [reflexivity|].
  split; [reflexivity|].
  split.
  { match goal with
    | |- result (Update lib ?m1 _) = _ =>
        change (Update lib m1 (KeyPressMsg "esc"))
          with (ret (delegate lib m1 (screens.KeyPressMsg "esc")));
        rewrite (delegate_app m1 (l ++ [ListScreen s]) (DetailScreen d)
                   (screens.KeyPressMsg "esc"))
    end.
    - simpl. rewrite <- app_assoc. reflexivity.
    - simpl. rewrite <- app_assoc. reflexivity. }
  split; [reflexivity|].
  simpl.
  assert (L : (1 <? llen (l ++ [ListScreen s; DetailScreen d])) = true).
  { apply Z.ltb_lt. unfold llen. rewrite length_app. simpl. lia. }
  rewrite L. simpl.
  change (l ++ [ListScreen s; DetailScreen d])%list
    with (l ++ [ListScreen s] ++ [DetailScreen d])%list.
  rewrite app_assoc, dropTop_app, top_app.
  unfold sizeOf in Hs. injection Hs as W Ht.
  pose proof (resized_same (ListScreen s) Hr) as Q.
  simpl base in *. rewrite W, Ht in Q. rewrite Q. simpl.
  rewrite setTop_app. destruct m; simpl in *. rewrite E. reflexivity.
Qed.

(** *** Start *)

Lemma substring_all (s0 : string) : substring 0 (String.length s0) s0 = s0.
Proof. induction s0 as [|c s0 IH]; simpl; [reflexivity|now rewrite IH]. Qed.

(** X25.  What the program starts with.  [New] builds one list screen with
    a scanner of the same directory, a positive number of workers and a
    positive time limit, whatever the configuration says; a configured
    directory that starts with [~] is taken below the home directory, also
    when a user name follows the [~]; any other non-empty one is taken as it
    is.  [Init] logs once, asks for the background colour and starts the
    scan, and until a window size arrives the view reads [Loading...]. *)
Theorem start_scans_projects_dir (bv : BaseViews tk) home cfg :
  exists root scn,
    screens (New lib tk home cfg) = [ListScreen root]
    /\ ProjectsListScreen.scanner root = Some scn
    /\ ProjectsListScreen.projectsDir root = rootDir scn
    /\ 0 < concurrency scn
    /\ 0 < timeout (gitClient scn)
    /\ (forall rest,
          Projector_ProjectsDir cfg = String "~" rest ->
          rootDir scn = filepath_Join lib home rest)
    /\ (Projector_ProjectsDir cfg <> "" ->
        String.prefix "~" (Projector_ProjectsDir cfg) = false ->
        rootDir scn = Projector_ProjectsDir cfg)
    /\ Init lib (New lib tk home cfg)
       = ((set_screens (New lib tk home cfg)
             [ListScreen (ProjectsListScreen.set_scanning root true)],
           [RequestBackgroundColor;
            ScreenCmd (ProjectsListScreen.scanCmd lib tk scn)]),
          [EvLog "Initializing UI model" ""])
    /\ View lib bv (fst (result (Init lib (New lib tk home cfg))))
       = mkView "Loading..." (UI_AltScreen cfg) (App_Title cfg)
           (UI_MouseEnabled cfg).
Proof.
  unfold New. cbv zeta.
  match goal with
  | |- context [ProjectsListScreen.SetScanner ?r ?s] =>
      exists (ProjectsListScreen.SetScanner r s), s
  end.
  split; [reflexivity|]. split; [reflexivity|]. split; [reflexivity|].
  split.
  { unfold NewScanner. simpl.
    destruct (Z.leb_spec (Projector_Scan_Concurrency cfg) 0); simpl; lia. }
  split.
  { unfold NewScanner, NewGitClient. simpl.
    repeat match goal with
           | |- context [if ?a <=? ?b then _ else _] =>
               destruct (Z.leb_spec a b)
           end; unfold second in *; simpl; lia. }
  split.
  { intros rest Hd. rewrite Hd. simpl.
    rewrite Nat.sub_0_r, substring_all. destruct rest; reflexivity. }
  split.
  { intros Hd Hp. simpl.
    destruct (Projector_ProjectsDir cfg =? "")%string eqn:Q;
      [apply String.eqb_eq in Q; contradiction|].
    rewrite Hp. reflexivity. }
  split; reflexivity.
Qed.

End Router.

(** A pop, then [esc], right after the start. *)
Lemma stack_never_empty_witness :
  forallb (@callOk fixtures.plain)
    [routerInit; routerUpdate PopMsg; routerUpdate (KeyPressMsg "esc");
     routerUpdate (SettingsAppliedMsg "{}")] = true
  /\ llen (screens started) = 1
  /\ screens (routerCalls fixtures.asciiLib started
                [routerInit; routerUpdate PopMsg;
                 routerUpdate (KeyPressMsg "esc");
                 routerUpdate (SettingsAppliedMsg "{}")]) <> []
  /\ Update fixtures.asciiLib started PopMsg = ret (started, []).
Proof.
  split; [reflexivity|]. split; [reflexivity|].
  destruct (stack_never_empty fixtures.asciiLib fixtures.plain home config
              [routerInit; routerUpdate PopMsg;
               routerUpdate (KeyPressMsg "esc");
               routerUpdate (SettingsAppliedMsg "{}")]
              started)
    as (H & P); [reflexivity|].
  split; [exact H|]. exact (P eq_refl).
Defined.

(** [ctrl+c] while browsing, followed by more keys. *)
Lemma quit_is_final_witness :
  stackOk browsing
  /\ forallb (@callOk fixtures.plain)
       [routerUpdate (KeyPressMsg "j");
        routerUpdate (WindowSizeMsg 100 30)] = true
  /\ View fixtures.asciiLib fixtures.plainViews
       (routerCalls fixtures.asciiLib (set_quitting browsing true)
          [routerUpdate (KeyPressMsg "j");
           routerUpdate (WindowSizeMsg 100 30)])
     = NewView "".
Proof.
  assert (S : stackOk browsing).
  { constructor; [reflexivity|constructor]. }
  split; [exact S|]. split; [reflexivity|].
  destruct (quit_is_final fixtures.asciiLib fixtures.plain
              fixtures.plainViews browsing
              [routerUpdate (KeyPressMsg "j");
               routerUpdate (WindowSizeMsg 100 30)])
    as (_ & _ & H); [exact S|reflexivity|].
  exact H.
Defined.

(** A dark background detected with a detail screen open. *)
Lemma theme_reaches_every_screen_witness :
  forallb (@callOk fixtures.plain)
    (startCalls ++ [routerUpdate (PushMsg (DetailScreen alphaDetail));
                    routerUpdate (BackgroundColorMsg true)]) = true
  /\ themed
       (routerCalls fixtures.asciiLib started
          (startCalls ++ [routerUpdate (PushMsg (DetailScreen alphaDetail));
                          routerUpdate (BackgroundColorMsg true)])).
Proof.
  split; [reflexivity|].
  apply (theme_reaches_every_screen fixtures.asciiLib fixtures.plain home
           config).
  reflexivity.
Defined.

(** The start, then a detail screen pushed and popped. *)
Lemma active_screen_has_window_size_witness :
  forallb (@callOk fixtures.plain)
    (startCalls ++ [routerUpdate (PushMsg (DetailScreen alphaDetail));
                    routerUpdate PopMsg]) = true
  /\ forallb (fun c => negb (@isSettingsApplied fixtures.plain c))
       (startCalls ++ [routerUpdate (PushMsg (DetailScreen alphaDetail));
                       routerUpdate PopMsg]) = true
  /\ topSized
       (routerCalls fixtures.asciiLib started
          (startCalls ++ [routerUpdate (PushMsg (DetailScreen alphaDetail));
                          routerUpdate PopMsg])).
Proof.
  split; [reflexivity|]. split; [reflexivity|].
  apply (active_screen_has_window_size fixtures.asciiLib fixtures.plain home
           config); reflexivity.
Defined.

(** The start, then keys and a pushed list screen. *)
Lemma selection_never_negative_witness :
  forallb (@callOk fixtures.plain)
    (startCalls ++ [routerUpdate (KeyPressMsg "k");
                    routerUpdate (PushMsg (ListScreen fixtures.loaded));
                    routerUpdate (KeyPressMsg "k")]) = true
  /\ stackOk
       (routerCalls fixtures.asciiLib started
          (startCalls ++ [routerUpdate (KeyPressMsg "k");
                          routerUpdate (PushMsg (ListScreen fixtures.loaded));
                          routerUpdate (KeyPressMsg "k")])).
Proof.
  split; [reflexivity|].
  apply (selection_never_negative fixtures.asciiLib fixtures.plain home
           config).
  reflexivity.
Defined.

(** A detail screen pushed over the list of three projects, and popped. *)
Lemma push_then_pop_witness :
  screens browsing = ([] ++ [ListScreen browsingList])%list
  /\ sizeOf (ListScreen browsingList) = (width browsing, height browsing)
  /\ isReady (ListScreen browsingList) = true
  /\ result (Update fixtures.asciiLib
               (fst (result (Update fixtures.asciiLib browsing
                               (PushMsg (DetailScreen alphaDetail)))))
               PopMsg)
     = (browsing, []).
Proof.
  split; [reflexivity|]. split; [reflexivity|]. split; [reflexivity|].
  destruct (push_then_pop fixtures.asciiLib fixtures.plain browsing []
              (ListScreen browsingList) (DetailScreen alphaDetail))
    as (_ & H); [reflexivity|].
  exact (H eq_refl eq_refl).
Defined.

(** [enter] on the first of three projects, then [esc]. *)
Lemma enter_opens_detail_esc_closes_witness :
  screens browsing = ([] ++ [ListScreen browsingList])%list
  /\ ProjectsListScreen.filtering browsingList = false
  /\ 0 <= ProjectsListScreen.selectedIdx browsingList
  /\ index (ProjectsListScreen.filteredProjects fixtures.asciiLib browsingList)
       (ProjectsListScreen.selectedIdx browsingList)
     = Some (fixtures.named "alpha")
  /\ ProjectsListScreen.ready browsingList = true
  /\ sizeOf (ListScreen browsingList) = (width browsing, height browsing)
  /\ exists open d,
       result (Update fixtures.asciiLib browsing (KeyPressMsg "enter"))
       = (browsing, [ScreenCmd open])
       /\ result (Update fixtures.asciiLib browsing
                    (delivered (result (open fixtures.world))))
          = (set_screens browsing
               [ListScreen browsingList; DetailScreen d], [])
       /\ ProjectDetailScreen.project d = fixtures.named "alpha".
Proof.
  split; [reflexivity|]. split; [reflexivity|]. split; [discriminate|].
  split; [reflexivity|]. split; [reflexivity|]. split; [reflexivity|].
  destruct (enter_opens_detail_esc_closes fixtures.asciiLib fixtures.plain
              browsing [] browsingList (fixtures.named "alpha")
              fixtures.world)
    as (open & close & d & H1 & _ & H3 & H4 & _);
    [reflexivity|reflexivity|discriminate|reflexivity|reflexivity
    |reflexivity|].
  exists open, d. split; [exact H1|]. split; [exact H3|exact H4].
Defined.

(** A projects directory given as [~projects], and the fixtures' root. *)
Lemma start_scans_projects_dir_witness :
  (exists root scn,
      screens (New fixtures.asciiLib fixtures.plain home
                 {| Projector_ProjectsDir := "~projects";
                    Projector_Scan_GitTimeout := 0;
                    Projector_Scan_Concurrency := 0;
                    App_Name := "projector";
                    App_Title := "Projector";
                    UI_AltScreen := true;
                    UI_MouseEnabled := false |})
      = [ListScreen root]
      /\ ProjectsListScreen.scanner root = Some scn
      /\ rootDir scn = "/home/u/projects")
  /\ exists root scn,
       screens started = [ListScreen root]
       /\ ProjectsListScreen.scanner root = Some scn
       /\ rootDir scn = fixtures.root.
Proof.
  split.
  - destruct (start_scans_projects_dir fixtures.asciiLib fixtures.plain
                fixtures.plainViews home
                {| Projector_ProjectsDir := "~projects";
                   Projector_Scan_GitTimeout := 0;
                   Projector_Scan_Concurrency := 0;
                   App_Name := "projector";
                   App_Title := "Projector";
                   UI_AltScreen := true;
                   UI_MouseEnabled := false |})
      as (root & scn & H1 & H2 & _ & _ & _ & H6 & _).
    exists root, scn. split; [exact H1|]. split; [exact H2|].
    exact (H6 "projects" eq_refl).
  - destruct (start_scans_projects_dir fixtures.asciiLib fixtures.plain
                fixtures.plainViews home config)
      as (root & scn & H1 & H2 & _ & _ & _ & _ & H7 & _).
    exists root, scn. split; [exact H1|]. split; [exact H2|].
    apply H7; [discriminate|reflexivity].
Defined.

End RouterExtras.
